(** * Order fulfillment saga of the order service

    A shallow embedding of [order_service]: the use case layer
    ([usecase.CreateOrder], [usecase.GetOrderByID],
    [usecase.UpdateOrderStatus], [usecase.ListOrdersByUserID]), the
    PostgreSQL repository (its listing query in [repository], its three
    other methods and their transactions in [postgresOrderRepository]), the
    gRPC client of the inventory ([inventoryGRPCClient]) and the two
    delivery layers that call the use case: the gRPC handler ([grpc],
    [grpcOrderHandler]) and the HTTP handler ([delivery],
    [httpOrderHandler]).

    Remote collaborators (the inventory client, the order repository, the
    SQL driver) are interfaces in the Go code; here they are type classes
    over an abstract world [W].  Every call through such an interface is
    recorded, with its arguments and its answer, in the list of events an
    operation returns, so that statements about "which calls were issued"
    are statements about that list. *)

From Stdlib Require Import ZArith Floats Lia Ascii.
From Stdlib Require DecimalString.
From stdpp Require Import gmap strings list.

Local Open Scope Z_scope.

(** ** Go's [int] *)

(** [int] is 64 bits wide on the platforms the service is built for;
    arithmetic wraps around. *)
Module GoInt.

Definition min_int : Z := - 2 ^ 63.
Definition max_int : Z := 2 ^ 63 - 1.

Definition in_int (z : Z) : Prop := min_int <= z <= max_int.

Definition wrap (z : Z) : Z := (z + 2 ^ 63) mod 2 ^ 64 - 2 ^ 63.

Definition add (a b : Z) : Z := wrap (a + b).
Definition sub (a b : Z) : Z := wrap (a - b).

(** [int32(x)] *)
Definition int32 (z : Z) : Z := (z + 2 ^ 31) mod 2 ^ 32 - 2 ^ 31.

End GoInt.

(** ** Go's [error] and the [(value, error)] return convention *)

(** An error value is kept as the call that built it: [errors.New msg], or
    [fmt.Errorf format args...] with its format string and its arguments
    (an error argument is what [%w] or [%v] prints). *)
Inductive error : Type :=
| New (msg : string)
| Errorf (format : string) (args : list fmtArg)
with fmtArg : Type :=
| ArgInt (z : Z)
| ArgStr (s : string)
| ArgErr (e : error).

Inductive result (A : Type) : Type :=
| Ok (a : A)
| Err (e : error).
Arguments Ok {A} a.
Arguments Err {A} e.

(** ** [package domain] *)
Module domain.

Definition OrderStatus := string.

Definition StatusPending : OrderStatus := "pending"%string.
Definition StatusCompleted : OrderStatus := "completed"%string.
Definition StatusCancelled : OrderStatus := "cancelled"%string.

(** [time.Time], only ever copied. *)
Definition Time := Z.

Record OrderItem : Type := {
  ProductID : Z;
  Quantity : Z;
  Price : float
}.

Record Order : Type := {
  ID : Z;
  UserID : Z;
  Items : list OrderItem;
  Status : OrderStatus;
  CreatedAt : Time;
  UpdatedAt : Time
}.

Definition IsValidStatus (status : OrderStatus) : bool :=
  String.eqb status StatusPending
  || String.eqb status StatusCompleted
  || String.eqb status StatusCancelled.

(** [type OrderRepository interface] *)
Class OrderRepository (W : Type) : Type := {
  CreateOrder : Order -> W -> result Order * W;
  GetOrderByID : Z -> W -> result Order * W;
  UpdateOrderStatus : Z -> OrderStatus -> W -> result Order * W;
  ListOrdersByUserID : Z -> Z -> Z -> W -> result (list Order) * W
}.

End domain.

(** ** [package clients] *)
Module clients.

Record Product : Type := {
  ID : Z;
  Name : string;
  Price : float;
  Stock : Z
}.

(** [type InventoryClient interface]; [UpdateStock] answers [None] for a
    nil error. *)
Class InventoryClient (W : Type) : Type := {
  GetProduct : Z -> W -> result Product * W;
  UpdateStock : Z -> Z -> W -> option error * W
}.

End clients.

(** ** Go's [range] over a map *)

(** The order in which [range] visits a map is not specified and changes
    from run to run; it is a parameter of the model.  [MapOrderLaws] says
    what Go does guarantee: every entry is visited exactly once. *)
Class MapOrder : Type := {
  rangeMap : forall {A : Type}, gmap Z A -> list (Z * A)
}.

Class MapOrderLaws `{MapOrder} : Prop := {
  rangeMap_perm : forall (A : Type) (m : gmap Z A), rangeMap m ≡ₚ map_to_list m
}.

(** ** Events and the monad of an operation *)

(** The arguments of a [db.Query] call: an integer, or [pq.Array] of
    integers. *)
Inductive sqlArg : Type :=
| SqlInt (z : Z)
| SqlIntArray (zs : list Z).

(** What an operation does to its collaborators, in the order it does it.
    [LogErrorf] records the lines the logger writes at error level
    ([Infof] and [Warnf] lines are not traced: they have no effect on
    control flow). *)
Inductive Event : Type :=
| CallGetProduct (productID : Z) (res : result clients.Product)
| CallUpdateStock (productID newStock : Z) (res : option error)
| CallRepoCreateOrder (order : domain.Order) (res : result domain.Order)
| CallRepoGetOrderByID (id : Z) (res : result domain.Order)
| CallRepoUpdateOrderStatus (id : Z) (status : domain.OrderStatus)
    (res : result domain.Order)
| CallRepoListOrders (userID limit offset : Z) (res : result (list domain.Order))
| SqlQuery (query : string) (args : list sqlArg)
| LogErrorf (format : string) (args : list fmtArg).

Record Outcome (W A : Type) : Type := {
  value : result A;
  events : list Event;
  final : W
}.
Arguments value {W A} _.
Arguments events {W A} _.
Arguments final {W A} _.

Definition M (W A : Type) : Type := W -> Outcome W A.

Definition ret {W A} (a : A) : M W A :=
  fun w => {| value := Ok a; events := []; final := w |}.

Definition fail {W A} (e : error) : M W A :=
  fun w => {| value := Err e; events := []; final := w |}.

Definition bind {W A B} (m : M W A) (k : A -> M W B) : M W B :=
  fun w =>
    let r := m w in
    match value r with
    | Err e => {| value := Err e; events := events r; final := final r |}
    | Ok a =>
        let r' := k a (final r) in
        {| value := value r'; events := events r ++ events r'; final := final r' |}
    end.

(** A call through an interface: the world moves, the event is recorded and
    the answer (possibly an error) is handed to the caller. *)
Definition call {W A} (f : W -> A * W) (ev : A -> Event) : M W A :=
  fun w =>
    let '(a, w') := f w in
    {| value := Ok a; events := [ev a]; final := w' |}.

(** Running a callee and looking at its [(value, error)] pair. *)
Definition attempt {W A} (m : M W A) : M W (result A) :=
  fun w =>
    let r := m w in
    {| value := Ok (value r); events := events r; final := final r |}.

Definition logLine {W} (line : Event) : M W unit :=
  fun w => {| value := Ok tt; events := [line]; final := w |}.

Definition logErrorf {W} (format : string) (args : list fmtArg) : M W unit :=
  logLine (LogErrorf format args).

Declare Scope go_scope.
Delimit Scope go_scope with go.
Notation "x <- m ;; k" := (bind m (fun x => k))
  (at level 100, m at next level, right associativity) : go_scope.
Notation "m ;;; k" := (bind m (fun _ => k))
  (at level 100, right associativity) : go_scope.

(** ** [package usecase] *)
Module usecase.

Local Open Scope go_scope.
Local Open Scope string_scope.

(** [type productCheckInfo struct]: the product as first read from the
    inventory, and the quantity the order asks of it so far. *)
Record productCheckInfo : Type := {
  Product : clients.Product;
  OrderQuantity : Z
}.

(** The errors the use case builds, with the text of the source. *)
Definition ErrInvalidUserID : error := New "invalid user ID".
Definition ErrNoItems : error := New "order must contain at least one item".
Definition ErrItemProductID (i : nat) : error :=
  Errorf "item %d: invalid product ID" [ArgInt (Z.of_nat i)].
Definition ErrItemQuantity (i : nat) (productID : Z) : error :=
  Errorf "item %d (product %d): quantity must be positive"
    [ArgInt (Z.of_nat i); ArgInt productID].
Definition ErrItemPrice (i : nat) (productID : Z) : error :=
  Errorf "item %d (product %d): price cannot be negative"
    [ArgInt (Z.of_nat i); ArgInt productID].
Definition ErrStatusNotPending : error :=
  Errorf "order can only be created with '%s' status" [ArgStr domain.StatusPending].
Definition ErrInventoryCheck (productID : Z) (err : error) : error :=
  Errorf "inventory check failed for product %d: %w" [ArgInt productID; ArgErr err].
Definition ErrInsufficientStock (productID requested available : Z) : error :=
  Errorf "insufficient stock for product %d (requested total: %d, available: %d)"
    [ArgInt productID; ArgInt requested; ArgInt available].
Definition ErrReserveStock (productID : Z) (err : error) : error :=
  Errorf "failed to reserve stock for product %d: %w" [ArgInt productID; ArgErr err].
Definition ErrSaveOrder (err : error) : error :=
  Errorf "failed to save order after reserving stock: %w" [ArgErr err].
Definition ErrInvalidOrderID : error := New "invalid order ID".
Definition ErrInvalidOrderIDForUpdate : error := New "invalid order ID for status update".
Definition ErrInvalidTargetStatus (status : domain.OrderStatus) : error :=
  Errorf "invalid target order status: %s" [ArgStr status].
Definition ErrCancelCompleted : error := New "cannot cancel a completed order".
Definition ErrChangeCancelled : error := New "cannot change status of a cancelled order".
Definition ErrListOrders (userID : Z) (err : error) : error :=
  Errorf "could not retrieve orders for user %d: %w" [ArgInt userID; ArgErr err].

(** A nil pointer dereference; the saga never reaches one
    (see [CreateOrder_never_panics]). *)
Definition ErrNilDereference : error :=
  New "panic: runtime error: invalid memory address or nil pointer dereference".

(** The lines the use case logs at error level, with the text of the
    source. *)
Definition lineDecreaseFailed (productID : Z) (err : error) : Event :=
  LogErrorf "Use Case: Failed to decrease stock for Product ID %d via gRPC: %v. Rolling back..."
    [ArgInt productID; ArgErr err].
Definition lineRollbackFailed (afterDBError : bool) (productID : Z) (err : error) : Event :=
  if afterDBError
  then LogErrorf "Use Case: CRITICAL! Failed to rollback stock via gRPC for Product ID %d after DB error: %v. Manual intervention required!"
         [ArgInt productID; ArgErr err]
  else LogErrorf "Use Case: CRITICAL! Failed to rollback stock via gRPC for Product ID %d: %v. Manual intervention required!"
         [ArgInt productID; ArgErr err].
Definition lineCreateFailed (userID : Z) (err : error) : Event :=
  LogErrorf "Use Case: Repository failed to create order for user %d AFTER inventory update: %v. Attempting rollback..."
    [ArgInt userID; ArgErr err].
Definition lineRestockReadFailed (productID id : Z) (err : error) : Event :=
  LogErrorf "Use Case: CRITICAL! Failed to get product %d info via gRPC to return stock for cancelled order %d: %v. Manual stock adjustment needed!"
    [ArgInt productID; ArgInt id; ArgErr err].
Definition lineRestockWriteFailed (productID quantity id : Z) (err : error) : Event :=
  LogErrorf "Use Case: CRITICAL! Failed to return stock via gRPC for Product ID %d (quantity %d) for cancelled order %d: %v. Manual stock adjustment needed!"
    [ArgInt productID; ArgInt quantity; ArgInt id; ArgErr err].
Definition lineStatusUpdateFailed (id : Z) (err : error) : Event :=
  LogErrorf "Use Case: Repository failed to update status for order ID %d: %v"
    [ArgInt id; ArgErr err].
Definition lineCancelInconsistent (id : Z) : Event :=
  LogErrorf "Use Case: WARNING! Failed to update order status to CANCELLED in DB after attempting inventory stock return for order %d. Potential inconsistency!"
    [ArgInt id].
Definition lineListFailed (userID : Z) (err : error) : Event :=
  LogErrorf "Use Case: Repository failed to list orders for user %d: %v"
    [ArgInt userID; ArgErr err].

Local Close Scope string_scope.

Section UseCase.

Context {W : Type}.
Context `{inventoryClient : clients.InventoryClient W}.
Context `{orderRepo : domain.OrderRepository W}.
Context `{mapOrder : MapOrder}.

(** The calls through [uc.inventoryClient] and [uc.orderRepo]. *)
Definition inventoryGetProduct (productID : Z) : M W (result clients.Product) :=
  call (clients.GetProduct productID) (CallGetProduct productID).
Definition inventoryUpdateStock (productID newStock : Z) : M W (option error) :=
  call (clients.UpdateStock productID newStock) (CallUpdateStock productID newStock).
Definition repoCreateOrder (order : domain.Order) : M W (result domain.Order) :=
  call (domain.CreateOrder order) (CallRepoCreateOrder order).
Definition repoGetOrderByID (id : Z) : M W (result domain.Order) :=
  call (domain.GetOrderByID id) (CallRepoGetOrderByID id).
Definition repoUpdateOrderStatus (id : Z) (status : domain.OrderStatus)
  : M W (result domain.Order) :=
  call (domain.UpdateOrderStatus id status) (CallRepoUpdateOrderStatus id status).
Definition repoListOrdersByUserID (userID limit offset : Z)
  : M W (result (list domain.Order)) :=
  call (domain.ListOrdersByUserID userID limit offset)
       (CallRepoListOrders userID limit offset).

(** *** CreateOrder *)

(** The loop over [order.Items] at the top of [CreateOrder]; [i] is the
    index of the first item of [items]. *)
Fixpoint validateItems (i : nat) (items : list domain.OrderItem) : option error :=
  match items with
  | [] => None
  | item :: rest =>
      if domain.ProductID item <=? 0 then Some (ErrItemProductID i)
      else if domain.Quantity item <=? 0
      then Some (ErrItemQuantity i (domain.ProductID item))
      else if PrimFloat.ltb (domain.Price item) 0%float
      then Some (ErrItemPrice i (domain.ProductID item))
      else validateItems (S i) rest
  end.

Definition withStatus (order : domain.Order) (status : domain.OrderStatus)
  : domain.Order :=
  {| domain.ID := domain.ID order;
     domain.UserID := domain.UserID order;
     domain.Items := domain.Items order;
     domain.Status := status;
     domain.CreatedAt := domain.CreatedAt order;
     domain.UpdatedAt := domain.UpdatedAt order |}.

Definition withItems (order : domain.Order) (items : list domain.OrderItem)
  : domain.Order :=
  {| domain.ID := domain.ID order;
     domain.UserID := domain.UserID order;
     domain.Items := items;
     domain.Status := domain.Status order;
     domain.CreatedAt := domain.CreatedAt order;
     domain.UpdatedAt := domain.UpdatedAt order |}.

Definition withPrice (item : domain.OrderItem) (price : float) : domain.OrderItem :=
  {| domain.ProductID := domain.ProductID item;
     domain.Quantity := domain.Quantity item;
     domain.Price := price |}.

(** The validation block: everything [CreateOrder] does before its first
    remote call.  It returns the order with its status defaulted. *)
Definition validate (order : domain.Order) : result domain.Order :=
  if domain.UserID order <=? 0 then Err ErrInvalidUserID
  else if (length (domain.Items order) =? 0)%nat then Err ErrNoItems
  else match validateItems 0 (domain.Items order) with
       | Some e => Err e
       | None =>
           let order :=
             if String.eqb (domain.Status order) EmptyString
             then withStatus order domain.StatusPending
             else order in
           if negb (String.eqb (domain.Status order) domain.StatusPending)
           then Err ErrStatusNotPending
           else Ok order
       end.

(** The inventory check loop.  For one item, [currentRequested] is the
    quantity asked of its product so far, this item included, and
    [recordItem] is the update of [productsInfo] once the check passed. *)
Definition currentRequested (item : domain.OrderItem)
    (productsInfo : gmap Z productCheckInfo) : Z :=
  match productsInfo !! domain.ProductID item with
  | Some existing => GoInt.add (domain.Quantity item) (OrderQuantity existing)
  | None => domain.Quantity item
  end.

Definition recordItem (item : domain.OrderItem) (product : clients.Product)
    (productsInfo : gmap Z productCheckInfo) : gmap Z productCheckInfo :=
  match productsInfo !! domain.ProductID item with
  | Some existing =>
      <[domain.ProductID item :=
          {| Product := Product existing;
             OrderQuantity := GoInt.add (OrderQuantity existing) (domain.Quantity item) |}]>
        productsInfo
  | None =>
      <[domain.ProductID item :=
          {| Product := product; OrderQuantity := domain.Quantity item |}]>
        productsInfo
  end.

(** The loop returns the items with their prices stamped, and the
    [productsInfo] map. *)
Fixpoint checkItems (items : list domain.OrderItem)
    (productsInfo : gmap Z productCheckInfo)
  : M W (list domain.OrderItem * gmap Z productCheckInfo) :=
  match items with
  | [] => ret ([], productsInfo)
  | item :: rest =>
      r <- inventoryGetProduct (domain.ProductID item) ;;
      match r with
      | Err err => fail (ErrInventoryCheck (domain.ProductID item) err)
      | Ok product =>
          let stamped := withPrice item (clients.Price product) in
          if clients.Stock product <? currentRequested item productsInfo
          then fail (ErrInsufficientStock (domain.ProductID item)
                       (currentRequested item productsInfo) (clients.Stock product))
          else
            checked <- checkItems rest (recordItem item product productsInfo) ;;
            ret (stamped :: checked.1, checked.2)
      end
  end.

(** The rollback loop over [successfullyDecreased], in the order [range]
    yields its entries; it appears twice in the source, with two log
    texts.  The value of an entry ([quantityDecreased]) is incremented and
    never read; [productsInfo[idToRollback]] on a key that is not in the
    map would give a nil [Product], dereferenced on the next line. *)
Fixpoint rollback (afterDBError : bool) (productsInfo : gmap Z productCheckInfo)
    (entries : list (Z * Z)) : M W unit :=
  match entries with
  | [] => ret tt
  | (idToRollback, _) :: rest =>
      match productsInfo !! idToRollback with
      | None => fail ErrNilDereference
      | Some currentInfoToRollback =>
          let rollbackStock := clients.Stock (Product currentInfoToRollback) in
          rollbackErr <- inventoryUpdateStock idToRollback rollbackStock ;;
          (match rollbackErr with
           | Some e => logLine (lineRollbackFailed afterDBError idToRollback e)
           | None => ret tt
           end) ;;;
          rollback afterDBError productsInfo rest
      end
  end.

(** The reservation loop over [productsInfo], in the order [range] yields
    its entries. *)
Fixpoint reserve (productsInfo : gmap Z productCheckInfo)
    (entries : list (Z * productCheckInfo)) (successfullyDecreased : gmap Z Z)
  : M W (gmap Z Z) :=
  match entries with
  | [] => ret successfullyDecreased
  | (productID, info) :: rest =>
      let newStock := GoInt.sub (clients.Stock (Product info)) (OrderQuantity info) in
      err <- inventoryUpdateStock productID newStock ;;
      match err with
      | Some e =>
          logLine (lineDecreaseFailed productID e) ;;;
          rollback false productsInfo (rangeMap successfullyDecreased) ;;;
          fail (ErrReserveStock productID e)
      | None =>
          reserve productsInfo rest
            (<[productID := OrderQuantity info]> successfullyDecreased)
      end
  end.

Definition CreateOrder (order : domain.Order) : M W domain.Order :=
  match validate order with
  | Err e => fail e
  | Ok order =>
      checked <- checkItems (domain.Items order) ∅ ;;
      let productsInfo := checked.2 in
      let order := withItems order checked.1 in
      successfullyDecreased <- reserve productsInfo (rangeMap productsInfo) ∅ ;;
      r <- repoCreateOrder order ;;
      match r with
      | Err err =>
          logLine (lineCreateFailed (domain.UserID order) err) ;;;
          rollback true productsInfo (rangeMap successfullyDecreased) ;;;
          fail (ErrSaveOrder err)
      | Ok createdOrder => ret createdOrder
      end
  end.

(** *** GetOrderByID *)

Definition GetOrderByID (id : Z) : M W domain.Order :=
  if id <=? 0 then fail ErrInvalidOrderID
  else
    r <- repoGetOrderByID id ;;
    match r with
    | Err err => fail err
    | Ok order => ret order
    end.

(** *** UpdateOrderStatus *)

(** The loop that returns the items of a cancelled order to the
    inventory. *)
Fixpoint returnItems (id : Z) (items : list domain.OrderItem) : M W unit :=
  match items with
  | [] => ret tt
  | item :: rest =>
      r <- inventoryGetProduct (domain.ProductID item) ;;
      (match r with
       | Err err => logLine (lineRestockReadFailed (domain.ProductID item) id err)
       | Ok product =>
           let newStock := GoInt.add (clients.Stock product) (domain.Quantity item) in
           err <- inventoryUpdateStock (domain.ProductID item) newStock ;;
           match err with
           | Some e =>
               logLine
                 (lineRestockWriteFailed (domain.ProductID item) (domain.Quantity item) id e)
           | None => ret tt
           end
       end) ;;;
      returnItems id rest
  end.

Definition UpdateOrderStatus (id : Z) (status : domain.OrderStatus)
  : M W domain.Order :=
  if id <=? 0 then fail ErrInvalidOrderIDForUpdate
  else if negb (domain.IsValidStatus status) then fail (ErrInvalidTargetStatus status)
  else
    r <- repoGetOrderByID id ;;
    match r with
    | Err err => fail err
    | Ok currentOrder =>
        if String.eqb (domain.Status currentOrder) domain.StatusCompleted
           && String.eqb status domain.StatusCancelled
        then fail ErrCancelCompleted
        else if String.eqb (domain.Status currentOrder) domain.StatusCancelled
                && negb (String.eqb status domain.StatusCancelled)
        then fail ErrChangeCancelled
        else
          let isCancelling :=
            String.eqb status domain.StatusCancelled
            && negb (String.eqb (domain.Status currentOrder) domain.StatusCancelled) in
          (if isCancelling then returnItems id (domain.Items currentOrder) else ret tt) ;;;
          r <- repoUpdateOrderStatus id status ;;
          match r with
          | Err err =>
              logLine (lineStatusUpdateFailed id err) ;;;
              (if isCancelling then logLine (lineCancelInconsistent id) else ret tt) ;;;
              fail err
          | Ok updatedOrder => ret updatedOrder
          end
    end.

(** *** ListOrdersByUserID *)

Definition ListOrdersByUserID (userID limit offset : Z) : M W (list domain.Order) :=
  if userID <=? 0 then fail ErrInvalidUserID
  else
    r <- repoListOrdersByUserID userID limit offset ;;
    match r with
    | Err err => logLine (lineListFailed userID err) ;;; fail (ErrListOrders userID err)
    | Ok orders => ret orders
    end.

End UseCase.

End usecase.

(** ** [package repository]: the listing query *)
Module repository.

Local Open Scope go_scope.

(** What [db.Query], the [rows.Next]/[rows.Scan] loop and [rows.Err] give
    the repository: the query fails, a row fails to scan, the iteration
    ends on an error, or all rows are scanned. *)
Inductive Rows (A : Type) : Type :=
| QueryFailed (err : error)
| ScanFailed (err : error)
| IterationFailed (err : error)
| Scanned (rows : list A).
Arguments QueryFailed {A} err.
Arguments ScanFailed {A} err.
Arguments IterationFailed {A} err.
Arguments Scanned {A} rows.

(** The columns scanned from a row of [orders]. *)
Record OrderRow : Type := {
  id : Z;
  user_id : Z;
  status : domain.OrderStatus;
  created_at : domain.Time;
  updated_at : domain.Time
}.

Definition ordersQuery : string :=
  "SELECT id, user_id, status, created_at, updated_at FROM orders WHERE user_id = $1 ORDER BY created_at DESC LIMIT $2 OFFSET $3"%string.
Definition itemsQuery : string :=
  "SELECT order_id, product_id, quantity, price FROM order_items WHERE order_id = ANY($1::int[]) ORDER BY order_id"%string.

(** The database as [ListOrdersByUserID] sees it: the two queries, with
    their arguments. *)
Class DB (W : Type) : Type := {
  QueryOrders : Z -> Z -> Z -> W -> Rows OrderRow * W;
  QueryItems : list Z -> W -> Rows (Z * domain.OrderItem) * W
}.

Definition scanOrder (row : OrderRow) : domain.Order :=
  {| domain.ID := id row;
     domain.UserID := user_id row;
     domain.Items := [];
     domain.Status := status row;
     domain.CreatedAt := created_at row;
     domain.UpdatedAt := updated_at row |}.

(** [itemsMap[orderID] = append(itemsMap[orderID], item)] over the rows. *)
Definition groupItems (rows : list (Z * domain.OrderItem))
  : gmap Z (list domain.OrderItem) :=
  fold_left
    (fun itemsMap row => <[row.1 := default [] (itemsMap !! row.1) ++ [row.2]]> itemsMap)
    rows ∅.

Definition attachItems (itemsMap : gmap Z (list domain.OrderItem))
    (order : domain.Order) : domain.Order :=
  {| domain.ID := domain.ID order;
     domain.UserID := domain.UserID order;
     domain.Items := default [] (itemsMap !! domain.ID order);
     domain.Status := domain.Status order;
     domain.CreatedAt := domain.CreatedAt order;
     domain.UpdatedAt := domain.UpdatedAt order |}.

Section Postgres.

Context {W : Type}.
Context `{db : DB W}.

Definition ListOrdersByUserID (userID limit offset : Z) : M W (list domain.Order) :=
  let limit := if (limit <=? 0) || (100 <? limit) then 10 else limit in
  let offset := if offset <? 0 then 0 else offset in
  rows <- call (QueryOrders userID limit offset)
            (fun _ => SqlQuery ordersQuery [SqlInt userID; SqlInt limit; SqlInt offset]) ;;
  match rows with
  | QueryFailed err =>
      logErrorf "Failed to list orders for user ID %d: %v" [ArgInt userID; ArgErr err] ;;;
      fail (Errorf "could not retrieve orders: %w" [ArgErr err])
  | ScanFailed err =>
      logErrorf "Failed to scan order row for user ID %d: %v" [ArgInt userID; ArgErr err] ;;;
      fail (Errorf "error scanning order data: %w" [ArgErr err])
  | IterationFailed err =>
      logErrorf "Error during orders iteration for user ID %d: %v"
        [ArgInt userID; ArgErr err] ;;;
      fail (Errorf "error iterating orders: %w" [ArgErr err])
  | Scanned rows =>
      let orders := map scanOrder rows in
      let orderIDs := map id rows in
      if (length orders =? 0)%nat then ret []
      else
        itemRows <- call (QueryItems orderIDs)
                      (fun _ => SqlQuery itemsQuery [SqlIntArray orderIDs]) ;;
        match itemRows with
        | QueryFailed err =>
            logErrorf "Failed to query items for multiple orders (%v): %v"
              (map ArgInt orderIDs ++ [ArgErr err]) ;;;
            fail (Errorf "could not retrieve order items for list: %w" [ArgErr err])
        | ScanFailed err =>
            logErrorf "Failed to scan order item row during multi-order fetch: %v"
              [ArgErr err] ;;;
            fail (Errorf "error scanning order item data for list: %w" [ArgErr err])
        | IterationFailed err =>
            logErrorf "Error during multi-order items iteration: %v" [ArgErr err] ;;;
            fail (Errorf "error iterating order items for list: %w" [ArgErr err])
        | Scanned itemRows =>
            ret (map (attachItems (groupItems itemRows)) orders)
        end
  end.

(** The repository as the use case receives it.  Only the listing query is
    embedded; the three other methods are taken as they come. *)
Definition postgresOrderRepository
    (createOrder : domain.Order -> W -> result domain.Order * W)
    (getOrderByID : Z -> W -> result domain.Order * W)
    (updateOrderStatus : Z -> domain.OrderStatus -> W -> result domain.Order * W)
  : domain.OrderRepository W :=
  {| domain.CreateOrder := createOrder;
     domain.GetOrderByID := getOrderByID;
     domain.UpdateOrderStatus := updateOrderStatus;
     domain.ListOrdersByUserID := fun userID limit offset w =>
       let r := ListOrdersByUserID userID limit offset w in (value r, final r) |}.

End Postgres.

End repository.

(** ** [strconv.Atoi] *)
Module strconv.

Definition digit (c : Ascii.ascii) : option Z :=
  let n := Z.of_N (Ascii.N_of_ascii c) in
  if (48 <=? n) && (n <=? 57) then Some (n - 48) else None.

Fixpoint digits (s : string) (acc : Z) : option Z :=
  match s with
  | EmptyString => Some acc
  | String c rest =>
      match digit c with
      | Some d => digits rest (10 * acc + d)
      | None => None
      end
  end.

(** An optional sign, then one or more decimal digits, the value within
    the range of [int]; anything else is an error ([None]). *)
Definition Atoi (s : string) : option Z :=
  let signed (negative : bool) (body : string) : option Z :=
    match body with
    | EmptyString => None
    | _ =>
        match digits body 0 with
        | Some n =>
            let v := if negative then - n else n in
            if (GoInt.min_int <=? v) && (v <=? GoInt.max_int) then Some v else None
        | None => None
        end
    end in
  match s with
  | String "+"%char rest => signed false rest
  | String "-"%char rest => signed true rest
  | _ => signed false s
  end.

End strconv.

(** ** [package delivery]: the HTTP handler's [ListOrders] *)
Module delivery.

Local Open Scope go_scope.

(** What [ListOrders] reads of the [gin.Context]: the [X-User-ID] header
    (empty when absent) and the two query parameters (absent or given). *)
Record Context : Type := {
  XUserID : string;
  limit : option string;
  offset : option string
}.

(** [type Response struct] and the status code it is written with. *)
Record Response : Type := {
  Status : string;
  Message : string;
  Data : option (list domain.Order)
}.

Record Written : Type := {
  statusCode : Z;
  body : Response
}.

Definition StatusOK : Z := 200.
Definition StatusUnauthorized : Z := 401.
Definition StatusInternalServerError : Z := 500.

Definition SuccessResponse (statusCode : Z) (message : string)
    (data : list domain.Order) : Written :=
  {| statusCode := statusCode;
     body := {| Status := "Success"; Message := message; Data := Some data |} |}.

Definition ErrorResponse (statusCode : Z) (message : string) : Written :=
  {| statusCode := statusCode;
     body := {| Status := "Fail"; Message := message; Data := None |} |}.

(** [c.DefaultQuery(key, defaultValue)] *)
Definition DefaultQuery (param : option string) (defaultValue : string) : string :=
  default defaultValue param.

(** The two parsing blocks of [ListOrders]. *)
Definition parseLimit (limitStr : string) : Z :=
  let limit :=
    match strconv.Atoi limitStr with
    | Some limit => if limit <? 0 then 10 else limit
    | None => 10
    end in
  if 100 <? limit then 100 else limit.

Definition parseOffset (offsetStr : string) : Z :=
  match strconv.Atoi offsetStr with
  | Some offset => if offset <? 0 then 0 else offset
  | None => 0
  end.

Section Handler.

Context {W : Type}.
Context `{orderRepo : domain.OrderRepository W}.

Definition ListOrders (c : Context) : M W Written :=
  let userIDStr := XUserID c in
  if String.eqb userIDStr EmptyString
  then
    logErrorf "X-User-ID header is missing for ListOrders" [] ;;;
    ret (ErrorResponse StatusUnauthorized "User identification missing")
  else
    match strconv.Atoi userIDStr with
    | Some userID =>
        if userID <=? 0
        then
          logErrorf "Invalid X-User-ID header value for ListOrders: %s" [ArgStr userIDStr] ;;;
          ret (ErrorResponse StatusInternalServerError "Invalid user identification data")
        else
          let limitStr := DefaultQuery (limit c) "10" in
          let offsetStr := DefaultQuery (offset c) "0" in
          let limit := parseLimit limitStr in
          let offset := parseOffset offsetStr in
          r <- attempt (usecase.ListOrdersByUserID userID limit offset) ;;
          match r with
          | Err err =>
              logErrorf "Failed to list orders for user %d: %v" [ArgInt userID; ArgErr err] ;;;
              ret (ErrorResponse StatusInternalServerError "Failed to retrieve orders")
          | Ok orders =>
              if (length orders =? 0)%nat
              then ret (SuccessResponse StatusOK "No orders found for this user" [])
              else ret (SuccessResponse StatusOK "Orders retrieved successfully" orders)
          end
    | None =>
        logErrorf "Invalid X-User-ID header value for ListOrders: %s" [ArgStr userIDStr] ;;;
        ret (ErrorResponse StatusInternalServerError "Invalid user identification data")
    end.

End Handler.

End delivery.

(** ** [package grpc]: the gRPC handler's [ListOrders] *)
Module grpc.

Local Open Scope go_scope.

(** The messages of [order.proto]. *)
Inductive OrderStatus : Type :=
| ORDER_STATUS_UNSPECIFIED
| PENDING
| COMPLETED
| CANCELLED.

Record OrderItem : Type := {
  ProductId : Z;
  Quantity : Z;
  Price : float
}.

Record Order : Type := {
  Id : Z;
  UserId : Z;
  Items : list OrderItem;
  Status : OrderStatus;
  CreatedAt : domain.Time;
  UpdatedAt : domain.Time
}.

Record ListOrdersRequest : Type := {
  reqUserId : Z;
  reqLimit : Z;
  reqOffset : Z
}.

(** What the handler returns: the response, a status built in the handler,
    or the status [mapOrderDomainErrorToGrpcStatus] derives from a use
    case error (kept as that error). *)
Inductive Reply (A : Type) : Type :=
| Response (a : A)
| InvalidArgument (message : string)
| FromDomainError (err : error).
Arguments Response {A} a.
Arguments InvalidArgument {A} message.
Arguments FromDomainError {A} err.

Definition mapDomainStatusToProto (domainStatus : domain.OrderStatus) : OrderStatus :=
  if String.eqb domainStatus domain.StatusPending then PENDING
  else if String.eqb domainStatus domain.StatusCompleted then COMPLETED
  else if String.eqb domainStatus domain.StatusCancelled then CANCELLED
  else ORDER_STATUS_UNSPECIFIED.

Definition mapDomainItemsToProto (domainItems : list domain.OrderItem) : list OrderItem :=
  map (fun item =>
         {| ProductId := domain.ProductID item;
            Quantity := GoInt.int32 (domain.Quantity item);
            Price := domain.Price item |})
      domainItems.

Definition mapDomainOrderToProto (order : domain.Order) : Order :=
  {| Id := domain.ID order;
     UserId := domain.UserID order;
     Items := mapDomainItemsToProto (domain.Items order);
     Status := mapDomainStatusToProto (domain.Status order);
     CreatedAt := domain.CreatedAt order;
     UpdatedAt := domain.UpdatedAt order |}.

Section Handler.

Context {W : Type}.
Context `{orderRepo : domain.OrderRepository W}.

Definition ListOrders (req : ListOrdersRequest) : M W (Reply (list Order)) :=
  let userID := reqUserId req in
  let limit := reqLimit req in
  let offset := reqOffset req in
  if userID <=? 0 then ret (InvalidArgument "Invalid User ID")
  else
    r <- attempt (usecase.ListOrdersByUserID userID limit offset) ;;
    match r with
    | Err err =>
        logErrorf "gRPC Handler: ListOrdersByUserID use case error for UserID %d: %v"
          [ArgInt userID; ArgErr err] ;;;
        ret (FromDomainError err)
    | Ok orders => ret (Response (map mapDomainOrderToProto orders))
    end.

End Handler.

End grpc.

(** ** An in-memory inventory and order store

    A scripted test double for the collaborators: products and orders are
    kept in maps, and the next answers of the inventory can be scripted to
    fail.  It is used to run the operations on concrete inputs. *)
Module inmem.

Record World : Type := {
  products : gmap Z clients.Product;
  getFaults : list (option error);
  updateFaults : list (option error);
  orders : gmap Z domain.Order;
  nextID : Z;
  now : domain.Time;
  storeFault : option error
}.

Definition withProducts (w : World) (ps : gmap Z clients.Product) : World :=
  {| products := ps; getFaults := getFaults w; updateFaults := updateFaults w;
     orders := orders w; nextID := nextID w; now := now w;
     storeFault := storeFault w |}.

Definition withGetFaults (w : World) (fs : list (option error)) : World :=
  {| products := products w; getFaults := fs; updateFaults := updateFaults w;
     orders := orders w; nextID := nextID w; now := now w;
     storeFault := storeFault w |}.

Definition withUpdateFaults (w : World) (fs : list (option error)) : World :=
  {| products := products w; getFaults := getFaults w; updateFaults := fs;
     orders := orders w; nextID := nextID w; now := now w;
     storeFault := storeFault w |}.

Definition withOrders (w : World) (os : gmap Z domain.Order) (next : Z) : World :=
  {| products := products w; getFaults := getFaults w; updateFaults := updateFaults w;
     orders := os; nextID := next; now := now w;
     storeFault := storeFault w |}.

Definition withStock (p : clients.Product) (stock : Z) : clients.Product :=
  {| clients.ID := clients.ID p; clients.Name := clients.Name p;
     clients.Price := clients.Price p; clients.Stock := stock |}.

Definition lookupProduct (productID : Z) (w : World) : result clients.Product :=
  match products w !! productID with
  | Some p => Ok p
  | None => Err (Errorf "product with ID %d not found in inventory" [ArgInt productID])
  end.

Definition GetProduct (productID : Z) (w : World) : result clients.Product * World :=
  match getFaults w with
  | Some e :: rest => (Err e, withGetFaults w rest)
  | None :: rest => (lookupProduct productID w, withGetFaults w rest)
  | [] => (lookupProduct productID w, w)
  end.

Definition storeStock (productID newStock : Z) (w : World) : option error * World :=
  if newStock <? 0 then (Some (Errorf "stock cannot be negative" []), w)
  else
    match products w !! productID with
    | Some p => (None, withProducts w (<[productID := withStock p newStock]> (products w)))
    | None =>
        (Some (Errorf "product with ID %d not found in inventory for update"
                 [ArgInt productID]), w)
    end.

Definition UpdateStock (productID newStock : Z) (w : World) : option error * World :=
  match updateFaults w with
  | Some e :: rest => (Some e, withUpdateFaults w rest)
  | None :: rest => storeStock productID newStock (withUpdateFaults w rest)
  | [] => storeStock productID newStock w
  end.

#[global] Instance inventory : clients.InventoryClient World :=
  {| clients.GetProduct := GetProduct; clients.UpdateStock := UpdateStock |}.

Definition CreateOrder (order : domain.Order) (w : World) : result domain.Order * World :=
  match storeFault w with
  | Some e => (Err e, w)
  | None =>
      let created :=
        {| domain.ID := nextID w;
           domain.UserID := domain.UserID order;
           domain.Items := domain.Items order;
           domain.Status := domain.Status order;
           domain.CreatedAt := now w;
           domain.UpdatedAt := now w |} in
      (Ok created, withOrders w (<[nextID w := created]> (orders w)) (nextID w + 1))
  end.

Definition GetOrderByID (id : Z) (w : World) : result domain.Order * World :=
  match orders w !! id with
  | Some order => (Ok order, w)
  | None => (Err (Errorf "order with id %d not found" [ArgInt id]), w)
  end.

Definition UpdateOrderStatus (id : Z) (status : domain.OrderStatus) (w : World)
  : result domain.Order * World :=
  match storeFault w with
  | Some e => (Err e, w)
  | None =>
      match orders w !! id with
      | Some order =>
          let updated :=
            {| domain.ID := domain.ID order;
               domain.UserID := domain.UserID order;
               domain.Items := domain.Items order;
               domain.Status := status;
               domain.CreatedAt := domain.CreatedAt order;
               domain.UpdatedAt := now w |} in
          (Ok updated, withOrders w (<[id := updated]> (orders w)) (nextID w))
      | None => (Err (Errorf "order with id %d not found for update" [ArgInt id]), w)
      end
  end.

Definition rowOf (order : domain.Order) : repository.OrderRow :=
  {| repository.id := domain.ID order;
     repository.user_id := domain.UserID order;
     repository.status := domain.Status order;
     repository.created_at := domain.CreatedAt order;
     repository.updated_at := domain.UpdatedAt order |}.

Definition QueryOrders (userID limit offset : Z) (w : World)
  : repository.Rows repository.OrderRow * World :=
  let matching :=
    filter (fun order => domain.UserID order = userID) (map snd (map_to_list (orders w))) in
  (repository.Scanned
     (map rowOf (take (Z.to_nat limit) (drop (Z.to_nat offset) matching))), w).

Definition QueryItems (orderIDs : list Z) (w : World)
  : repository.Rows (Z * domain.OrderItem) * World :=
  (repository.Scanned
     (flat_map
        (fun orderID =>
           match orders w !! orderID with
           | Some order => map (fun item => (orderID, item)) (domain.Items order)
           | None => []
           end)
        orderIDs), w).

#[global] Instance database : repository.DB World :=
  {| repository.QueryOrders := QueryOrders; repository.QueryItems := QueryItems |}.

#[global] Instance store : domain.OrderRepository World :=
  repository.postgresOrderRepository CreateOrder GetOrderByID UpdateOrderStatus.

(** Two orders [range] may take: that of the map's listing, and the
    opposite one. *)
Definition forwards : MapOrder := {| rangeMap := fun A m => map_to_list m |}.
Definition backwards : MapOrder := {| rangeMap := fun A m => reverse (map_to_list m) |}.

Definition emptyWorld : World :=
  {| products := ∅; getFaults := []; updateFaults := [];
     orders := ∅; nextID := 1; now := 0; storeFault := None |}.

Definition product (id : Z) (name : string) (price : float) (stock : Z)
  : clients.Product :=
  {| clients.ID := id; clients.Name := name; clients.Price := price;
     clients.Stock := stock |}.

Definition item (productID quantity : Z) (price : float) : domain.OrderItem :=
  {| domain.ProductID := productID; domain.Quantity := quantity;
     domain.Price := price |}.

Definition request (userID : Z) (items : list domain.OrderItem) : domain.Order :=
  {| domain.ID := 0; domain.UserID := userID; domain.Items := items;
     domain.Status := EmptyString; domain.CreatedAt := 0; domain.UpdatedAt := 0 |}.

End inmem.

(** ** Scenarios

    Worlds and requests for the in-memory collaborators.  Product 7 has
    stock 5 and price 10.00, product 8 has stock 9 and price 1.50. *)
Module Scenario.

Import inmem.

Definition P : clients.Product := product 7 "P" 10%float 5.
Definition Q : clients.Product := product 8 "Q" 1.5%float 9.

Definition shop : World := withProducts emptyWorld (<[7 := P]> (<[8 := Q]> ∅)).

(** The second stock update of the run fails. *)
Definition flakyShop : World :=
  withUpdateFaults shop [None; Some (New "connection reset")].

(** The store refuses every write. *)
Definition shopWithBrokenStore : World :=
  {| products := products shop; getFaults := []; updateFaults := [];
     orders := ∅; nextID := 1; now := 0; storeFault := Some (New "database is down") |}.

Definition twoLines : domain.Order := request 1 [item 7 2 0%float; item 7 2 99%float].
Definition threeLines : domain.Order :=
  request 1 [item 7 2 0%float; item 7 2 0%float; item 7 2 0%float].
Definition twoProducts : domain.Order := request 1 [item 7 2 0%float; item 8 2 3%float].

Definition storedOrder (status : domain.OrderStatus) : domain.Order :=
  {| domain.ID := 1; domain.UserID := 1;
     domain.Items := [item 7 2 10%float; item 8 1 1.5%float];
     domain.Status := status; domain.CreatedAt := 0; domain.UpdatedAt := 0 |}.

(** A shop with order 1 stored in the given status. *)
Definition shopWithOrder (status : domain.OrderStatus) : World :=
  withOrders shop (<[1 := storedOrder status]> ∅) 2.

End Scenario.

(** ** Reading a list of events *)
Module Trace.

Definition isGetProduct (ev : Event) : bool :=
  match ev with CallGetProduct _ _ => true | _ => false end.

Definition isUpdateStock (ev : Event) : bool :=
  match ev with CallUpdateStock _ _ _ => true | _ => false end.

Definition isInventoryCall (ev : Event) : bool :=
  isGetProduct ev || isUpdateStock ev.

Definition isFailedUpdate (ev : Event) : bool :=
  match ev with CallUpdateStock _ _ (Some _) => true | _ => false end.

Definition isRepoCreate (ev : Event) : bool :=
  match ev with CallRepoCreateOrder _ _ => true | _ => false end.

(** The reservation pass of [CreateOrder] is over at the first stock update
    that fails, or at the call that saves the order. *)
Definition endsReservation (ev : Event) : bool :=
  isFailedUpdate ev || isRepoCreate ev.

(** The products the inventory returned, in the order they were read. *)
Fixpoint reads (evs : list Event) : list (Z * clients.Product) :=
  match evs with
  | [] => []
  | CallGetProduct productID (Ok p) :: rest => (productID, p) :: reads rest
  | _ :: rest => reads rest
  end.

(** The product the inventory returned the first time [productID] was
    read. *)
Fixpoint firstRead (productID : Z) (evs : list Event) : option clients.Product :=
  match evs with
  | [] => None
  | CallGetProduct productID' (Ok p) :: rest =>
      if decide (productID' = productID) then Some p else firstRead productID rest
  | _ :: rest => firstRead productID rest
  end.

(** The stock update that reserves one entry of [productsInfo], answered
    without error. *)
Definition reservation (entry : Z * usecase.productCheckInfo) : Event :=
  CallUpdateStock entry.1
    (GoInt.sub (clients.Stock (usecase.Product entry.2)) (usecase.OrderQuantity entry.2))
    None.

Definition isLog (ev : Event) : bool :=
  match ev with LogErrorf _ _ => true | _ => false end.

(** What returning one item of a cancelled order to the inventory looks
    like: the product is read, then its stock is set to the stock just read
    plus the quantity of the item (Go's [+]); a read or an update that
    fails is logged, and a failed read is not followed by an update. *)
Inductive restocked (id : Z) (item : domain.OrderItem) : list Event -> Prop :=
| restocked_ok (p : clients.Product) :
    restocked id item
      [CallGetProduct (domain.ProductID item) (Ok p);
       CallUpdateStock (domain.ProductID item)
         (GoInt.add (clients.Stock p) (domain.Quantity item)) None]
| restocked_write_failed (p : clients.Product) (e : error) :
    restocked id item
      [CallGetProduct (domain.ProductID item) (Ok p);
       CallUpdateStock (domain.ProductID item)
         (GoInt.add (clients.Stock p) (domain.Quantity item)) (Some e);
       usecase.lineRestockWriteFailed (domain.ProductID item) (domain.Quantity item) id e]
| restocked_read_failed (e : error) :
    restocked id item
      [CallGetProduct (domain.ProductID item) (Err e);
       usecase.lineRestockReadFailed (domain.ProductID item) id e].

End Trace.

(** ** Requests *)
Module Request.

(** The quantity an order asks of one product, over all its lines. *)
Definition aggregate (productID : Z) (items : list domain.OrderItem) : Z :=
  foldr (fun item total =>
           if decide (domain.ProductID item = productID)
           then domain.Quantity item + total else total)
        0 items.

(** [productsInfo] after the items [done] have been checked: for every
    product, the quantity recorded is what [done] asks of it. *)
Definition tracks (info : gmap Z usecase.productCheckInfo)
    (done : list domain.OrderItem) : Prop :=
  forall productID,
    match info !! productID with
    | Some ci => usecase.OrderQuantity ci = aggregate productID done
    | None => aggregate productID done = 0
    end.

(** A request that passes the validation block of [CreateOrder]. *)
Record WellFormed (order : domain.Order) : Prop := {
  wf_user : 0 < domain.UserID order;
  wf_items : domain.Items order <> [];
  wf_each : Forall (fun item => 0 < domain.ProductID item
                                /\ 0 < domain.Quantity item
                                /\ PrimFloat.ltb (domain.Price item) 0%float = false)
              (domain.Items order);
  wf_status : domain.Status order = EmptyString
              \/ domain.Status order = domain.StatusPending
}.

(** What the claims call a request with an invalid user, no item, or an
    item with a non-positive product or quantity. *)
Definition Malformed (order : domain.Order) : Prop :=
  domain.UserID order <= 0
  \/ domain.Items order = []
  \/ Exists (fun item => domain.ProductID item <= 0 \/ domain.Quantity item <= 0)
       (domain.Items order).

(** The status changes [UpdateOrderStatus] lets through to the store,
    among those that change the status. *)
Definition acceptedTransitions : list (domain.OrderStatus * domain.OrderStatus) :=
  [(domain.StatusPending, domain.StatusCompleted);
   (domain.StatusPending, domain.StatusCancelled);
   (domain.StatusCompleted, domain.StatusPending)].

(** The two errors of the transition guard. *)
Inductive InvalidTransitionError : error -> Prop :=
| CancelCompleted : InvalidTransitionError usecase.ErrCancelCompleted
| ChangeCancelled : InvalidTransitionError usecase.ErrChangeCancelled.

(** The errors of the validation block. *)
Inductive ValidationError : error -> Prop :=
| InvalidUser : ValidationError usecase.ErrInvalidUserID
| NoItems : ValidationError usecase.ErrNoItems
| BadProductID i : ValidationError (usecase.ErrItemProductID i)
| BadQuantity i productID : ValidationError (usecase.ErrItemQuantity i productID)
| BadPrice i productID : ValidationError (usecase.ErrItemPrice i productID)
| BadStatus : ValidationError usecase.ErrStatusNotPending.

End Request.

(** ** What the model leaves to Go's libraries *)

(** An operand of a format, an error being given by its text. *)
Inductive operand : Type :=
| OpInt (z : Z)
| OpStr (s : string)
| OpErr (text : string).

(** Two behaviours of the standard library are parameters of the model:
    what [fmt] prints from a directive on, when the directive is not one of
    [%d], [%s], [%v], [%w], [%%] with an operand of the kind the source
    gives it (the source builds no such text); and what [strings.ToLower]
    makes of a string that is not pure ASCII. *)
Class GoText : Type := {
  badDirective : string -> list operand -> string;
  unicodeToLower : string -> string
}.

(** ** [fmt]: the text of an error *)
Module fmt.

(** [strconv.FormatInt(z, 10)], what [%d] prints. *)
Definition FormatInt (z : Z) : string :=
  DecimalString.NilZero.string_of_int (Z.to_int z).

Section Sprintf.

Context `{goText : GoText}.

Fixpoint Sprintf (format : string) (operands : list operand) : string :=
  match format with
  | EmptyString =>
      match operands with
      | [] => EmptyString
      | _ => badDirective format operands
      end
  | String "%" (String verb rest) =>
      match verb, operands with
      | "%"%char, _ => String "%" (Sprintf rest operands)
      | "d"%char, OpInt z :: operands' => FormatInt z +:+ Sprintf rest operands'
      | "v"%char, OpInt z :: operands' => FormatInt z +:+ Sprintf rest operands'
      | "s"%char, OpStr s :: operands' => s +:+ Sprintf rest operands'
      | "v"%char, OpStr s :: operands' => s +:+ Sprintf rest operands'
      | "s"%char, OpErr text :: operands' => text +:+ Sprintf rest operands'
      | "v"%char, OpErr text :: operands' => text +:+ Sprintf rest operands'
      | "w"%char, OpErr text :: operands' => text +:+ Sprintf rest operands'
      | _, _ => badDirective format operands
      end
  | String "%" EmptyString => badDirective format operands
  | String c rest => String c (Sprintf rest operands)
  end.

(** [err.Error()] *)
Fixpoint Error (e : error) : string :=
  match e with
  | New msg => msg
  | Errorf format args => Sprintf format (map operandOf args)
  end
with operandOf (a : fmtArg) : operand :=
  match a with
  | ArgInt z => OpInt z
  | ArgStr s => OpStr s
  | ArgErr e => OpErr (Error e)
  end.

End Sprintf.

End fmt.

(** ** [strings] *)
Module strings.

Definition isASCII (c : Ascii.ascii) : bool := (Ascii.N_of_ascii c <? 128)%N.

Definition lower (c : Ascii.ascii) : Ascii.ascii :=
  let n := Ascii.N_of_ascii c in
  if (65 <=? n)%N && (n <=? 90)%N then Ascii.ascii_of_N (n + 32) else c.

Fixpoint allASCII (s : string) : bool :=
  match s with
  | EmptyString => true
  | String c rest => isASCII c && allASCII rest
  end.

Fixpoint lowerASCII (s : string) : string :=
  match s with
  | EmptyString => EmptyString
  | String c rest => String (lower c) (lowerASCII rest)
  end.

(** [strings.ToLower]: byte by byte on a string that is pure ASCII. *)
Definition ToLower `{goText : GoText} (s : string) : string :=
  if allASCII s then lowerASCII s else unicodeToLower s.

(** [strings.Contains(s, substr)] *)
Fixpoint Contains (s substr : string) : bool :=
  String.prefix substr s
  || match s with
     | EmptyString => false
     | String _ rest => Contains rest substr
     end.

End strings.

(** ** [google.golang.org/grpc/codes] and [status] *)
Module codes.

Inductive Code : Type :=
| OK | Canceled | Unknown | InvalidArgument | DeadlineExceeded | NotFound
| AlreadyExists | PermissionDenied | ResourceExhausted | FailedPrecondition
| Aborted | OutOfRange | Unimplemented | Internal | Unavailable | DataLoss
| Unauthenticated.

(** [Code.String()], what [%s] prints of a code. *)
Definition String (c : Code) : string :=
  match c with
  | OK => "OK" | Canceled => "Canceled" | Unknown => "Unknown"
  | InvalidArgument => "InvalidArgument" | DeadlineExceeded => "DeadlineExceeded"
  | NotFound => "NotFound" | AlreadyExists => "AlreadyExists"
  | PermissionDenied => "PermissionDenied" | ResourceExhausted => "ResourceExhausted"
  | FailedPrecondition => "FailedPrecondition" | Aborted => "Aborted"
  | OutOfRange => "OutOfRange" | Unimplemented => "Unimplemented"
  | Internal => "Internal" | Unavailable => "Unavailable" | DataLoss => "DataLoss"
  | Unauthenticated => "Unauthenticated"
  end.

End codes.

Module status.

Record Status : Type := {
  Code : codes.Code;
  Message : string
}.

(** [status.Error(c, msg)] *)
Definition Error (c : codes.Code) (msg : string) : Status :=
  {| Code := c; Message := msg |}.

End status.

(** ** [package grpc]: [CreateOrder], [GetOrder], [UpdateOrderStatus] *)
Module grpcOrderHandler.

Local Open Scope go_scope.

(** An [orderpb.OrderStatus] as it arrives in a request: the enums of
    proto3 are open, and a peer may send a number that names no status. *)
Inductive WireStatus : Type :=
| Named (status : grpc.OrderStatus)
| Unnamed (number : Z).

(** The items of a request: a slice of pointers, any of which may be
    nil. *)
Definition WireItems := list (option grpc.OrderItem).

Definition mapProtoStatusToDomain (protoStatus : WireStatus) : domain.OrderStatus :=
  match protoStatus with
  | Named grpc.PENDING => domain.StatusPending
  | Named grpc.COMPLETED => domain.StatusCompleted
  | Named grpc.CANCELLED => domain.StatusCancelled
  | _ => EmptyString
  end.

Fixpoint mapProtoItemsToDomain (protoItems : WireItems) : list domain.OrderItem :=
  match protoItems with
  | [] => []
  | Some item :: rest =>
      {| domain.ProductID := grpc.ProductId item;
         domain.Quantity := grpc.Quantity item;
         domain.Price := grpc.Price item |}
      :: mapProtoItemsToDomain rest
  | None :: rest => mapProtoItemsToDomain rest
  end.

(** What a method of the handler returns: the message, or a status. *)
Inductive Answer (A : Type) : Type :=
| Sent (a : A)
| Refused (st : status.Status).
Arguments Sent {A} a.
Arguments Refused {A} st.

Record CreateOrderRequest : Type := {
  UserId : Z;
  Items : WireItems
}.

Record UpdateOrderStatusRequest : Type := {
  Id : Z;
  Status : WireStatus
}.

(** The order [CreateOrder] hands to the use case: the user and the items
    of the request, every other field at its zero value. *)
Definition domainOrder (req : CreateOrderRequest) : domain.Order :=
  {| domain.ID := 0;
     domain.UserID := UserId req;
     domain.Items := mapProtoItemsToDomain (Items req);
     domain.Status := EmptyString;
     domain.CreatedAt := 0;
     domain.UpdatedAt := 0 |}.

Section Handler.

Context {W : Type}.
Context `{inventoryClient : clients.InventoryClient W}.
Context `{orderRepo : domain.OrderRepository W}.
Context `{mapOrder : MapOrder}.
Context `{goText : GoText}.

Definition mapOrderDomainErrorToGrpcStatus (err : error) : status.Status :=
  let errMsg := strings.ToLower (fmt.Error err) in
  if strings.Contains errMsg "insufficient stock"
  then status.Error codes.FailedPrecondition (fmt.Error err)
  else if strings.Contains errMsg "inventory check failed"
          && strings.Contains errMsg "not found"
  then status.Error codes.NotFound (fmt.Error err)
  else if strings.Contains errMsg "cannot cancel a completed order"
          || strings.Contains errMsg "cannot change status of a cancelled order"
  then status.Error codes.FailedPrecondition (fmt.Error err)
  else if strings.Contains errMsg "not found"
  then status.Error codes.NotFound (fmt.Error err)
  else if strings.Contains errMsg "invalid"
          || strings.Contains errMsg "must contain"
          || strings.Contains errMsg "cannot be empty"
  then status.Error codes.InvalidArgument (fmt.Error err)
  else status.Error codes.Internal
         (fmt.Sprintf "Internal server error: %v" [OpErr (fmt.Error err)]).

Definition CreateOrder (req : CreateOrderRequest) : M W (Answer grpc.Order) :=
  let userID := UserId req in
  if userID <=? 0
  then ret (Refused (status.Error codes.InvalidArgument "Invalid User ID provided"))
  else if (length (Items req) =? 0)%nat
  then ret (Refused (status.Error codes.InvalidArgument
                       "Order must contain at least one item"))
  else
    r <- attempt (usecase.CreateOrder (domainOrder req)) ;;
    match r with
    | Err err =>
        logErrorf "gRPC Handler: CreateOrder use case error for UserID %d: %v"
          [ArgInt userID; ArgErr err] ;;;
        ret (Refused (mapOrderDomainErrorToGrpcStatus err))
    | Ok createdOrder => ret (Sent (grpc.mapDomainOrderToProto createdOrder))
    end.

Definition GetOrder (id : Z) : M W (Answer grpc.Order) :=
  let orderID := id in
  if orderID <=? 0
  then ret (Refused (status.Error codes.InvalidArgument "Invalid Order ID"))
  else
    r <- attempt (usecase.GetOrderByID orderID) ;;
    match r with
    | Err err => ret (Refused (mapOrderDomainErrorToGrpcStatus err))
    | Ok order => ret (Sent (grpc.mapDomainOrderToProto order))
    end.

Definition UpdateOrderStatus (req : UpdateOrderStatusRequest) : M W (Answer grpc.Order) :=
  let orderID := Id req in
  let newStatus := mapProtoStatusToDomain (Status req) in
  if orderID <=? 0
  then ret (Refused (status.Error codes.InvalidArgument "Invalid Order ID"))
  else if negb (domain.IsValidStatus newStatus)
  then ret (Refused (status.Error codes.InvalidArgument
                       (fmt.Sprintf "Invalid status value provided: %s" [OpStr newStatus])))
  else
    r <- attempt (usecase.UpdateOrderStatus orderID newStatus) ;;
    match r with
    | Err err =>
        logErrorf "gRPC Handler: UpdateOrderStatus use case error for OrderID %d: %v"
          [ArgInt orderID; ArgErr err] ;;;
        ret (Refused (mapOrderDomainErrorToGrpcStatus err))
    | Ok updatedOrder => ret (Sent (grpc.mapDomainOrderToProto updatedOrder))
    end.

End Handler.

End grpcOrderHandler.

(** ** Operations of the lower layers

    What an operation of the inventory client or of the repository
    returns, the calls it made to the layer below and the lines it logged
    at error level, in order, and the world it leaves. *)
Record Run (T W A : Type) : Type := {
  answer : A;
  trace : list T;
  world : W
}.
Arguments answer {T W A} _.
Arguments trace {T W A} _.
Arguments world {T W A} _.

(** ** [inventorypb]: the generated client of the inventory service *)
Module inventorypb.

(** The fields of [inventorypb.Product] the order service reads or
    writes. *)
Record Product : Type := {
  Id : Z;
  Name : string;
  Price : float;
  Stock : Z
}.

Record UpdateProductRequest : Type := {
  Product_ : Product;
  UpdateMask : list string
}.

(** The error of a call, as [status.FromError] sees it: it carries a gRPC
    status, or it does not. *)
Inductive rpcError : Type :=
| WithStatus (code : codes.Code) (message : string)
| Other (err : error).

Inductive reply (A : Type) : Type :=
| Message (a : A)
| Failed (e : rpcError).
Arguments Message {A} a.
Arguments Failed {A} e.

(** [type InventoryServiceClient interface] *)
Class InventoryServiceClient (W : Type) : Type := {
  GetProduct : Z -> W -> reply Product * W;
  UpdateProduct : UpdateProductRequest -> W -> option rpcError * W
}.

End inventorypb.

(** ** [package clients]: the gRPC client of the inventory *)
Module inventoryGRPCClient.

Inductive Rpc : Type :=
| GetProductCall (id : Z) (res : inventorypb.reply inventorypb.Product)
| UpdateProductCall (req : inventorypb.UpdateProductRequest)
    (res : option inventorypb.rpcError)
| ErrorLine (format : string) (args : list fmtArg).

(** The error for a product the inventory does not know. *)
Definition ErrProductNotFound (productID : Z) : error :=
  Errorf "product with ID %d not found in inventory" [ArgInt productID].

Definition isNotFound (code : codes.Code) : bool :=
  match code with codes.NotFound => true | _ => false end.

Definition isInvalidArgument (code : codes.Code) : bool :=
  match code with codes.InvalidArgument => true | _ => false end.

Section Client.

Context {W : Type}.
Context `{client : inventorypb.InventoryServiceClient W}.

Definition GetProduct (productID : Z) (w : W) : Run Rpc W (result clients.Product) :=
  let '(res, w') := inventorypb.GetProduct productID w in
  let called := GetProductCall productID res in
  match res with
  | inventorypb.Failed (inventorypb.WithStatus code message) =>
      if isNotFound code
      then {| answer := Err (ErrProductNotFound productID);
              trace := [called];
              world := w' |}
      else {| answer := Err (Errorf "inventory service gRPC error (%s): %s"
                               [ArgStr (codes.String code); ArgStr message]);
              trace := [called;
                        ErrorLine "InventoryClient(gRPC): GetProduct failed for ID %d with code %s: %s"
                          [ArgInt productID; ArgStr (codes.String code); ArgStr message]];
              world := w' |}
  | inventorypb.Failed (inventorypb.Other err) =>
      {| answer := Err (Errorf "failed to communicate with inventory service: %w"
                          [ArgErr err]);
         trace := [called;
                   ErrorLine "InventoryClient(gRPC): Failed to execute GetProduct request for ID %d: %v"
                     [ArgInt productID; ArgErr err]];
         world := w' |}
  | inventorypb.Message res =>
      {| answer := Ok {| clients.ID := inventorypb.Id res;
                         clients.Name := inventorypb.Name res;
                         clients.Price := inventorypb.Price res;
                         clients.Stock := inventorypb.Stock res |};
         trace := [called];
         world := w' |}
  end.

Definition UpdateStock (productID newStock : Z) (w : W) : Run Rpc W (option error) :=
  if newStock <? 0
  then {| answer := Some (Errorf "stock cannot be negative" []); trace := []; world := w |}
  else
    let req :=
      {| inventorypb.Product_ :=
           {| inventorypb.Id := productID;
              inventorypb.Name := EmptyString;
              inventorypb.Price := 0%float;
              inventorypb.Stock := GoInt.int32 newStock |};
         inventorypb.UpdateMask := ["stock"%string] |} in
    let '(res, w') := inventorypb.UpdateProduct req w in
    let called := UpdateProductCall req res in
    match res with
    | Some (inventorypb.WithStatus code message) =>
        if isNotFound code
        then {| answer := Some (Errorf "product with ID %d not found in inventory for update"
                                  [ArgInt productID]);
                trace := [called];
                world := w' |}
        else if isInvalidArgument code
        then {| answer := Some (Errorf "invalid stock update request for product %d: %s"
                                  [ArgInt productID; ArgStr message]);
                trace := [called];
                world := w' |}
        else {| answer := Some (Errorf "inventory service gRPC error (%s): %s"
                                  [ArgStr (codes.String code); ArgStr message]);
                trace := [called;
                          ErrorLine "InventoryClient(gRPC): UpdateProduct failed for ID %d with code %s: %s"
                            [ArgInt productID; ArgStr (codes.String code); ArgStr message]];
                world := w' |}
    | Some (inventorypb.Other err) =>
        {| answer := Some (Errorf "failed to communicate with inventory service for stock update: %w"
                             [ArgErr err]);
           trace := [called;
                     ErrorLine "InventoryClient(gRPC): Failed to execute UpdateStock request for ID %d: %v"
                       [ArgInt productID; ArgErr err]];
           world := w' |}
    | None => {| answer := None; trace := [called]; world := w' |}
    end.

(** The client as the use case receives it. *)
Definition inventoryGRPCClient : clients.InventoryClient W :=
  {| clients.GetProduct := fun productID w =>
       let r := GetProduct productID w in (answer r, world r);
     clients.UpdateStock := fun productID newStock w =>
       let r := UpdateStock productID newStock w in (answer r, world r) |}.

End Client.

End inventoryGRPCClient.

(** ** [database/sql] and [lib/pq], as the repository uses them *)
Module sql.

(** An error of the driver, as the repository looks at it: the error
    value, whether [errors.Is(err, sql.ErrNoRows)] holds, and the [Code] and
    the [Message] of the [pq.Error] it points to, when it is one. *)
Record DriverError : Type := {
  cause : error;
  isNoRows : bool;
  pqError : option (string * string)
}.

(** What [QueryRow(...).Scan(...)] gives. *)
Inductive Row (A : Type) : Type :=
| Scanned (row : A)
| NotScanned (err : DriverError).
Arguments Scanned {A} row.
Arguments NotScanned {A} err.

(** The statements of the repository, with their arguments.  A
    transaction is begun on the database and then used through [tx]; the
    item statement is prepared on [tx] and then executed and closed. *)
Class DB (W : Type) : Type := {
  Begin : W -> option error * W;
  Commit : W -> option error * W;
  Rollback : W -> option error * W;
  InsertOrder : Z -> domain.OrderStatus -> W -> Row repository.OrderRow * W;
  Prepare : W -> option error * W;
  Exec : Z -> domain.OrderItem -> W -> option DriverError * W;
  Close : W -> W;
  SelectOrder : Z -> W -> Row repository.OrderRow * W;
  SelectItems : Z -> W -> repository.Rows domain.OrderItem * W;
  UpdateStatus : domain.OrderStatus -> Z -> W -> Row repository.OrderRow * W;
  SelectItemsTx : Z -> W -> repository.Rows domain.OrderItem * W
}.

End sql.

(** ** [package repository]: [CreateOrder], [GetOrderByID],
    [UpdateOrderStatus] *)
Module postgresOrderRepository.

Inductive Sql : Type :=
| TxBegin (res : option error)
| TxCommit (res : option error)
| TxRollback (res : option error)
| TxInsertOrder (userID : Z) (status : domain.OrderStatus)
    (res : sql.Row repository.OrderRow)
| TxPrepare (res : option error)
| StmtExec (orderID : Z) (item : domain.OrderItem) (res : option sql.DriverError)
| StmtClose
| DbSelectOrder (id : Z) (res : sql.Row repository.OrderRow)
| DbSelectItems (orderID : Z) (res : repository.Rows domain.OrderItem)
| TxUpdateStatus (status : domain.OrderStatus) (id : Z)
    (res : sql.Row repository.OrderRow)
| TxSelectItems (orderID : Z) (res : repository.Rows domain.OrderItem)
| ErrorLine (format : string) (args : list fmtArg).

(** What a method returns: a pointer to an order and an error, either of
    which may be nil. *)
Definition Returned : Type := option domain.Order * option error.

(** The error for an order that is not in the table. *)
Definition ErrOrderNotFound (id : Z) : error :=
  Errorf "order with id %d not found" [ArgInt id].

(** Whether the error is a [pq.Error] whose [Code] is ["23514"]
    ([check_violation]), and its [Message] then. *)
Definition checkViolation (err : sql.DriverError) : option string :=
  match sql.pqError err with
  | Some (code, message) => if String.eqb code "23514" then Some message else None
  | None => None
  end.

Section Repository.

Context {W : Type}.
Context `{db : sql.DB W}.

(** The function deferred by [CreateOrder] once the transaction is begun;
    [err] is the variable of that name when the method returns.  The
    assignment to [err] after a commit that fails comes after the results
    of the method are set, and changes none of them. *)
Definition createOrderDeferred (err : option error) (w : W) : list Sql * W :=
  match err with
  | Some _ =>
      let '(rbErr, w') := sql.Rollback w in
      (TxRollback rbErr
       :: match rbErr with
          | Some e => [ErrorLine "Failed to rollback transaction: %v" [ArgErr e]]
          | None => []
          end, w')
  | None =>
      let '(cErr, w') := sql.Commit w in
      (TxCommit cErr
       :: match cErr with
          | Some e => [ErrorLine "Failed to commit transaction: %v" [ArgErr e]]
          | None => []
          end, w')
  end.

(** The loop over [order.Items]: the items are inserted in order, up to
    the first one that fails. *)
Fixpoint insertItems (orderID : Z) (items : list domain.OrderItem) (w : W)
  : option (domain.OrderItem * sql.DriverError) * list Sql * W :=
  match items with
  | [] => (None, [], w)
  | item :: rest =>
      let '(err, w') := sql.Exec orderID item w in
      match err with
      | Some e =>
          (Some (item, e),
           [StmtExec orderID item (Some e);
            ErrorLine "Failed to insert order item (product_id: %d, quantity: %d) for order %d: %v"
              [ArgInt (domain.ProductID item); ArgInt (domain.Quantity item);
               ArgInt orderID; ArgErr (sql.cause e)]],
           w')
      | None =>
          let '(failed, evs, w'') := insertItems orderID rest w' in
          (failed, StmtExec orderID item None :: evs, w'')
      end
  end.

(** The columns [CreateOrder] scans into the order it was given. *)
Definition inserted (order : domain.Order) (row : repository.OrderRow) : domain.Order :=
  {| domain.ID := repository.id row;
     domain.UserID := domain.UserID order;
     domain.Items := domain.Items order;
     domain.Status := repository.status row;
     domain.CreatedAt := repository.created_at row;
     domain.UpdatedAt := repository.updated_at row |}.

(** The body of [CreateOrder] after [Begin]: what it returns, the value of
    [err] at that point, and whether [stmt.Close] is deferred. *)
Definition createOrderBody (order : domain.Order) (w : W)
  : Returned * option error * bool * list Sql * W :=
  let '(row, w1) := sql.InsertOrder (domain.UserID order) (domain.Status order) w in
  let inserting := TxInsertOrder (domain.UserID order) (domain.Status order) row in
  match row with
  | sql.NotScanned err =>
      ((None, Some (Errorf "could not create order entry: %w" [ArgErr (sql.cause err)])),
       Some (sql.cause err), false,
       [inserting;
        ErrorLine "Failed to insert order for user %d: %v"
          [ArgInt (domain.UserID order); ArgErr (sql.cause err)]],
       w1)
  | sql.Scanned row =>
      let order := inserted order row in
      let '(prepErr, w2) := sql.Prepare w1 in
      match prepErr with
      | Some err =>
          ((None, Some (Errorf "could not prepare item statement: %w" [ArgErr err])),
           Some err, false,
           [inserting; TxPrepare (Some err);
            ErrorLine "Failed to prepare order item statement: %v" [ArgErr err]],
           w2)
      | None =>
          let '(failed, evs, w3) := insertItems (domain.ID order) (domain.Items order) w2 in
          match failed with
          | Some (item, err) =>
              ((None,
                Some match checkViolation err with
                     | Some message =>
                         Errorf "invalid item data (product_id: %d): %s"
                           [ArgInt (domain.ProductID item); ArgStr message]
                     | None =>
                         Errorf "could not create order item (product_id: %d): %w"
                           [ArgInt (domain.ProductID item); ArgErr (sql.cause err)]
                     end),
               Some (sql.cause err), true,
               inserting :: TxPrepare None :: evs,
               w3)
          | None =>
              (* [if err == nil && tx.Commit() != nil { return nil, err }]:
                 [err] is nil here *)
              let '(cErr, w4) := sql.Commit w3 in
              ((match cErr with
                | Some _ => (None, None)
                | None => (Some order, None)
                end),
               None, true,
               inserting :: TxPrepare None :: evs ++ [TxCommit cErr],
               w4)
          end
      end
  end.

Definition CreateOrder (order : domain.Order) (w : W) : Run Sql W Returned :=
  let '(beginErr, w0) := sql.Begin w in
  match beginErr with
  | Some err =>
      {| answer := (None, Some (Errorf "could not start transaction: %w" [ArgErr err]));
         trace := [TxBegin (Some err);
                   ErrorLine "Failed to begin transaction: %v" [ArgErr err]];
         world := w0 |}
  | None =>
      let '(returned, err, prepared, evs, w1) := createOrderBody order w0 in
      let w2 := if prepared then sql.Close w1 else w1 in
      let '(deferred, w3) := createOrderDeferred err w2 in
      {| answer := returned;
         trace := TxBegin None :: evs ++ (if prepared then [StmtClose] else []) ++ deferred;
         world := w3 |}
  end.

(** [getOrderItems] and [getOrderItemsTx]: the items of one order, or the
    error of the query, of a scan or of the iteration. *)
Definition getOrderItems (orderID : Z) (w : W)
  : result (list domain.OrderItem) * list Sql * W :=
  let '(rows, w') := sql.SelectItems orderID w in
  let called := DbSelectItems orderID rows in
  match rows with
  | repository.QueryFailed err =>
      (Err (Errorf "could not retrieve order items: %w" [ArgErr err]),
       [called;
        ErrorLine "Failed to query order items for order ID %d: %v"
          [ArgInt orderID; ArgErr err]], w')
  | repository.ScanFailed err =>
      (Err (Errorf "error scanning order item: %w" [ArgErr err]),
       [called;
        ErrorLine "Failed to scan order item row for order ID %d: %v"
          [ArgInt orderID; ArgErr err]], w')
  | repository.IterationFailed err =>
      (Err (Errorf "error iterating order items: %w" [ArgErr err]),
       [called;
        ErrorLine "Error during order items iteration for order ID %d: %v"
          [ArgInt orderID; ArgErr err]], w')
  | repository.Scanned items => (Ok items, [called], w')
  end.

Definition getOrderItemsTx (orderID : Z) (w : W)
  : result (list domain.OrderItem) * list Sql * W :=
  let '(rows, w') := sql.SelectItemsTx orderID w in
  let called := TxSelectItems orderID rows in
  match rows with
  | repository.QueryFailed err =>
      (Err (Errorf "could not retrieve order items within tx: %w" [ArgErr err]),
       [called;
        ErrorLine "Failed to query order items within tx for order ID %d: %v"
          [ArgInt orderID; ArgErr err]], w')
  | repository.ScanFailed err =>
      (Err (Errorf "error scanning order item within tx: %w" [ArgErr err]),
       [called;
        ErrorLine "Failed to scan order item row within tx for order ID %d: %v"
          [ArgInt orderID; ArgErr err]], w')
  | repository.IterationFailed err =>
      (Err (Errorf "error iterating order items within tx: %w" [ArgErr err]),
       [called;
        ErrorLine "Error during order items iteration within tx for order ID %d: %v"
          [ArgInt orderID; ArgErr err]], w')
  | repository.Scanned items => (Ok items, [called], w')
  end.

Definition withItems (row : repository.OrderRow) (items : list domain.OrderItem)
  : domain.Order :=
  {| domain.ID := repository.id row;
     domain.UserID := repository.user_id row;
     domain.Items := items;
     domain.Status := repository.status row;
     domain.CreatedAt := repository.created_at row;
     domain.UpdatedAt := repository.updated_at row |}.

Definition GetOrderByID (id : Z) (w : W) : Run Sql W (result domain.Order) :=
  let '(row, w1) := sql.SelectOrder id w in
  let called := DbSelectOrder id row in
  match row with
  | sql.NotScanned err =>
      if sql.isNoRows err
      then {| answer := Err (ErrOrderNotFound id);
              trace := [called];
              world := w1 |}
      else {| answer := Err (Errorf "could not retrieve order: %w" [ArgErr (sql.cause err)]);
              trace := [called;
                        ErrorLine "Failed to get order by ID %d: %v"
                          [ArgInt id; ArgErr (sql.cause err)]];
              world := w1 |}
  | sql.Scanned row =>
      let '(items, evs, w2) := getOrderItems id w1 in
      match items with
      | Err err => {| answer := Err err; trace := called :: evs; world := w2 |}
      | Ok items =>
          {| answer := Ok (withItems row items); trace := called :: evs; world := w2 |}
      end
  end.

(** The function deferred by [UpdateOrderStatus]. *)
Definition updateOrderStatusDeferred (err : option error) (w : W) : list Sql * W :=
  match err with
  | Some err =>
      let '(rbErr, w') := sql.Rollback w in
      (TxRollback rbErr
       :: match rbErr with
          | Some e =>
              [ErrorLine "UpdateOrderStatus: Failed to rollback transaction: %v (original error: %v)"
                 [ArgErr e; ArgErr err]]
          | None => []
          end, w')
  | None =>
      let '(cErr, w') := sql.Commit w in
      (TxCommit cErr
       :: match cErr with
          | Some e =>
              [ErrorLine "UpdateOrderStatus: %v"
                 [ArgErr (Errorf "failed to commit status update transaction: %w" [ArgErr e])]]
          | None => []
          end, w')
  end.

Definition updateOrderStatusBody (id : Z) (status : domain.OrderStatus) (w : W)
  : Returned * option error * list Sql * W :=
  let '(row, w1) := sql.UpdateStatus status id w in
  let called := TxUpdateStatus status id row in
  match row with
  | sql.NotScanned err =>
      if sql.isNoRows err
      then ((None, Some (Errorf "order with id %d not found for update" [ArgInt id])),
            Some (sql.cause err), [called], w1)
      else
        match checkViolation err with
        | Some _ =>
            ((None, Some (Errorf "invalid order status provided: %s" [ArgStr status])),
             Some (sql.cause err), [called], w1)
        | None =>
            ((None, Some (Errorf "could not update order status: %w" [ArgErr (sql.cause err)])),
             Some (sql.cause err),
             [called;
              ErrorLine "Failed to update status for order ID %d: %v"
                [ArgInt id; ArgErr (sql.cause err)]],
             w1)
        end
  | sql.Scanned row =>
      let '(items, evs, w2) := getOrderItemsTx id w1 in
      match items with
      | Err err =>
          ((None,
            Some (Errorf "order status updated, but failed to retrieve items: %w"
                    [ArgErr err])),
           Some err, called :: evs, w2)
      | Ok items => ((Some (withItems row items), None), None, called :: evs, w2)
      end
  end.

Definition UpdateOrderStatus (id : Z) (status : domain.OrderStatus) (w : W)
  : Run Sql W Returned :=
  let '(beginErr, w0) := sql.Begin w in
  match beginErr with
  | Some err =>
      {| answer := (None, Some (Errorf "could not start transaction: %w" [ArgErr err]));
         trace := [TxBegin (Some err);
                   ErrorLine "Failed to begin transaction for status update: %v"
                     [ArgErr err]];
         world := w0 |}
  | None =>
      let '(returned, err, evs, w1) := updateOrderStatusBody id status w0 in
      let '(deferred, w2) := updateOrderStatusDeferred err w1 in
      {| answer := returned; trace := TxBegin None :: evs ++ deferred; world := w2 |}
  end.

End Repository.

End postgresOrderRepository.

(** ** [package delivery]: [CreateOrder], [GetOrderByID], [UpdateOrder] *)
Module httpOrderHandler.

Local Open Scope go_scope.

(** What [c.ShouldBindJSON] gives: the body does not parse, or the value
    bound. *)
Inductive Body (A : Type) : Type :=
| BindFailed (err : error)
| Bound (a : A).
Arguments BindFailed {A} err.
Arguments Bound {A} a.

(** What the three handlers read of the [gin.Context]: the [id] parameter
    of the route, the [X-User-ID] header (empty when absent) and the
    body. *)
Record Context (A : Type) : Type := {
  ParamID : string;
  XUserID : string;
  JSON : Body A
}.
Arguments ParamID {A} _.
Arguments XUserID {A} _.
Arguments JSON {A} _.

(** [type Response struct], with one order as [Data], and the status code
    it is written with. *)
Record Response : Type := {
  Status : string;
  Message : string;
  Data : option domain.Order
}.

Record Written : Type := {
  statusCode : Z;
  body : Response
}.

Definition StatusOK : Z := 200.
Definition StatusCreated : Z := 201.
Definition StatusBadRequest : Z := 400.
Definition StatusUnauthorized : Z := 401.
Definition StatusForbidden : Z := 403.
Definition StatusNotFound : Z := 404.
Definition StatusConflict : Z := 409.
Definition StatusInternalServerError : Z := 500.

Definition SuccessResponse (statusCode : Z) (message : string) (data : domain.Order)
  : Written :=
  {| statusCode := statusCode;
     body := {| Status := "Success"; Message := message; Data := Some data |} |}.

Definition ErrorResponse (statusCode : Z) (message : string) : Written :=
  {| statusCode := statusCode;
     body := {| Status := "Fail"; Message := message; Data := None |} |}.

Section Handler.

Context {W : Type}.
Context `{inventoryClient : clients.InventoryClient W}.
Context `{orderRepo : domain.OrderRepository W}.
Context `{mapOrder : MapOrder}.
Context `{goText : GoText}.

Definition mapErrorToStatus (err : error) : Z :=
  let errMsg := strings.ToLower (fmt.Error err) in
  if strings.Contains errMsg "not found" then StatusNotFound
  else if strings.Contains errMsg "already exists"
          || strings.Contains errMsg "duplicate key"
          || strings.Contains errMsg "unique constraint"
  then StatusConflict
  else if strings.Contains errMsg "invalid"
          || strings.Contains errMsg "cannot be empty"
          || strings.Contains errMsg "must be positive"
          || strings.Contains errMsg "cannot be negative"
          || strings.Contains errMsg "constraint violation"
  then StatusBadRequest
  else if strings.Contains errMsg "does not exist"
          && (strings.Contains errMsg "category"
              || strings.Contains errMsg "foreign key")
  then StatusBadRequest
  else StatusInternalServerError.

(** [strconv.Atoi] followed by [err != nil || n <= 0]. *)
Definition positive (s : string) : option Z :=
  match strconv.Atoi s with
  | Some n => if n <=? 0 then None else Some n
  | None => None
  end.

Definition CreateOrder (c : Context (list domain.OrderItem)) : M W Written :=
  let userIDStr := XUserID c in
  if String.eqb userIDStr EmptyString
  then
    logErrorf "X-User-ID header is missing" [] ;;;
    ret (ErrorResponse StatusUnauthorized "User identification missing")
  else
    match positive userIDStr with
    | None =>
        logErrorf "Invalid X-User-ID header value: %s" [ArgStr userIDStr] ;;;
        ret (ErrorResponse StatusInternalServerError "Invalid user identification data")
    | Some userID =>
        match JSON c with
        | BindFailed err =>
            logErrorf "Failed to bind JSON for create order (User: %d): %v"
              [ArgInt userID; ArgErr err] ;;;
            ret (ErrorResponse StatusBadRequest ("Invalid request body: " +:+ fmt.Error err))
        | Bound items =>
            if (length items =? 0)%nat
            then ret (ErrorResponse StatusBadRequest
                        "Invalid request body: items cannot be empty")
            else
              let order :=
                {| domain.ID := 0;
                   domain.UserID := userID;
                   domain.Items := items;
                   domain.Status := EmptyString;
                   domain.CreatedAt := 0;
                   domain.UpdatedAt := 0 |} in
              r <- attempt (usecase.CreateOrder order) ;;
              match r with
              | Err err =>
                  let statusCode := mapErrorToStatus err in
                  logErrorf "Failed to create order for user %d: %v"
                    [ArgInt userID; ArgErr err] ;;;
                  ret (ErrorResponse statusCode ("Failed to create order: " +:+ fmt.Error err))
              | Ok createdOrder =>
                  ret (SuccessResponse StatusCreated "Order created successfully" createdOrder)
              end
        end
    end.

Definition GetOrderByID (c : Context unit) : M W Written :=
  let idStr := ParamID c in
  match positive idStr with
  | None => ret (ErrorResponse StatusBadRequest "Invalid order ID format")
  | Some id =>
      let requestorUserIDStr := XUserID c in
      if String.eqb requestorUserIDStr EmptyString
      then
        logErrorf "X-User-ID header is missing for GetOrderByID" [] ;;;
        ret (ErrorResponse StatusUnauthorized "User identification missing")
      else
        match positive requestorUserIDStr with
        | None =>
            logErrorf "Invalid X-User-ID header value for GetOrderByID: %s"
              [ArgStr requestorUserIDStr] ;;;
            ret (ErrorResponse StatusInternalServerError "Invalid user identification data")
        | Some requestorUserID =>
            r <- attempt (usecase.GetOrderByID id) ;;
            match r with
            | Err err =>
                let statusCode := mapErrorToStatus err in
                ret (ErrorResponse statusCode ("Failed to retrieve order: " +:+ fmt.Error err))
            | Ok order =>
                if negb (domain.UserID order =? requestorUserID)
                then ret (ErrorResponse StatusForbidden
                            "You are not authorized to view this order")
                else ret (SuccessResponse StatusOK "Order retrieved successfully" order)
            end
        end
  end.

(** The body of [UpdateOrder] is bound to a struct with one field,
    [Status *domain.OrderStatus], nil when the body has no [status]. *)
Definition UpdateOrder (c : Context (option domain.OrderStatus)) : M W Written :=
  let idStr := ParamID c in
  match positive idStr with
  | None => ret (ErrorResponse StatusBadRequest "Invalid order ID format")
  | Some id =>
      match JSON c with
      | BindFailed err =>
          ret (ErrorResponse StatusBadRequest ("Invalid request body: " +:+ fmt.Error err))
      | Bound None =>
          ret (ErrorResponse StatusBadRequest
                 "Invalid request body: 'status' field is required")
      | Bound (Some status) =>
          if negb (domain.IsValidStatus status)
          then ret (ErrorResponse StatusBadRequest
                      (fmt.Sprintf "Invalid request body: invalid status value '%s'"
                         [OpStr status]))
          else
            let requestorUserIDStr := XUserID c in
            if String.eqb requestorUserIDStr EmptyString
            then
              logErrorf "X-User-ID header is missing for UpdateOrder" [] ;;;
              ret (ErrorResponse StatusUnauthorized "User identification missing")
            else
              match positive requestorUserIDStr with
              | None =>
                  logErrorf "Invalid X-User-ID header value for UpdateOrder: %s"
                    [ArgStr requestorUserIDStr] ;;;
                  ret (ErrorResponse StatusInternalServerError
                         "Invalid user identification data")
              | Some requestorUserID =>
                  r <- attempt (usecase.GetOrderByID id) ;;
                  match r with
                  | Err err =>
                      let statusCode := mapErrorToStatus err in
                      ret (ErrorResponse statusCode
                             ("Failed to retrieve order for update: " +:+ fmt.Error err))
                  | Ok currentOrder =>
                      if negb (domain.UserID currentOrder =? requestorUserID)
                      then ret (ErrorResponse StatusForbidden
                                  "You are not authorized to update this order")
                      else
                        r <- attempt (usecase.UpdateOrderStatus id status) ;;
                        match r with
                        | Err err =>
                            let statusCode := mapErrorToStatus err in
                            logErrorf
                              "Failed to update status for order ID %d (requested by user %d): %v"
                              [ArgInt id; ArgInt requestorUserID; ArgErr err] ;;;
                            ret (ErrorResponse statusCode
                                   ("Failed to update order status: " +:+ fmt.Error err))
                        | Ok updatedOrder =>
                            ret (SuccessResponse StatusOK
                                   "Order status updated successfully" updatedOrder)
                        end
                  end
              end
      end
  end.

End Handler.

End httpOrderHandler.

(** ** In-memory doubles for the lower layers

    Test doubles on the world of [inmem]: a text library, an inventory
    service that answers from the products of the world, and a database
    that answers from its orders. *)
Module doubles.

(** Directives that are not modelled print their format; a string that is
    not pure ASCII is left as it is. *)
Definition text : GoText :=
  {| badDirective := fun format _ => format; unicodeToLower := fun s => s |}.

Definition GetProduct (id : Z) (w : inmem.World)
  : inventorypb.reply inventorypb.Product * inmem.World :=
  match inmem.products w !! id with
  | Some p =>
      (inventorypb.Message
         {| inventorypb.Id := clients.ID p; inventorypb.Name := clients.Name p;
            inventorypb.Price := clients.Price p; inventorypb.Stock := clients.Stock p |},
       w)
  | None =>
      (inventorypb.Failed (inventorypb.WithStatus codes.NotFound "product not found"), w)
  end.

Definition UpdateProduct (req : inventorypb.UpdateProductRequest) (w : inmem.World)
  : option inventorypb.rpcError * inmem.World :=
  let id := inventorypb.Id (inventorypb.Product_ req) in
  match inmem.products w !! id with
  | Some p =>
      (None,
       inmem.withProducts w
         (<[id := inmem.withStock p (inventorypb.Stock (inventorypb.Product_ req))]>
            (inmem.products w)))
  | None => (Some (inventorypb.WithStatus codes.NotFound "product not found"), w)
  end.

Definition inventoryService : inventorypb.InventoryServiceClient inmem.World :=
  {| inventorypb.GetProduct := GetProduct; inventorypb.UpdateProduct := UpdateProduct |}.

Definition noRows : sql.DriverError :=
  {| sql.cause := New "sql: no rows in result set";
     sql.isNoRows := true;
     sql.pqError := None |}.

(** The violation of [CHECK (quantity > 0)] on [order_items]. *)
Definition quantityCheck : sql.DriverError :=
  {| sql.cause := New "pq: new row violates check constraint";
     sql.isNoRows := false;
     sql.pqError := Some ("23514"%string, "new row violates check constraint"%string) |}.

Definition selectOrder (id : Z) (w : inmem.World) : sql.Row repository.OrderRow :=
  match inmem.orders w !! id with
  | Some order => sql.Scanned (inmem.rowOf order)
  | None => sql.NotScanned noRows
  end.

Definition selectItems (id : Z) (w : inmem.World) : repository.Rows domain.OrderItem :=
  repository.Scanned
    match inmem.orders w !! id with
    | Some order => domain.Items order
    | None => []
    end.

(** A database that stores nothing: it numbers a new order, refuses an
    item whose quantity is not positive, and answers [Commit] with the
    fault of the store. *)
Definition database : sql.DB inmem.World :=
  {| sql.Begin := fun w => (None, w);
     sql.Commit := fun w => (inmem.storeFault w, w);
     sql.Rollback := fun w => (None, w);
     sql.InsertOrder := fun userID status w =>
       (sql.Scanned {| repository.id := inmem.nextID w;
                       repository.user_id := userID;
                       repository.status := status;
                       repository.created_at := inmem.now w;
                       repository.updated_at := inmem.now w |}, w);
     sql.Prepare := fun w => (None, w);
     sql.Exec := fun orderID item w =>
       (if domain.Quantity item <=? 0 then Some quantityCheck else None, w);
     sql.Close := fun w => w;
     sql.SelectOrder := fun id w => (selectOrder id w, w);
     sql.SelectItems := fun id w => (selectItems id w, w);
     sql.UpdateStatus := fun status id w =>
       (match inmem.orders w !! id with
        | Some order =>
            sql.Scanned {| repository.id := domain.ID order;
                           repository.user_id := domain.UserID order;
                           repository.status := status;
                           repository.created_at := domain.CreatedAt order;
                           repository.updated_at := inmem.now w |}
        | None => sql.NotScanned noRows
        end, w);
     sql.SelectItemsTx := fun id w => (selectItems id w, w) |}.

End doubles.

(** ** Reading what the lower layers did *)

(** The stock updates of a run of the use case. *)
Module Updates.

(** The stock updates a run asked for one product, in the order they were
    issued: the stock asked for and the answer. *)
Fixpoint updatesOf (productID : Z) (evs : list Event) : list (Z * option error) :=
  match evs with
  | [] => []
  | CallUpdateStock productID' newStock res :: rest =>
      if decide (productID' = productID)
      then (newStock, res) :: updatesOf productID rest
      else updatesOf productID rest
  | _ :: rest => updatesOf productID rest
  end.

(** A run that compensates nothing: no stock update failed and no line was
    logged at error level. *)
Definition clean (ev : Event) : bool :=
  negb (Trace.isFailedUpdate ev) && negb (Trace.isLog ev).

(** A call that changes something: a stock update, or a write of the
    status of an order. *)
Definition changes (ev : Event) : bool :=
  match ev with
  | CallUpdateStock _ _ _ | CallRepoUpdateOrderStatus _ _ _ => true
  | _ => false
  end.

End Updates.

(** Numbers on the wire. *)
Module Wire.

(** What [int32(quantity)] leaves of an item. *)
Definition truncated (item : domain.OrderItem) : domain.OrderItem :=
  {| domain.ProductID := domain.ProductID item;
     domain.Quantity := GoInt.int32 (domain.Quantity item);
     domain.Price := domain.Price item |}.

Definition in_int32 (z : Z) : Prop := - 2 ^ 31 <= z < 2 ^ 31.

Definition isLine (ev : inventoryGRPCClient.Rpc) : bool :=
  match ev with inventoryGRPCClient.ErrorLine _ _ => true | _ => false end.

End Wire.

(** Texts made of literals and numbers. *)
Module Text.

(** A literal followed by numbers in decimal, each followed by a literal:
    the shape of the messages the source formats with [%d]. *)
Fixpoint join (head : string) (tail : list (Z * string)) : string :=
  match tail with
  | [] => head
  | (z, literal) :: rest => head +:+ fmt.FormatInt z +:+ join literal rest
  end.

Definition literals (head : string) (tail : list (Z * string)) : list string :=
  head :: map snd tail.

Fixpoint occurs (c : Ascii.ascii) (s : string) : bool :=
  match s with
  | EmptyString => false
  | String c' rest => Ascii.eqb c c' || occurs c rest
  end.

(** No character of [d] occurs in [p]. *)
Fixpoint apart (d p : string) : bool :=
  match d with
  | EmptyString => true
  | String c rest => negb (occurs c p) && apart rest p
  end.

(** A pattern that a number in decimal cannot be part of: it is not empty
    and holds neither a digit nor a minus sign. *)
Definition wordy (p : string) : bool :=
  negb (String.eqb p EmptyString) && apart "0123456789-" p.

End Text.

(** The statements of a run of the repository. *)
Module Transaction.

Import postgresOrderRepository.

Fixpoint commits (evs : list Sql) : list (option error) :=
  match evs with
  | [] => []
  | TxCommit res :: rest => res :: commits rest
  | _ :: rest => commits rest
  end.

Fixpoint rollbacks (evs : list Sql) : list (option error) :=
  match evs with
  | [] => []
  | TxRollback res :: rest => res :: rollbacks rest
  | _ :: rest => rollbacks rest
  end.

(** The items the prepared statement was executed for, with the order id
    it was given, when the execution succeeded. *)
Fixpoint insertedItems (evs : list Sql) : list (Z * domain.OrderItem) :=
  match evs with
  | [] => []
  | StmtExec orderID item None :: rest => (orderID, item) :: insertedItems rest
  | _ :: rest => insertedItems rest
  end.

Definition began (evs : list Sql) : bool :=
  match evs with TxBegin None :: _ => true | _ => false end.

End Transaction.

(** * Properties *)

(** Case analysis on the membership of an element in a list given in full. *)
Ltac each_member Hin :=
  repeat (apply elem_of_cons in Hin as [->|Hin]);
  try (by apply elem_of_nil in Hin).


(** ** The monad *)
Section MonadFacts.

Context {W : Type}.

Lemma bind_Ok {A B} (m : M W A) (k : A -> M W B) (w : W) (a : A) :
  value (m w) = Ok a ->
  bind m k w =
    {| value := value (k a (final (m w)));
       events := events (m w) ++ events (k a (final (m w)));
       final := final (k a (final (m w))) |}.
Proof. intros H. unfold bind. now rewrite H. Qed.

Lemma bind_Err {A B} (m : M W A) (k : A -> M W B) (w : W) (e : error) :
  value (m w) = Err e ->
  bind m k w = {| value := Err e; events := events (m w); final := final (m w) |}.
Proof. intros H. unfold bind. now rewrite H. Qed.

Lemma call_run {A} (f : W -> A * W) (ev : A -> Event) (w : W) :
  call f ev w = {| value := Ok (f w).1; events := [ev (f w).1]; final := (f w).2 |}.
Proof. unfold call. now destruct (f w). Qed.

End MonadFacts.

(** ** Validation *)
Section Validation.

Lemma validateItems_error (items : list domain.OrderItem) :
  forall i e, usecase.validateItems i items = Some e -> Request.ValidationError e.
Proof.
  induction items as [|item rest IH]; intros i e; simpl; [discriminate|].
  destruct (domain.ProductID item <=? 0); [intros [= <-]; constructor|].
  destruct (domain.Quantity item <=? 0); [intros [= <-]; constructor|].
  destruct (PrimFloat.ltb _ _); [intros [= <-]; constructor|].
  apply IH.
Qed.

Lemma validateItems_rejects (items : list domain.OrderItem) :
  Exists (fun item => domain.ProductID item <= 0 \/ domain.Quantity item <= 0) items ->
  forall i, exists e, usecase.validateItems i items = Some e.
Proof.
  induction 1 as [item rest Hbad | item rest _ IH]; intros i; simpl.
  - destruct (Z.leb_spec (domain.ProductID item) 0); [eauto|].
    destruct (Z.leb_spec (domain.Quantity item) 0); [eauto|lia].
  - destruct (domain.ProductID item <=? 0); [eauto|].
    destruct (domain.Quantity item <=? 0); [eauto|].
    destruct (PrimFloat.ltb _ _); [eauto|]. apply IH.
Qed.

Lemma validateItems_accepts (items : list domain.OrderItem) :
  Forall (fun item => 0 < domain.ProductID item
                      /\ 0 < domain.Quantity item
                      /\ PrimFloat.ltb (domain.Price item) 0%float = false) items ->
  forall i, usecase.validateItems i items = None.
Proof.
  induction 1 as [|item rest (Hp & Hq & Hf) _ IH]; intros i; simpl; [done|].
  destruct (Z.leb_spec (domain.ProductID item) 0); [lia|].
  destruct (Z.leb_spec (domain.Quantity item) 0); [lia|].
  rewrite Hf. apply IH.
Qed.

Lemma validate_error (order : domain.Order) (e : error) :
  usecase.validate order = Err e -> Request.ValidationError e.
Proof.
  unfold usecase.validate.
  destruct (domain.UserID order <=? 0); [intros [= <-]; constructor|].
  destruct (length (domain.Items order) =? 0)%nat; [intros [= <-]; constructor|].
  destruct (usecase.validateItems 0 (domain.Items order)) eqn:Hitems.
  - intros [= <-]. eapply validateItems_error, Hitems.
  - destruct (negb _); [intros [= <-]; constructor|discriminate].
Qed.

Lemma validate_rejects (order : domain.Order) :
  Request.Malformed order -> exists e, usecase.validate order = Err e.
Proof.
  unfold usecase.validate. intros [Hu | [Hi | Hbad]].
  - destruct (Z.leb_spec (domain.UserID order) 0); [eauto|lia].
  - destruct (domain.UserID order <=? 0); [eauto|]. rewrite Hi. simpl. eauto.
  - destruct (domain.UserID order <=? 0); [eauto|].
    destruct (length (domain.Items order) =? 0)%nat; [eauto|].
    destruct (validateItems_rejects _ Hbad 0%nat) as [e ->]. eauto.
Qed.

Lemma validate_accepts (order : domain.Order) :
  Request.WellFormed order ->
  usecase.validate order = Ok (usecase.withStatus order domain.StatusPending).
Proof.
  intros [Hu Hi He Hs]. unfold usecase.validate.
  destruct (Z.leb_spec (domain.UserID order) 0); [lia|].
  destruct (domain.Items order) as [|item rest] eqn:Hitems; [done|].
  rewrite <- Hitems in *. rewrite Hitems at 1. simpl length. simpl Nat.eqb.
  rewrite (validateItems_accepts _ He).
  destruct Hs as [Hs | Hs]; rewrite Hs; simpl; [done|].
  destruct order; simpl in *; now subst.
Qed.

End Validation.

(** ** Go's arithmetic, where it is exact *)
Section GoIntFacts.

Lemma wrap_exact (z : Z) : GoInt.in_int z -> GoInt.wrap z = z.
Proof.
  unfold GoInt.in_int, GoInt.wrap, GoInt.min_int, GoInt.max_int. intros Hz.
  rewrite Z.mod_small; lia.
Qed.

Lemma add_exact (a b : Z) : GoInt.in_int (a + b) -> GoInt.add a b = a + b.
Proof. apply wrap_exact. Qed.

Lemma sub_exact (a b : Z) : GoInt.in_int (a - b) -> GoInt.sub a b = a - b.
Proof. apply wrap_exact. Qed.

End GoIntFacts.

(** ** Aggregated quantities *)
Section Aggregate.

Lemma aggregate_app (productID : Z) (l1 l2 : list domain.OrderItem) :
  Request.aggregate productID (l1 ++ l2)
  = Request.aggregate productID l1 + Request.aggregate productID l2.
Proof.
  induction l1 as [|item l1 IH]; simpl; [done|].
  fold (Request.aggregate productID (l1 ++ l2)). fold (Request.aggregate productID l1).
  case_decide; lia.
Qed.

Lemma aggregate_nonneg (productID : Z) (l : list domain.OrderItem) :
  Forall (fun item => 0 < domain.Quantity item) l -> 0 <= Request.aggregate productID l.
Proof.
  induction 1 as [|item l Hq _ IH]; simpl; [done|].
  fold (Request.aggregate productID l). case_decide; lia.
Qed.

Lemma aggregate_single (productID : Z) (item : domain.OrderItem) :
  Request.aggregate productID [item]
  = if decide (domain.ProductID item = productID) then domain.Quantity item else 0.
Proof. simpl. case_decide; lia. Qed.

End Aggregate.

(** ** The saga, one step at a time

    The equations below say what each loop of the use case does on its
    first element; the proofs that follow use them in place of the
    definitions. *)
Section Steps.

Context {W : Type}.
Context `{inventoryClient : clients.InventoryClient W}.
Context `{orderRepo : domain.OrderRepository W}.
Context `{mapOrder : MapOrder}.

Lemma checkItems_cons item rest info (w : W) :
  usecase.checkItems (item :: rest) info w =
  match clients.GetProduct (domain.ProductID item) w with
  | (Err err, w') =>
      {| value := Err (usecase.ErrInventoryCheck (domain.ProductID item) err);
         events := [CallGetProduct (domain.ProductID item) (Err err)];
         final := w' |}
  | (Ok p, w') =>
      if clients.Stock p <? usecase.currentRequested item info
      then {| value := Err (usecase.ErrInsufficientStock (domain.ProductID item)
                              (usecase.currentRequested item info) (clients.Stock p));
              events := [CallGetProduct (domain.ProductID item) (Ok p)];
              final := w' |}
      else
        let r := usecase.checkItems rest (usecase.recordItem item p info) w' in
        {| value := match value r with
                    | Ok checked =>
                        Ok (usecase.withPrice item (clients.Price p) :: checked.1, checked.2)
                    | Err e => Err e
                    end;
           events := CallGetProduct (domain.ProductID item) (Ok p) :: events r;
           final := final r |}
  end.
Proof.
  simpl. unfold usecase.inventoryGetProduct. unfold bind at 1. rewrite call_run.
  cbn [value events final].
  destruct (clients.GetProduct (domain.ProductID item) w) as [[p|err] w']; cbn [fst snd].
  - destruct (clients.Stock p <? _); [done|].
    unfold bind. destruct (value (usecase.checkItems rest _ w')); simpl; [|done].
    by rewrite app_nil_r.
  - done.
Qed.

Lemma rollback_cons flag info id q rest (w : W) :
  usecase.rollback flag info ((id, q) :: rest) w =
  match info !! id with
  | None => {| value := Err usecase.ErrNilDereference; events := []; final := w |}
  | Some ci =>
      let stock := clients.Stock (usecase.Product ci) in
      match clients.UpdateStock id stock w with
      | (None, w') =>
          let r := usecase.rollback flag info rest w' in
          {| value := value r;
             events := CallUpdateStock id stock None :: events r;
             final := final r |}
      | (Some e, w') =>
          let r := usecase.rollback flag info rest w' in
          {| value := value r;
             events := CallUpdateStock id stock (Some e)
                       :: usecase.lineRollbackFailed flag id e :: events r;
             final := final r |}
      end
  end.
Proof.
  simpl. destruct (info !! id) as [ci|]; [|done].
  unfold usecase.inventoryUpdateStock. unfold bind at 1. rewrite call_run.
  cbn [value events final].
  destruct (clients.UpdateStock id _ w) as [[e|] w']; cbn [fst snd]; by unfold bind.
Qed.

Lemma reserve_cons info productID ci rest succ (w : W) :
  usecase.reserve info ((productID, ci) :: rest) succ w =
  let newStock :=
    GoInt.sub (clients.Stock (usecase.Product ci)) (usecase.OrderQuantity ci) in
  match clients.UpdateStock productID newStock w with
  | (None, w') =>
      let r := usecase.reserve info rest (<[productID := usecase.OrderQuantity ci]> succ) w' in
      {| value := value r;
         events := CallUpdateStock productID newStock None :: events r;
         final := final r |}
  | (Some e, w') =>
      let r := usecase.rollback false info (rangeMap succ) w' in
      {| value := match value r with
                  | Ok _ => Err (usecase.ErrReserveStock productID e)
                  | Err e' => Err e'
                  end;
         events := CallUpdateStock productID newStock (Some e)
                   :: usecase.lineDecreaseFailed productID e :: events r;
         final := final r |}
  end.
Proof.
  simpl. unfold usecase.inventoryUpdateStock. unfold bind at 1. rewrite call_run.
  cbn [value events final].
  destruct (clients.UpdateStock productID _ w) as [[e|] w']; cbn [fst snd]; [|done].
  unfold bind. simpl. destruct (value (usecase.rollback false info _ w')); simpl; [|done].
  by rewrite app_nil_r.
Qed.

Lemma returnItems_cons id item rest (w : W) :
  usecase.returnItems id (item :: rest) w =
  match clients.GetProduct (domain.ProductID item) w with
  | (Err err, w1) =>
      let r := usecase.returnItems id rest w1 in
      {| value := value r;
         events := CallGetProduct (domain.ProductID item) (Err err)
                   :: usecase.lineRestockReadFailed (domain.ProductID item) id err
                   :: events r;
         final := final r |}
  | (Ok p, w1) =>
      let newStock := GoInt.add (clients.Stock p) (domain.Quantity item) in
      match clients.UpdateStock (domain.ProductID item) newStock w1 with
      | (None, w2) =>
          let r := usecase.returnItems id rest w2 in
          {| value := value r;
             events := CallGetProduct (domain.ProductID item) (Ok p)
                       :: CallUpdateStock (domain.ProductID item) newStock None
                       :: events r;
             final := final r |}
      | (Some e, w2) =>
          let r := usecase.returnItems id rest w2 in
          {| value := value r;
             events := CallGetProduct (domain.ProductID item) (Ok p)
                       :: CallUpdateStock (domain.ProductID item) newStock (Some e)
                       :: usecase.lineRestockWriteFailed (domain.ProductID item)
                            (domain.Quantity item) id e
                       :: events r;
             final := final r |}
      end
  end.
Proof.
  simpl. unfold usecase.inventoryGetProduct, usecase.inventoryUpdateStock, bind, call.
  destruct (clients.GetProduct (domain.ProductID item) w) as [[p|err] w1]; simpl; [|done].
  destruct (clients.UpdateStock _ _ w1) as [[e|] w2]; by simpl.
Qed.

End Steps.

(** ** The phases of [CreateOrder] *)
Section Phases.

Context {W : Type}.
Context `{inventoryClient : clients.InventoryClient W}.
Context `{orderRepo : domain.OrderRepository W}.
Context `{mapOrder : MapOrder}.

(** [CreateOrder] is its four phases in sequence: validation, inventory
    check, reservation, persistence. *)
Lemma CreateOrder_phases (order : domain.Order) (w : W) :
  usecase.CreateOrder order w =
  match usecase.validate order with
  | Err e => {| value := Err e; events := []; final := w |}
  | Ok order1 =>
      let rc := usecase.checkItems (domain.Items order1) ∅ w in
      match value rc with
      | Err e => {| value := Err e; events := events rc; final := final rc |}
      | Ok checked =>
          let rr := usecase.reserve checked.2 (rangeMap checked.2) ∅ (final rc) in
          match value rr with
          | Err e =>
              {| value := Err e; events := events rc ++ events rr; final := final rr |}
          | Ok succ =>
              let persisted := usecase.withItems order1 checked.1 in
              match domain.CreateOrder persisted (final rr) with
              | (Ok created, w') =>
                  {| value := Ok created;
                     events := events rc ++ events rr
                               ++ [CallRepoCreateOrder persisted (Ok created)];
                     final := w' |}
              | (Err err, w') =>
                  let rb := usecase.rollback true checked.2 (rangeMap succ) w' in
                  {| value := match value rb with
                              | Ok _ => Err (usecase.ErrSaveOrder err)
                              | Err e' => Err e'
                              end;
                     events := events rc ++ events rr
                               ++ CallRepoCreateOrder persisted (Err err)
                                  :: usecase.lineCreateFailed (domain.UserID persisted) err
                                  :: events rb;
                     final := final rb |}
              end
          end
      end
  end.
Proof.
  unfold usecase.CreateOrder.
  destruct (usecase.validate order) as [order1|e]; [|reflexivity].
  cbn zeta.
  destruct (value (usecase.checkItems _ _ w)) as [checked|e] eqn:Hc;
    [rewrite (bind_Ok _ _ _ _ Hc) | by rewrite (bind_Err _ _ _ _ Hc)].
  destruct (value (usecase.reserve _ _ _ _)) as [succ|e] eqn:Hr;
    [rewrite (bind_Ok _ _ _ _ Hr) | by rewrite (bind_Err _ _ _ _ Hr)].
  unfold usecase.repoCreateOrder, bind, call.
  destruct (domain.CreateOrder _ _) as [[created|err] w']; simpl.
  - reflexivity.
  - destruct (value (usecase.rollback true _ _ w')); simpl; [|reflexivity].
    by rewrite app_nil_r.
Qed.

(** The check loop only reads. *)
Lemma checkItems_reads_only (items : list domain.OrderItem) :
  forall info (w : W),
    Forall (fun ev => Trace.isGetProduct ev = true)
      (events (usecase.checkItems items info w)).
Proof.
  induction items as [|item rest IH]; intros info w; [by constructor|].
  rewrite checkItems_cons.
  destruct (clients.GetProduct _ w) as [[p|err] w']; [|by repeat constructor].
  destruct (clients.Stock p <? _); [by repeat constructor|].
  cbn zeta. cbn [events]. constructor; [done|apply IH].
Qed.


Lemma recordItem_other item p (info : gmap Z usecase.productCheckInfo) productID :
  productID <> domain.ProductID item ->
  usecase.recordItem item p info !! productID = info !! productID.
Proof.
  intros Hne. unfold usecase.recordItem.
  destruct (info !! domain.ProductID item); by rewrite lookup_insert_ne.
Qed.

Lemma recordItem_same item p (info : gmap Z usecase.productCheckInfo) :
  usecase.recordItem item p info !! domain.ProductID item =
  Some match info !! domain.ProductID item with
       | Some existing =>
           {| usecase.Product := usecase.Product existing;
              usecase.OrderQuantity :=
                GoInt.add (usecase.OrderQuantity existing) (domain.Quantity item) |}
       | None => {| usecase.Product := p; usecase.OrderQuantity := domain.Quantity item |}
       end.
Proof.
  unfold usecase.recordItem.
  destruct (info !! domain.ProductID item); by rewrite lookup_insert_eq.
Qed.

(** When the check passes, the items come back in the same order, each
    with the price of the product read for it. *)
Lemma checkItems_stamps (items : list domain.OrderItem) :
  forall info (w : W) checked,
    value (usecase.checkItems items info w) = Ok checked ->
    let evs := events (usecase.checkItems items info w) in
    map fst (Trace.reads evs) = map domain.ProductID items
    /\ checked.1 = zip_with (fun item read => usecase.withPrice item (clients.Price read.2))
                     items (Trace.reads evs).
Proof.
  induction items as [|item rest IH]; intros info w checked.
  - simpl. by intros [= <-].
  - rewrite checkItems_cons.
    destruct (clients.GetProduct _ w) as [[p|err] w']; [|discriminate].
    destruct (clients.Stock p <? _); [discriminate|].
    cbn zeta. cbn [value events].
    destruct (value (usecase.checkItems rest _ w')) as [checked'|] eqn:Hrest; [|discriminate].
    intros [= <-]. destruct (IH _ _ _ Hrest) as [Hpids Hitems].
    simpl. split; [by f_equal|]. by f_equal.
Qed.

(** When the check passes, [productsInfo] holds, for every product of the
    order, the product as it was first read. *)
Lemma checkItems_first_reads (items : list domain.OrderItem) :
  forall info (w : W) checked,
    value (usecase.checkItems items info w) = Ok checked ->
    forall productID ci,
      checked.2 !! productID = Some ci ->
      (exists ci0, info !! productID = Some ci0
                   /\ usecase.Product ci0 = usecase.Product ci)
      \/ (info !! productID = None
          /\ Trace.firstRead productID (events (usecase.checkItems items info w))
             = Some (usecase.Product ci)).
Proof.
  induction items as [|item rest IH]; intros info w checked.
  - simpl. intros [= <-] productID ci Hci. left. eauto.
  - rewrite checkItems_cons.
    destruct (clients.GetProduct _ w) as [[p|err] w']; [|discriminate].
    destruct (clients.Stock p <? _); [discriminate|].
    cbn zeta. cbn [value events].
    destruct (value (usecase.checkItems rest _ w')) as [checked'|] eqn:Hrest; [|discriminate].
    intros [= <-] productID ci Hci. simpl in Hci.
    destruct (IH _ _ _ Hrest productID ci Hci) as [(ci0 & Hci0 & Hp) | [Hnone Hfirst]].
    + destruct (decide (productID = domain.ProductID item)) as [->|Hne].
      * rewrite recordItem_same in Hci0. injection Hci0 as <-.
        destruct (info !! domain.ProductID item) as [existing|] eqn:Hex; simpl in Hp.
        -- left. eauto.
        -- right. split; [done|]. simpl. rewrite decide_True by done. by f_equal.
      * rewrite recordItem_other in Hci0 by done. left. eauto.
    + destruct (decide (productID = domain.ProductID item)) as [->|Hne].
      * by rewrite recordItem_same in Hnone.
      * rewrite recordItem_other in Hnone by done. right. split; [done|].
        simpl. by rewrite decide_False.
Qed.

(** When the check passes, every product of the order is in
    [productsInfo]. *)
Lemma checkItems_covers (items : list domain.OrderItem) :
  forall info (w : W) checked,
    value (usecase.checkItems items info w) = Ok checked ->
    (forall productID, is_Some (info !! productID) -> is_Some (checked.2 !! productID))
    /\ (forall item, item ∈ items -> is_Some (checked.2 !! domain.ProductID item)).
Proof.
  induction items as [|item rest IH]; intros info w checked.
  - simpl. intros [= <-]. split; [done|]. intros item Hin. by apply elem_of_nil in Hin.
  - rewrite checkItems_cons.
    destruct (clients.GetProduct _ w) as [[p|err] w']; [|discriminate].
    destruct (clients.Stock p <? _); [discriminate|].
    cbn zeta. cbn [value events].
    destruct (value (usecase.checkItems rest _ w')) as [checked'|] eqn:Hrest; [|discriminate].
    intros [= <-]. destruct (IH _ _ _ Hrest) as [Hkeep Hrestin]. simpl.
    assert (Hitem : is_Some (checked'.2 !! domain.ProductID item)).
    { apply Hkeep. rewrite recordItem_same. eauto. }
    split.
    + intros productID Hsome. apply Hkeep.
      destruct (decide (productID = domain.ProductID item)) as [->|Hne].
      * rewrite recordItem_same. eauto.
      * by rewrite recordItem_other.
    + intros item' [->|Hin]%elem_of_cons; [done|by apply Hrestin].
Qed.


(** The rollback loop never fails, whatever the inventory answers: it
    asks, for every entry, that the stock be set back to the value first
    read for that product, and logs the updates that fail. *)
Lemma rollback_runs flag (info : gmap Z usecase.productCheckInfo)
    (entries : list (Z * Z)) :
  forall w : W,
    (forall id q, (id, q) ∈ entries -> is_Some (info !! id)) ->
    let r := usecase.rollback flag info entries w in
    value r = Ok tt
    /\ (forall id q, (id, q) ∈ entries ->
        exists ci res, info !! id = Some ci
          /\ CallUpdateStock id (clients.Stock (usecase.Product ci)) res ∈ events r)
    /\ (forall id stock e, CallUpdateStock id stock (Some e) ∈ events r ->
        usecase.lineRollbackFailed flag id e ∈ events r).
Proof.
  induction entries as [|[id q] rest IH]; intros w Hkeys.
  - simpl. split; [done|]. split; [intros ? ? Hin | intros ? ? ? Hin];
      by apply elem_of_nil in Hin.
  - rewrite rollback_cons.
    destruct (Hkeys id q) as [ci Hci]; [by left|]. rewrite Hci. cbn zeta.
    assert (Hrest : forall id' q', (id', q') ∈ rest -> is_Some (info !! id'))
      by (intros ? ? ?; eapply Hkeys; by right).
    destruct (clients.UpdateStock id _ w) as [[e|] w'];
      destruct (IH w' Hrest) as (Hval & Hcalls & Hlogs); cbn [value events];
      (split; [done|]); split.
    + intros id' q' [[= -> ->]|Hin]%elem_of_cons.
      * exists ci, (Some e). split; [done|by left].
      * destruct (Hcalls _ _ Hin) as (ci' & res & ? & ?).
        exists ci', res. split; [done|]. by do 2 right.
    + intros id' stock e' [[= -> -> ->]|[Hin|Hin]%elem_of_cons]%elem_of_cons.
      * right. by left.
      * by destruct flag.
      * do 2 right. eauto.
    + intros id' q' [[= -> ->]|Hin]%elem_of_cons.
      * exists ci, None. split; [done|by left].
      * destruct (Hcalls _ _ Hin) as (ci' & res & ? & ?).
        exists ci', res. split; [done|]. by right.
    + intros id' stock e' [[=]|Hin]%elem_of_cons. right. eauto.
Qed.

(** Neither the rollback loop nor the reservation loop reads a product or
    saves an order. *)
Lemma rollback_quiet flag (info : gmap Z usecase.productCheckInfo)
    (entries : list (Z * Z)) :
  forall w : W,
    Forall (fun ev => Trace.isGetProduct ev = false /\ Trace.isRepoCreate ev = false)
      (events (usecase.rollback flag info entries w)).
Proof.
  induction entries as [|[id q] rest IH]; intros w; [by constructor|].
  rewrite rollback_cons. destruct (info !! id) as [ci|]; [|by constructor].
  cbn zeta. destruct (clients.UpdateStock id _ w) as [[e|] w']; cbn [events].
  - constructor; [done|]. constructor; [by destruct flag|]. apply IH.
  - constructor; [done|]. apply IH.
Qed.

Lemma reserve_quiet (info : gmap Z usecase.productCheckInfo)
    (entries : list (Z * usecase.productCheckInfo)) :
  forall succ (w : W),
    Forall (fun ev => Trace.isGetProduct ev = false /\ Trace.isRepoCreate ev = false)
      (events (usecase.reserve info entries succ w)).
Proof.
  induction entries as [|[productID ci] rest IH]; intros succ w; [by constructor|].
  rewrite reserve_cons. cbn zeta.
  destruct (clients.UpdateStock productID _ w) as [[e|] w']; cbn [events].
  - constructor; [done|]. constructor; [done|]. apply rollback_quiet.
  - constructor; [done|]. apply IH.
Qed.


(** The reservation loop either updates the stock of every entry, or stops
    at the first update that fails, rolls back the entries already
    updated, and returns the error of that update. *)
Lemma reserve_runs `{laws : !MapOrderLaws} (info : gmap Z usecase.productCheckInfo)
    (entries : list (Z * usecase.productCheckInfo)) :
  forall succ (w : W),
    (forall productID ci, (productID, ci) ∈ entries -> is_Some (info !! productID)) ->
    (forall productID, is_Some (succ !! productID) -> is_Some (info !! productID)) ->
    let r := usecase.reserve info entries succ w in
    (exists succ',
        value r = Ok succ'
        /\ events r = map Trace.reservation entries
        /\ (forall productID, is_Some (succ' !! productID)
              <-> is_Some (succ !! productID) \/ productID ∈ entries.*1))
    \/ (exists done productID ci rest e rb,
          entries = done ++ (productID, ci) :: rest
          /\ value r = Err (usecase.ErrReserveStock productID e)
          /\ events r =
               map Trace.reservation done
               ++ CallUpdateStock productID
                    (GoInt.sub (clients.Stock (usecase.Product ci))
                       (usecase.OrderQuantity ci)) (Some e)
                  :: usecase.lineDecreaseFailed productID e :: rb
          /\ (forall id, is_Some (succ !! id) \/ id ∈ done.*1 ->
                exists ci' res, info !! id = Some ci'
                  /\ CallUpdateStock id (clients.Stock (usecase.Product ci')) res ∈ rb)
          /\ (forall id stock e', CallUpdateStock id stock (Some e') ∈ rb ->
                usecase.lineRollbackFailed false id e' ∈ rb)).
Proof.
  induction entries as [|[productID ci] rest IH]; intros succ w Hentries Hsucc.
  - left. exists succ. simpl. split; [done|]. split; [done|].
    intros productID. split; [auto|]. intros [?|Hin]; [done|].
    by apply elem_of_nil in Hin.
  - rewrite reserve_cons. cbn zeta.
    destruct (clients.UpdateStock productID _ w) as [[e|] w'].
    + right. exists [], productID, ci, rest, e,
        (events (usecase.rollback false info (rangeMap succ) w')).
      assert (Hkeys : forall id q, (id, q) ∈ rangeMap succ -> is_Some (info !! id)).
      { intros id q Hin. apply Hsucc. rewrite rangeMap_perm in Hin.
        apply elem_of_map_to_list in Hin. eauto. }
      destruct (rollback_runs false info (rangeMap succ) w' Hkeys)
        as (Hval & Hcalls & Hlogs).
      cbn [value events]. rewrite Hval. repeat split; [|done].
      intros id [[q Hq]|Hin]; [|by apply elem_of_nil in Hin].
      apply (Hcalls id q). rewrite rangeMap_perm. by apply elem_of_map_to_list.
    + assert (Hrest : forall productID' ci',
                 (productID', ci') ∈ rest -> is_Some (info !! productID'))
        by (intros ? ? ?; eapply Hentries; by right).
      assert (Hsucc' : forall productID',
                 is_Some (<[productID := usecase.OrderQuantity ci]> succ !! productID')
                 -> is_Some (info !! productID')).
      { intros productID'. destruct (decide (productID = productID')) as [<-|Hne].
        - intros _. eapply Hentries. by left.
        - rewrite lookup_insert_ne by done. apply Hsucc. }
      destruct (IH _ w' Hrest Hsucc')
        as [(succ' & Hval & Hev & Hdom)
           |(done & pid & ci' & rest' & e & rb & -> & Hval & Hev & Hcalls & Hlogs)];
        cbn [value events].
      * left. exists succ'. split; [done|]. split; [by rewrite Hev|].
        intros productID'. rewrite Hdom. rewrite fmap_cons, elem_of_cons. simpl.
        destruct (decide (productID = productID')) as [<-|Hne].
        -- rewrite lookup_insert_eq. split; [auto|eauto].
        -- rewrite lookup_insert_ne by done.
           split; [intros [?|?]; auto | intros [?|[?|?]]; auto; congruence].
      * right. exists ((productID, ci) :: done), pid, ci', rest', e, rb.
        split; [done|]. split; [done|]. split; [by rewrite Hev|]. split; [|done].
        intros id Hid. apply Hcalls.
        destruct (decide (productID = id)) as [<-|Hne].
        -- left. rewrite lookup_insert_eq. eauto.
        -- rewrite lookup_insert_ne by done.
           destruct Hid as [?|Hin]; [by left|]. right.
           rewrite fmap_cons, elem_of_cons in Hin. simpl in Hin.
           destruct Hin as [?|?]; [congruence|done].
Qed.

End Phases.

(** ** Splitting a list of events *)
Section Splits.

Context {A : Type} (P : A -> bool).

(** The first element that satisfies [P] is where it is. *)
Lemma first_split_unique (l1 l2 k1 k2 : list A) (x y : A) :
  l1 ++ x :: l2 = k1 ++ y :: k2 ->
  Forall (fun a => P a = false) l1 -> P x = true ->
  Forall (fun a => P a = false) k1 -> P y = true ->
  l1 = k1 /\ x = y /\ l2 = k2.
Proof.
  revert k1. induction l1 as [|a l1 IH]; intros [|b k1]; simpl;
    intros [= ? Heq] Hl Hx Hk Hy; subst.
  - done.
  - apply Forall_cons in Hk as [Hb _]. congruence.
  - apply Forall_cons in Hl as [Ha _]. congruence.
  - apply Forall_cons in Hl as [_ Hl]. apply Forall_cons in Hk as [_ Hk].
    destruct (IH _ Heq Hl Hx Hk Hy) as (-> & -> & ->). done.
Qed.

(** The only element that satisfies [P] is where it is. *)
Lemma only_split_unique (l1 l2 k1 k2 : list A) (x y : A) :
  l1 ++ x :: l2 = k1 ++ y :: k2 ->
  Forall (fun a => P a = false) l1 -> Forall (fun a => P a = false) l2 ->
  P y = true ->
  l1 = k1 /\ x = y /\ l2 = k2.
Proof.
  revert k1. induction l1 as [|a l1 IH]; intros [|b k1]; simpl;
    intros [= ? Heq] Hl1 Hl2 Hy; subst.
  - done.
  - exfalso. assert (Hin : y ∈ k1 ++ y :: k2) by (apply elem_of_app; right; by left).
    rewrite Forall_forall in Hl2. specialize (Hl2 _ Hin). congruence.
  - apply Forall_cons in Hl1 as [Ha _]. congruence.
  - apply Forall_cons in Hl1 as [_ Hl1].
    destruct (IH _ Heq Hl1 Hl2 Hy) as (-> & -> & ->). done.
Qed.

End Splits.

Section TraceFacts.

Lemma reads_app (l1 l2 : list Event) :
  Trace.reads (l1 ++ l2) = Trace.reads l1 ++ Trace.reads l2.
Proof.
  induction l1 as [|ev l1 IH]; [done|].
  destruct ev as [productID [p|err]| | | | | | |]; simpl; by rewrite ?IH.
Qed.

Lemma reads_quiet (l : list Event) :
  Forall (fun ev => Trace.isGetProduct ev = false) l -> Trace.reads l = [].
Proof.
  induction 1 as [|ev l Hev _ IH]; [done|].
  destruct ev as [productID [p|err]| | | | | | |]; simpl in *; done.
Qed.

Lemma firstRead_app_l (productID : Z) (l1 l2 : list Event) (p : clients.Product) :
  Trace.firstRead productID l1 = Some p ->
  Trace.firstRead productID (l1 ++ l2) = Some p.
Proof.
  induction l1 as [|ev l1 IH]; [done|].
  destruct ev as [productID' [p'|err]| | | | | | |]; simpl; auto.
  case_decide; auto.
Qed.

End TraceFacts.

(** ** CreateOrder *)
Section CreateOrder.

Context {W : Type}.
Context `{inventoryClient : clients.InventoryClient W}.
Context `{orderRepo : domain.OrderRepository W}.
Context `{mapOrder : MapOrder}.

Lemma validate_keeps (order order1 : domain.Order) :
  usecase.validate order = Ok order1 ->
  domain.Items order1 = domain.Items order
  /\ domain.UserID order1 = domain.UserID order
  /\ domain.Status order1 = domain.StatusPending.
Proof.
  unfold usecase.validate.
  destruct (domain.UserID order <=? 0); [discriminate|].
  destruct (length (domain.Items order) =? 0)%nat; [discriminate|].
  destruct (usecase.validateItems 0 (domain.Items order)); [discriminate|].
  destruct (String.eqb (domain.Status order) EmptyString); simpl.
  - by intros [= <-].
  - destruct (String.eqb_spec (domain.Status order) domain.StatusPending);
      simpl; [|discriminate]. by intros [= <-].
Qed.

Lemma validate_items_positive (order order1 : domain.Order) :
  usecase.validate order = Ok order1 ->
  Forall (fun item => 0 < domain.Quantity item) (domain.Items order).
Proof.
  unfold usecase.validate.
  destruct (domain.UserID order <=? 0); [discriminate|].
  destruct (length (domain.Items order) =? 0)%nat; [discriminate|].
  destruct (usecase.validateItems 0 (domain.Items order)) eqn:Hitems; [discriminate|].
  intros _. revert Hitems. generalize 0%nat.
  induction (domain.Items order) as [|item rest IH]; intros i; simpl; [by constructor|].
  destruct (domain.ProductID item <=? 0); [discriminate|].
  destruct (Z.leb_spec (domain.Quantity item) 0); [discriminate|].
  destruct (PrimFloat.ltb _ _); [discriminate|].
  intros Hrest. constructor; [done|by eapply IH].
Qed.

Lemma aggregate_snoc (productID : Z) (done : list domain.OrderItem)
    (x : domain.OrderItem) :
  Request.aggregate productID (done ++ [x])
  = Request.aggregate productID done
    + (if decide (domain.ProductID x = productID) then domain.Quantity x else 0).
Proof. by rewrite aggregate_app, aggregate_single. Qed.

Lemma aggregate_absent (productID : Z) (l : list domain.OrderItem) :
  ~ Exists (fun item => domain.ProductID item = productID) l ->
  Request.aggregate productID l = 0.
Proof.
  induction l as [|y l IH]; intros Hnex; [done|]. simpl.
  fold (Request.aggregate productID l). rewrite decide_False.
  - apply IH. intros Hex. apply Hnex. by right.
  - intros Heq. apply Hnex. by left.
Qed.

(** The sums the loop computes do not overflow when the sums of the whole
    order fit. *)
Lemma aggregate_step_fits (done rest : list domain.OrderItem) (x : domain.OrderItem) :
  Forall (fun item => 0 < domain.Quantity item) (done ++ x :: rest) ->
  Request.aggregate (domain.ProductID x) (done ++ x :: rest) <= GoInt.max_int ->
  GoInt.in_int (Request.aggregate (domain.ProductID x) done + domain.Quantity x).
Proof.
  intros Hpos Hfit. apply Forall_app in Hpos as [Hd Hx].
  apply Forall_cons in Hx as [Hx Hr].
  pose proof (aggregate_nonneg (domain.ProductID x) _ Hd).
  pose proof (aggregate_nonneg (domain.ProductID x) _ Hr).
  change (x :: rest) with ([x] ++ rest) in Hfit.
  rewrite !aggregate_app, aggregate_single, decide_True in Hfit by done.
  unfold GoInt.in_int, GoInt.min_int, GoInt.max_int in *. lia.
Qed.

Lemma currentRequested_tracks info done (x : domain.OrderItem) :
  Request.tracks info done ->
  GoInt.in_int (Request.aggregate (domain.ProductID x) done + domain.Quantity x) ->
  usecase.currentRequested x info = Request.aggregate (domain.ProductID x) (done ++ [x]).
Proof.
  intros Hinfo Hint. rewrite aggregate_snoc, decide_True by done.
  unfold usecase.currentRequested. specialize (Hinfo (domain.ProductID x)).
  destruct (info !! domain.ProductID x) as [ci|].
  - rewrite Hinfo, add_exact; [lia|]. by rewrite Z.add_comm.
  - lia.
Qed.

Lemma recordItem_tracks info done (x : domain.OrderItem) (p : clients.Product) :
  Request.tracks info done ->
  GoInt.in_int (Request.aggregate (domain.ProductID x) done + domain.Quantity x) ->
  Request.tracks (usecase.recordItem x p info) (done ++ [x]).
Proof.
  intros Hinfo Hint productID. rewrite aggregate_snoc.
  destruct (decide (productID = domain.ProductID x)) as [->|Hne].
  - rewrite recordItem_same, decide_True by done.
    specialize (Hinfo (domain.ProductID x)).
    destruct (info !! domain.ProductID x) as [ci|]; simpl.
    + rewrite Hinfo. by apply add_exact.
    + lia.
  - rewrite recordItem_other, decide_False by done.
    specialize (Hinfo productID). rewrite Z.add_0_r. done.
Qed.

(** The check loop stops with "insufficient stock" as soon as the
    quantity asked of a product, over the items seen so far, exceeds the
    stock read for it.  [done] are the items already checked. *)
Lemma checkItems_stops (todo : list domain.OrderItem) :
  forall (done : list domain.OrderItem) (info : gmap Z usecase.productCheckInfo) (w : W),
    Forall (fun item => 0 < domain.Quantity item) (done ++ todo) ->
    (forall item, item ∈ todo ->
       exists p, clients.GetProduct (domain.ProductID item) w = (Ok p, w)) ->
    (forall item, item ∈ todo ->
       Request.aggregate (domain.ProductID item) (done ++ todo) <= GoInt.max_int) ->
    Request.tracks info done ->
    (forall item p, item ∈ done ->
       clients.GetProduct (domain.ProductID item) w = (Ok p, w) ->
       Request.aggregate (domain.ProductID item) done <= clients.Stock p) ->
    (exists item p, item ∈ done ++ todo
       /\ clients.GetProduct (domain.ProductID item) w = (Ok p, w)
       /\ clients.Stock p < Request.aggregate (domain.ProductID item) (done ++ todo)) ->
    let r := usecase.checkItems todo info w in
    exists productID requested available,
      value r = Err (usecase.ErrInsufficientStock productID requested available)
      /\ available < requested
      /\ final r = w.
Proof.
  induction todo as [|x rest IH]; intros done info w Hpos Hreads Hfit Hinfo Hdone Hex.
  - exfalso. destruct Hex as (item & p & Hin & Hget & Hlt).
    rewrite app_nil_r in Hin, Hlt. specialize (Hdone _ _ Hin Hget). lia.
  - rewrite checkItems_cons.
    destruct (Hreads x) as [p Hget]; [by left|]. rewrite Hget.
    pose proof (aggregate_step_fits _ _ _ Hpos (Hfit x ltac:(by left))) as Hint.
    pose proof (currentRequested_tracks _ _ x Hinfo Hint) as Hreq.
    destruct (Z.ltb_spec (clients.Stock p) (usecase.currentRequested x info)) as [Hlt|Hge].
    { eexists _, _, _. cbn [value final]. eauto. }
    cbn zeta. cbn [value final].
    destruct (IH (done ++ [x]) (usecase.recordItem x p info) w)
      as (productID & requested & available & Hval & Hlt & Hfinal).
    + by rewrite <- app_assoc.
    + intros item Hin. apply Hreads. by right.
    + intros item Hin. rewrite <- app_assoc. apply Hfit. by right.
    + by apply recordItem_tracks.
    + intros item p' Hin Hget'.
      destruct (decide (domain.ProductID item = domain.ProductID x)) as [Heq|Hne].
      * rewrite Heq in Hget' |- *. rewrite Hget in Hget'. injection Hget' as <-.
        by rewrite <- Hreq.
      * rewrite aggregate_snoc, decide_False, Z.add_0_r by done. apply Hdone; [|done].
        apply elem_of_app in Hin as [?|Hin]; [done|].
        apply list_elem_of_singleton in Hin. by subst.
    + destruct Hex as (item & p' & Hin & Hget' & Hlt).
      exists item, p'. by rewrite <- app_assoc.
    + rewrite Hval. by eexists _, _, _.
Qed.

(** When the check passes, every product of the order was read with a
    stock that covers what the whole order asks of it. *)
Lemma checkItems_within_stock (todo : list domain.OrderItem) :
  forall (done : list domain.OrderItem) (info : gmap Z usecase.productCheckInfo) (w : W)
         checked,
    Forall (fun item => 0 < domain.Quantity item) (done ++ todo) ->
    (forall item, item ∈ todo ->
       Request.aggregate (domain.ProductID item) (done ++ todo) <= GoInt.max_int) ->
    Request.tracks info done ->
    value (usecase.checkItems todo info w) = Ok checked ->
    forall item, item ∈ todo ->
      exists p,
        CallGetProduct (domain.ProductID item) (Ok p)
          ∈ events (usecase.checkItems todo info w)
        /\ Request.aggregate (domain.ProductID item) (done ++ todo) <= clients.Stock p.
Proof.
  induction todo as [|x rest IH]; intros done info w checked Hpos Hfit Hinfo.
  - intros _ item Hin. by apply elem_of_nil in Hin.
  - rewrite checkItems_cons.
    destruct (clients.GetProduct _ w) as [[p|err] w']; [|discriminate].
    pose proof (aggregate_step_fits _ _ _ Hpos (Hfit x ltac:(by left))) as Hint.
    pose proof (currentRequested_tracks _ _ x Hinfo Hint) as Hreq.
    destruct (Z.ltb_spec (clients.Stock p) (usecase.currentRequested x info))
      as [Hlt|Hge]; [discriminate|].
    cbn zeta. cbn [value events].
    destruct (value (usecase.checkItems rest _ w')) as [checked'|] eqn:Hrest;
      [|discriminate].
    intros _ item Hin.
    assert (Hlater : forall item', item' ∈ rest ->
              exists p',
                CallGetProduct (domain.ProductID item') (Ok p')
                  ∈ events (usecase.checkItems rest (usecase.recordItem x p info) w')
                /\ Request.aggregate (domain.ProductID item') (done ++ x :: rest)
                   <= clients.Stock p').
    { intros item' Hin'.
      destruct (IH (done ++ [x]) (usecase.recordItem x p info) w' checked')
        with (item := item') as (p' & Hp' & Hle); try done.
      - by rewrite <- app_assoc.
      - intros item'' Hin''. rewrite <- app_assoc. apply Hfit. by right.
      - by apply recordItem_tracks.
      - exists p'. split; [done|]. by rewrite <- app_assoc in Hle. }
    destruct (decide (Exists (fun item' => domain.ProductID item' = domain.ProductID item)
                        rest)) as [Hex|Hnex].
    + apply Exists_exists in Hex as (item' & Hin' & Heq).
      destruct (Hlater item' Hin') as (p' & Hp' & Hle).
      rewrite Heq in Hp', Hle. exists p'. split; [by right|done].
    + apply elem_of_cons in Hin as [->|Hin].
      2: { exfalso. apply Hnex. apply Exists_exists. eauto. }
      exists p. split; [by left|].
      change (x :: rest) with ([x] ++ rest).
      rewrite app_assoc, aggregate_app, (aggregate_absent _ _ Hnex). lia.
Qed.

(** The two ways the check loop fails. *)
Lemma checkItems_errors (items : list domain.OrderItem) :
  forall info (w : W) e,
    value (usecase.checkItems items info w) = Err e ->
    (exists productID err,
        e = usecase.ErrInventoryCheck productID err
        /\ CallGetProduct productID (Err err) ∈ events (usecase.checkItems items info w))
    \/ (exists productID requested available,
          e = usecase.ErrInsufficientStock productID requested available
          /\ available < requested).
Proof.
  induction items as [|item rest IH]; intros info w e; [discriminate|].
  rewrite checkItems_cons.
  destruct (clients.GetProduct _ w) as [[p|err] w'].
  - destruct (Z.ltb_spec (clients.Stock p) (usecase.currentRequested item info)).
    + intros [= <-]. right. by eexists _, _, _.
    + cbn zeta. cbn [value events].
      destruct (value (usecase.checkItems rest _ w')) as [|e'] eqn:Hrest; [discriminate|].
      intros [= <-].
      destruct (IH _ _ _ Hrest) as [(productID & err & -> & Hin)|Hins]; [|by right].
      left. exists productID, err. split; [done|by right].
  - intros [= <-]. left. exists (domain.ProductID item), err. split; [done|by left].
Qed.

Lemma reads_do_not_end_reservation (evs : list Event) :
  Forall (fun ev => Trace.isGetProduct ev = true) evs ->
  Forall (fun ev => Trace.endsReservation ev = false) evs.
Proof. intros H. eapply Forall_impl; [exact H|]. by intros []. Qed.

Lemma reservations_do_not_end_reservation
    (entries : list (Z * usecase.productCheckInfo)) :
  Forall (fun ev => Trace.endsReservation ev = false) (map Trace.reservation entries).
Proof. apply Forall_fmap, Forall_true. done. Qed.

Lemma rangeMap_lookup `{laws : !MapOrderLaws} {A} (m : gmap Z A) (k : Z) (a : A) :
  (k, a) ∈ rangeMap m <-> m !! k = Some a.
Proof. rewrite rangeMap_perm. apply elem_of_map_to_list. Qed.

(** C9: a request whose user id is not positive, that has no item, or
    that has an item with a non-positive product id or quantity, fails with
    one of the errors of the validation block; no call is made and the
    world is left as it was. *)
Theorem malformed_request_rejected_without_side_effect
    (order : domain.Order) (w : W) :
  Request.Malformed order ->
  let run := usecase.CreateOrder order w in
  (exists e, value run = Err e /\ Request.ValidationError e)
  /\ events run = []
  /\ final run = w.
Proof.
  intros Hbad run. subst run. rewrite CreateOrder_phases.
  destruct (validate_rejects _ Hbad) as [e He]. rewrite He. cbn.
  split; [|done]. exists e. split; [done|]. by eapply validate_error.
Qed.

(** C1: for a request that passes validation and whose products the
    inventory can all be read from, if the quantity asked of some product,
    summed over all the lines of the order, exceeds the stock read for that
    product, the call fails with "insufficient stock": every call it made
    is a [GetProduct] (no [UpdateStock], no store write) and the world is
    left as it was.  The sums are taken to fit in Go's [int]. *)
Theorem insufficient_stock_aborts_before_any_write (order : domain.Order) (w : W) :
  Request.WellFormed order ->
  (forall item, item ∈ domain.Items order ->
     exists p, clients.GetProduct (domain.ProductID item) w = (Ok p, w)) ->
  (forall item, item ∈ domain.Items order ->
     Request.aggregate (domain.ProductID item) (domain.Items order) <= GoInt.max_int) ->
  (exists item p, item ∈ domain.Items order
     /\ clients.GetProduct (domain.ProductID item) w = (Ok p, w)
     /\ clients.Stock p < Request.aggregate (domain.ProductID item) (domain.Items order)) ->
  let run := usecase.CreateOrder order w in
  (exists productID requested available,
      value run = Err (usecase.ErrInsufficientStock productID requested available)
      /\ available < requested)
  /\ Forall (fun ev => Trace.isGetProduct ev = true) (events run)
  /\ final run = w.
Proof.
  intros Hwf Hreads Hfit Hex run. subst run. rewrite CreateOrder_phases.
  rewrite (validate_accepts _ Hwf). cbn zeta. simpl domain.Items.
  pose proof (checkItems_reads_only (domain.Items order) ∅ w) as Hevs.
  destruct (checkItems_stops (domain.Items order) [] ∅ w)
    as (productID & requested & available & Hval & Hlt & Hfinal).
  - simpl. eapply Forall_impl; [apply (Request.wf_each _ Hwf)|]. by intros ? (_ & ? & _).
  - done.
  - done.
  - intros productID. by rewrite lookup_empty.
  - intros item p Hin. by apply elem_of_nil in Hin.
  - done.
  - rewrite Hval. cbn. split; [|done]. by eexists _, _, _.
Qed.

(** X23: whatever the inventory does between two reads: for a request that
    passes the validation, if no read of the run fails and every stock read
    for some product of the order is below what the order asks of it over
    all its lines, the run ends on "insufficient stock" and made no call
    but reads.  The sums are taken to fit in Go's [int]. *)
Lemma insufficient_stock_whatever_the_inventory_answers
    (order : domain.Order) (w : W) :
  Request.WellFormed order ->
  (forall item, item ∈ domain.Items order ->
     Request.aggregate (domain.ProductID item) (domain.Items order) <= GoInt.max_int) ->
  let run := usecase.CreateOrder order w in
  (forall productID err, CallGetProduct productID (Err err) ∉ events run) ->
  (exists item, item ∈ domain.Items order
     /\ forall p, CallGetProduct (domain.ProductID item) (Ok p) ∈ events run ->
          clients.Stock p < Request.aggregate (domain.ProductID item) (domain.Items order)) ->
  (exists productID requested available,
      value run = Err (usecase.ErrInsufficientStock productID requested available)
      /\ available < requested)
  /\ Forall (fun ev => Trace.isGetProduct ev = true) (events run).
Proof.
  intros Hwf Hfit run. subst run. rewrite CreateOrder_phases.
  rewrite (validate_accepts _ Hwf). cbn zeta. simpl domain.Items.
  pose proof (checkItems_reads_only (domain.Items order) ∅ w) as Hevs.
  assert (Hpos : Forall (fun item => 0 < domain.Quantity item) ([] ++ domain.Items order)).
  { simpl. eapply Forall_impl; [apply (Request.wf_each _ Hwf)|]. by intros ? (_ & ? & _). }
  destruct (value (usecase.checkItems (domain.Items order) ∅ w)) as [checked|e] eqn:Hc.
  - intros _ (item & Hin & Hbelow). exfalso.
    destruct (checkItems_within_stock (domain.Items order) [] ∅ w checked Hpos Hfit)
      with (item := item) as (p & Hread & Hle); try done.
    simpl in Hle. specialize (Hbelow p). cbn zeta in Hbelow.
    destruct (value (usecase.reserve _ _ _ _)); [destruct (domain.CreateOrder _ _) as [[]]|];
      cbn [events] in Hbelow;
      (assert (clients.Stock p
               < Request.aggregate (domain.ProductID item) (domain.Items order));
       [apply Hbelow, elem_of_app; by left | lia]).
  - cbn [value events]. intros Hnofail _.
    destruct (checkItems_errors _ _ _ _ Hc) as [(productID & err & -> & Hin)|Hins].
    + by apply Hnofail in Hin.
    + destruct Hins as (productID & requested & available & -> & Hlt).
      split; [by eexists _, _, _|done].
Qed.

(** X13: the invariant of the data model: when an order is created,
    every product of the order was read, in that run, with a stock that
    covers the quantity the order asks of it, summed over all its lines.
    The sums are taken to fit in Go's [int]. *)
Lemma created_order_within_observed_stock (order created : domain.Order) (w : W) :
  let run := usecase.CreateOrder order w in
  value run = Ok created ->
  (forall item, item ∈ domain.Items order ->
     Request.aggregate (domain.ProductID item) (domain.Items order) <= GoInt.max_int) ->
  forall item, item ∈ domain.Items order ->
    exists p,
      CallGetProduct (domain.ProductID item) (Ok p) ∈ events run
      /\ Request.aggregate (domain.ProductID item) (domain.Items order) <= clients.Stock p.
Proof.
  intros run. subst run. rewrite CreateOrder_phases.
  destruct (usecase.validate order) as [order1|e] eqn:Hv; [|discriminate].
  destruct (validate_keeps _ _ Hv) as (Hitems & _ & _).
  pose proof (validate_items_positive _ _ Hv) as Hpos.
  cbn zeta. rewrite Hitems.
  destruct (value (usecase.checkItems _ _ w)) as [checked|e] eqn:Hc; [|discriminate].
  intros Hok Hfit item Hin.
  destruct (checkItems_within_stock (domain.Items order) [] ∅ w checked)
    with (item := item) as (p & Hread & Hle); try done.
  exists p. split; [|done].
  destruct (value (usecase.reserve _ _ _ _)); [|discriminate].
  destruct (domain.CreateOrder _ _) as [[]]; cbn [events]; apply elem_of_app; by left.
Qed.

(** C8: when an order is created, the order handed to the store carries
    the lines of the request in their order, each with the price of the
    product that [GetProduct] returned for that line in this run, whatever
    price the request carried. *)
Theorem created_order_carries_inventory_prices
    (order created : domain.Order) (w : W) :
  let run := usecase.CreateOrder order w in
  value run = Ok created ->
  exists persisted,
    last (events run) = Some (CallRepoCreateOrder persisted (Ok created))
    /\ map fst (Trace.reads (events run)) = map domain.ProductID (domain.Items order)
    /\ domain.Items persisted =
         zip_with (fun item read => usecase.withPrice item (clients.Price read.2))
           (domain.Items order) (Trace.reads (events run)).
Proof.
  intros run. subst run. rewrite CreateOrder_phases.
  destruct (usecase.validate order) as [order1|e] eqn:Hv; [|discriminate].
  destruct (validate_keeps _ _ Hv) as (Hitems & _ & _). cbn zeta.
  destruct (value (usecase.checkItems _ _ w)) as [checked|e] eqn:Hc; [|discriminate].
  destruct (value (usecase.reserve _ _ _ _)) as [succ|e] eqn:Hr; [|discriminate].
  destruct (domain.CreateOrder _ _) as [[created'|err] w'].
  2: { cbn [value]. by destruct (value (usecase.rollback _ _ _ _)). }
  cbn [value events]. intros [= ->].
  exists (usecase.withItems order1 checked.1).
  destruct (checkItems_stamps _ _ _ _ Hc) as [Hpids Hstamped]. cbn zeta in *.
  rewrite Hitems in *.
  assert (Hreads : Trace.reads
            (events (usecase.checkItems (domain.Items order) ∅ w)
             ++ events (usecase.reserve checked.2 (rangeMap checked.2) ∅
                          (final (usecase.checkItems (domain.Items order) ∅ w)))
             ++ [CallRepoCreateOrder (usecase.withItems order1 checked.1) (Ok created)])
          = Trace.reads (events (usecase.checkItems (domain.Items order) ∅ w))).
  { rewrite !reads_app. rewrite (reads_quiet (events (usecase.reserve _ _ _ _))).
    - simpl. by rewrite app_nil_r.
    - eapply Forall_impl; [apply reserve_quiet|]. by intros ? [? _]. }
  rewrite Hreads. split; [|done].
  by rewrite app_assoc, last_snoc.
Qed.


(** What the check phase hands to the reservation phase. *)
Lemma checked_entries `{laws : !MapOrderLaws} (items : list domain.OrderItem) (w : W) checked :
  value (usecase.checkItems items ∅ w) = Ok checked ->
  (forall productID ci, (productID, ci) ∈ rangeMap checked.2 ->
     is_Some (checked.2 !! productID))
  /\ (forall productID ci, checked.2 !! productID = Some ci ->
       Trace.firstRead productID (events (usecase.checkItems items ∅ w))
       = Some (usecase.Product ci)).
Proof.
  intros Hc. split.
  - intros productID ci Hin. apply rangeMap_lookup in Hin. eauto.
  - intros productID ci Hci.
    destruct (checkItems_first_reads _ _ _ _ Hc _ _ Hci) as [(ci0 & Hci0 & _)|[_ ?]];
      [|done].
    by rewrite lookup_empty in Hci0.
Qed.

(** C2: when a stock update of the reservation pass fails (the first
    update to fail, before the order is saved), the call returns the error
    of that update, wrapped as "failed to reserve stock"; and every product
    whose update had succeeded before it receives, after it, an
    [UpdateStock] carrying the stock first read for that product in the
    check phase.  A compensating update that fails is logged; the error
    returned stays that of the reservation. *)
Theorem reservation_failure_is_compensated `{laws : !MapOrderLaws}
    (order : domain.Order) (w : W)
    (pre post : list Event) (productID newStock : Z) (e : error) :
  let run := usecase.CreateOrder order w in
  events run = pre ++ CallUpdateStock productID newStock (Some e) :: post ->
  Forall (fun ev => Trace.endsReservation ev = false) pre ->
  value run = Err (usecase.ErrReserveStock productID e)
  /\ (forall id stock, CallUpdateStock id stock None ∈ pre ->
       exists p res, Trace.firstRead id pre = Some p
         /\ CallUpdateStock id (clients.Stock p) res ∈ post)
  /\ (forall id stock e', CallUpdateStock id stock (Some e') ∈ post ->
       usecase.lineRollbackFailed false id e' ∈ post).
Proof.
  intros run. subst run. rewrite CreateOrder_phases.
  destruct (usecase.validate order) as [order1|e0]; [|by destruct pre].
  cbn zeta.
  pose proof (checkItems_reads_only (domain.Items order1) ∅ w) as Hreads.
  destruct (value (usecase.checkItems _ _ w)) as [checked|e0] eqn:Hc.
  2: { cbn [events]. intros Hev _. exfalso.
       rewrite Forall_forall in Hreads.
       specialize (Hreads (CallUpdateStock productID newStock (Some e))).
       rewrite Hev in Hreads. discriminate Hreads. apply elem_of_app. right. by left. }
  destruct (checked_entries _ _ _ Hc) as [Hentries Hfirst].
  destruct (reserve_runs checked.2 (rangeMap checked.2) ∅
              (final (usecase.checkItems (domain.Items order1) ∅ w)) Hentries)
    as [(succ & Hval & Hev & _)
       |(done & pid & ci & rest & e0 & rb & Hsplit & Hval & Hev & Hcalls & Hlogs)].
  { intros ? [? Hnone]. by rewrite lookup_empty in Hnone. }
  - (* every reservation succeeded: the first event that ends the pass is
       the call that saves the order *)
    rewrite Hval, Hev. intros Hrun Hpre. exfalso.
    assert (Hquiet : Forall (fun ev => Trace.endsReservation ev = false)
              (events (usecase.checkItems (domain.Items order1) ∅ w)
               ++ map Trace.reservation (rangeMap checked.2))).
    { apply Forall_app. split; [by apply reads_do_not_end_reservation|].
      apply reservations_do_not_end_reservation. }
    destruct (domain.CreateOrder _ _) as [[created|err] w']; cbn [events] in Hrun;
      rewrite app_assoc in Hrun;
      apply (first_split_unique Trace.endsReservation) in Hrun as (_ & [=] & _); done.
  - rewrite Hval, Hev. cbn [value events]. rewrite app_assoc. intros Hrun Hpre.
    apply (first_split_unique Trace.endsReservation) in Hrun
      as (<- & [= <- _ <-] & <-); [|apply Forall_app; split|..]; try done.
    2: by apply reads_do_not_end_reservation.
    2: apply reservations_do_not_end_reservation.
    split; [done|]. split.
    + intros id stock [Hin|Hin]%elem_of_app.
      * rewrite Forall_forall in Hreads. by specialize (Hreads _ Hin).
      * apply list_elem_of_fmap in Hin as ([id' ci'] & [= -> _] & Hin).
        destruct (Hcalls id') as (ci0 & res & Hci0 & Hcall).
        { right. apply list_elem_of_fmap. by exists (id', ci'). }
        exists (usecase.Product ci0), res. split; [|by right].
        apply firstRead_app_l. by apply Hfirst.
    + intros id stock e' [[=]|Hin]%elem_of_cons. right. eauto.
Qed.

(** C3: when every reservation succeeded and the store fails to save the
    order, the call returns the store's error, wrapped as "failed to save
    order after reserving stock"; and every product reserved, which is
    every product of the order, receives afterwards an [UpdateStock]
    carrying the stock first read for it in the check phase.  A
    compensating update that fails is logged; the error returned stays that
    of the store. *)
Theorem persistence_failure_is_compensated `{laws : !MapOrderLaws}
    (order persisted : domain.Order) (w : W)
    (pre post : list Event) (err : error) :
  let run := usecase.CreateOrder order w in
  events run = pre ++ CallRepoCreateOrder persisted (Err err) :: post ->
  value run = Err (usecase.ErrSaveOrder err)
  /\ (forall id stock, CallUpdateStock id stock None ∈ pre ->
       exists p res, Trace.firstRead id pre = Some p
         /\ CallUpdateStock id (clients.Stock p) res ∈ post)
  /\ (forall item, item ∈ domain.Items order ->
       exists p res, Trace.firstRead (domain.ProductID item) pre = Some p
         /\ CallUpdateStock (domain.ProductID item) (clients.Stock p) res ∈ post)
  /\ (forall id stock e', CallUpdateStock id stock (Some e') ∈ post ->
       usecase.lineRollbackFailed true id e' ∈ post).
Proof.
  intros run. subst run. rewrite CreateOrder_phases.
  destruct (usecase.validate order) as [order1|e0] eqn:Hv; [|by destruct pre].
  destruct (validate_keeps _ _ Hv) as (Hitems & _ & _).
  cbn zeta.
  pose proof (checkItems_reads_only (domain.Items order1) ∅ w) as Hreads.
  assert (Hnocreate : forall evs,
             Forall (fun ev => Trace.isGetProduct ev = false
                               /\ Trace.isRepoCreate ev = false) evs ->
             Forall (fun ev => Trace.isRepoCreate ev = false) evs).
  { intros evs Hevs. eapply Forall_impl; [exact Hevs|]. by intros ? [_ ?]. }
  assert (Hreads' : Forall (fun ev => Trace.isRepoCreate ev = false)
            (events (usecase.checkItems (domain.Items order1) ∅ w))).
  { eapply Forall_impl; [exact Hreads|]. by intros []. }
  assert (Hin : forall evs, evs = pre ++ CallRepoCreateOrder persisted (Err err) :: post ->
             Forall (fun ev => Trace.isRepoCreate ev = false) evs -> False).
  { intros evs -> Hall. rewrite Forall_forall in Hall.
    specialize (Hall (CallRepoCreateOrder persisted (Err err))).
    discriminate Hall. apply elem_of_app. right. by left. }
  destruct (value (usecase.checkItems _ _ w)) as [checked|e0] eqn:Hc.
  2: { cbn [events]. intros Hev. exfalso. eauto. }
  destruct (checked_entries _ _ _ Hc) as [Hentries Hfirst].
  destruct (checkItems_covers _ _ _ _ Hc) as [_ Hcovers].
  pose proof (reserve_quiet checked.2 (rangeMap checked.2) ∅
                (final (usecase.checkItems (domain.Items order1) ∅ w))) as Hquiet.
  apply Hnocreate in Hquiet.
  destruct (reserve_runs checked.2 (rangeMap checked.2) ∅
              (final (usecase.checkItems (domain.Items order1) ∅ w)) Hentries)
    as [(succ & Hval & Hev & Hdom)
       |(done & pid & ci & rest & e0 & rb & Hsplit & Hval & Hev & Hcalls & Hlogs)].
  { intros ? [? Hnone]. by rewrite lookup_empty in Hnone. }
  2: { rewrite Hval. cbn [events]. intros Hrun. exfalso.
       eapply Hin; [exact Hrun|]. by apply Forall_app. }
  rewrite Hval. rewrite Hev in Hquiet |- *.
  destruct (domain.CreateOrder _ _) as [[created|err'] w']; cbn [value events].
  { rewrite app_assoc. intros Hrun.
    apply (only_split_unique Trace.isRepoCreate) in Hrun as (_ & [=] & _);
      first [done | by apply Forall_app | by constructor]. }
  assert (Hkeys : forall id q, (id, q) ∈ rangeMap succ -> is_Some (checked.2 !! id)).
  { intros id q Hq. apply rangeMap_lookup in Hq.
    assert (Hs : is_Some (succ !! id)) by eauto.
    apply Hdom in Hs as [[? Hnone]|Hs]; [by rewrite lookup_empty in Hnone|].
    apply list_elem_of_fmap in Hs as ([id' ci'] & -> & Hs). eauto. }
  destruct (rollback_runs true checked.2 (rangeMap succ) w' Hkeys)
    as (Hrb & Hcalls & Hlogs).
  rewrite Hrb. rewrite app_assoc. intros Hrun.
  apply (only_split_unique Trace.isRepoCreate) in Hrun as (<- & [= <- <-] & <-);
    [|first [done | by apply Forall_app
             | constructor; [done|]; apply Hnocreate, rollback_quiet]..].
  assert (Hcomp : forall id ci, checked.2 !! id = Some ci ->
            exists p res,
              Trace.firstRead id
                (events (usecase.checkItems (domain.Items order1) ∅ w)
                 ++ map Trace.reservation (rangeMap checked.2)) = Some p
              /\ CallUpdateStock id (clients.Stock p) res
                 ∈ usecase.lineCreateFailed
                     (domain.UserID (usecase.withItems order1 checked.1)) err'
                   :: events (usecase.rollback true checked.2 (rangeMap succ) w')).
  { intros id ci Hci.
    assert (Hs : is_Some (succ !! id)).
    { apply Hdom. right. apply list_elem_of_fmap. exists (id, ci).
      split; [done|]. by apply rangeMap_lookup. }
    destruct Hs as [q Hq]. apply rangeMap_lookup in Hq.
    destruct (Hcalls _ _ Hq) as (ci0 & res & Hci0 & Hcall).
    exists (usecase.Product ci0), res. split; [|by right].
    apply firstRead_app_l. by apply Hfirst. }
  split; [done|]. split; [|split].
  - intros id stock [Hi|Hi]%elem_of_app.
    + rewrite Forall_forall in Hreads. by specialize (Hreads _ Hi).
    + apply list_elem_of_fmap in Hi as ([id' ci'] & [= -> _] & Hi).
      apply rangeMap_lookup in Hi. eauto.
  - intros item Hitem. rewrite <- Hitems in Hitem.
    destruct (Hcovers _ Hitem) as [ci Hci]. eauto.
  - intros id stock e' [[=]|Hi]%elem_of_cons. right. eauto.
Qed.

(** The saga never dereferences a nil [Product]: the keys of
    [successfullyDecreased] are keys of [productsInfo]. *)
Lemma CreateOrder_never_panics `{laws : !MapOrderLaws} (order : domain.Order) (w : W) :
  value (usecase.CreateOrder order w) <> Err usecase.ErrNilDereference.
Proof.
  rewrite CreateOrder_phases.
  destruct (usecase.validate order) as [order1|e0] eqn:Hv.
  2: { apply validate_error in Hv. cbn. intros [= ->]. inversion Hv. }
  cbn zeta.
  destruct (value (usecase.checkItems _ _ w)) as [checked|e0] eqn:Hc.
  2: { cbn. intros [= ->]. revert Hc. clear.
       generalize (∅ : gmap Z usecase.productCheckInfo).
       revert w. induction (domain.Items order1) as [|item rest IH]; intros w info.
       - discriminate.
       - rewrite checkItems_cons.
         destruct (clients.GetProduct _ w) as [[p|err] w']; [|discriminate].
         destruct (clients.Stock p <? _); [discriminate|].
         cbn zeta. cbn [value]. specialize (IH w' (usecase.recordItem item p info)).
         destruct (value (usecase.checkItems rest _ w')); [discriminate|].
         intros [= ->]. by apply IH. }
  destruct (checked_entries _ _ _ Hc) as [Hentries _].
  destruct (reserve_runs checked.2 (rangeMap checked.2) ∅
              (final (usecase.checkItems (domain.Items order1) ∅ w)) Hentries)
    as [(succ & Hval & Hev & Hdom)
       |(done & pid & ci & rest & e0 & rb & Hsplit & Hval & _)].
  { intros ? [? Hnone]. by rewrite lookup_empty in Hnone. }
  2: { by rewrite Hval. }
  rewrite Hval.
  destruct (domain.CreateOrder _ _) as [[created|err'] w']; cbn [value]; [done|].
  assert (Hkeys : forall id q, (id, q) ∈ rangeMap succ -> is_Some (checked.2 !! id)).
  { intros id q Hq. apply rangeMap_lookup in Hq.
    assert (Hs : is_Some (succ !! id)) by eauto.
    apply Hdom in Hs as [[? Hnone]|Hs]; [by rewrite lookup_empty in Hnone|].
    apply list_elem_of_fmap in Hs as ([id' ci'] & -> & Hs). eauto. }
  destruct (rollback_runs true checked.2 (rangeMap succ) w' Hkeys) as (-> & _). done.
Qed.

End CreateOrder.

(** ** UpdateOrderStatus *)
Section UpdateOrderStatus.

Context {W : Type}.
Context `{inventoryClient : clients.InventoryClient W}.
Context `{orderRepo : domain.OrderRepository W}.

(** The loop that returns the items goes through every item, whatever the
    inventory answers, and never fails. *)
Lemma returnItems_runs (id : Z) (items : list domain.OrderItem) :
  forall w : W,
    value (usecase.returnItems id items w) = Ok tt
    /\ exists blocks,
         Forall2 (Trace.restocked id) items blocks
         /\ events (usecase.returnItems id items w) = concat blocks.
Proof.
  induction items as [|item rest IH]; intros w.
  - split; [done|]. exists []. by split; [constructor|].
  - rewrite returnItems_cons.
    destruct (clients.GetProduct _ w) as [[p|err] w1].
    + cbn zeta. destruct (clients.UpdateStock _ _ w1) as [[e|] w2];
        destruct (IH w2) as (Hval & blocks & Hblocks & Hev); cbn [value events];
        (split; [done|]); rewrite Hev.
      * eexists (_ :: blocks). split; [constructor; [apply Trace.restocked_write_failed|done]|].
        done.
      * eexists (_ :: blocks). split; [constructor; [apply Trace.restocked_ok|done]|].
        done.
    + cbn zeta. destruct (IH w1) as (Hval & blocks & Hblocks & Hev); cbn [value events].
      split; [done|]. rewrite Hev.
      eexists (_ :: blocks). split; [constructor; [apply Trace.restocked_read_failed|done]|].
      done.
Qed.

(** [UpdateOrderStatus] step by step. *)
Lemma UpdateOrderStatus_run (id : Z) (status : domain.OrderStatus) (w : W) :
  usecase.UpdateOrderStatus id status w =
  if id <=? 0
  then {| value := Err usecase.ErrInvalidOrderIDForUpdate; events := []; final := w |}
  else if negb (domain.IsValidStatus status)
  then {| value := Err (usecase.ErrInvalidTargetStatus status); events := []; final := w |}
  else
    match domain.GetOrderByID id w with
    | (Err err, w1) =>
        {| value := Err err; events := [CallRepoGetOrderByID id (Err err)]; final := w1 |}
    | (Ok currentOrder, w1) =>
        let loaded := CallRepoGetOrderByID id (Ok currentOrder) in
        if String.eqb (domain.Status currentOrder) domain.StatusCompleted
           && String.eqb status domain.StatusCancelled
        then {| value := Err usecase.ErrCancelCompleted; events := [loaded]; final := w1 |}
        else if String.eqb (domain.Status currentOrder) domain.StatusCancelled
                && negb (String.eqb status domain.StatusCancelled)
        then {| value := Err usecase.ErrChangeCancelled; events := [loaded]; final := w1 |}
        else
          let isCancelling :=
            String.eqb status domain.StatusCancelled
            && negb (String.eqb (domain.Status currentOrder) domain.StatusCancelled) in
          let returned :=
            if isCancelling
            then usecase.returnItems id (domain.Items currentOrder) w1
            else ret tt w1 in
          match domain.UpdateOrderStatus id status (final returned) with
          | (Ok updatedOrder, w2) =>
              {| value := Ok updatedOrder;
                 events := loaded :: events returned
                           ++ [CallRepoUpdateOrderStatus id status (Ok updatedOrder)];
                 final := w2 |}
          | (Err err, w2) =>
              {| value := Err err;
                 events := loaded :: events returned
                           ++ CallRepoUpdateOrderStatus id status (Err err)
                              :: usecase.lineStatusUpdateFailed id err
                              :: (if isCancelling
                                  then [usecase.lineCancelInconsistent id] else []);
                 final := w2 |}
          end
    end.
Proof.
  unfold usecase.UpdateOrderStatus.
  destruct (id <=? 0); [reflexivity|].
  destruct (negb (domain.IsValidStatus status)); [reflexivity|].
  unfold usecase.repoGetOrderByID. unfold bind at 1. rewrite call_run.
  cbn [value events final].
  destruct (domain.GetOrderByID id w) as [[currentOrder|err] w1]; cbn [fst snd];
    [|reflexivity].
  destruct (_ && _); [reflexivity|]. destruct (_ && _); [reflexivity|].
  cbn zeta.
  set (isCancelling := _ && _).
  set (returned := if isCancelling then _ else _).
  assert (Hval : value (returned w1) = Ok tt).
  { subst returned. destruct isCancelling; [apply returnItems_runs|done]. }
  rewrite (bind_Ok _ _ _ _ Hval). cbn [value events final].
  replace (if isCancelling
           then usecase.returnItems id (domain.Items currentOrder) w1
           else ret () w1) with (returned w1)
    by (subst returned; by destruct isCancelling).
  unfold usecase.repoUpdateOrderStatus, bind, call.
  destruct (domain.UpdateOrderStatus id status _) as [[updatedOrder|err] w2]; simpl.
  - reflexivity.
  - by destruct isCancelling.
Qed.


Lemma IsValidStatus_cases (status : domain.OrderStatus) :
  domain.IsValidStatus status = true ->
  status = domain.StatusPending \/ status = domain.StatusCompleted
  \/ status = domain.StatusCancelled.
Proof.
  unfold domain.IsValidStatus.
  destruct (String.eqb_spec status domain.StatusPending); [auto|].
  destruct (String.eqb_spec status domain.StatusCompleted); [auto|].
  destruct (String.eqb_spec status domain.StatusCancelled); [auto|discriminate].
Qed.

(** C6: cancelling an order whose status is [completed] fails with "cannot
    cancel a completed order"; the only call made is the one that loads the
    order, so the inventory is not called and no stock changes. *)
Theorem completed_order_cannot_be_cancelled
    (id : Z) (currentOrder : domain.Order) (w w1 : W) :
  0 < id ->
  domain.GetOrderByID id w = (Ok currentOrder, w1) ->
  domain.Status currentOrder = domain.StatusCompleted ->
  let run := usecase.UpdateOrderStatus id domain.StatusCancelled w in
  value run = Err usecase.ErrCancelCompleted
  /\ Request.InvalidTransitionError usecase.ErrCancelCompleted
  /\ events run = [CallRepoGetOrderByID id (Ok currentOrder)]
  /\ final run = w1.
Proof.
  intros Hid Hget Hstatus run. subst run. rewrite UpdateOrderStatus_run.
  destruct (Z.leb_spec id 0); [lia|]. simpl negb. cbn match.
  rewrite Hget, Hstatus. simpl. repeat split. constructor.
Qed.

(** C10: cancelling an order whose status is already [cancelled] is not
    rejected by the transition guard: the status is written again and the
    call returns what the store answers, without any call to the
    inventory; the order the store returns for that write, whose status is
    the one written, is returned as it is. *)
Theorem recancelling_touches_no_stock
    (id : Z) (currentOrder : domain.Order) (w w1 : W) :
  0 < id ->
  domain.GetOrderByID id w = (Ok currentOrder, w1) ->
  domain.Status currentOrder = domain.StatusCancelled ->
  (forall updated w2,
     domain.UpdateOrderStatus id domain.StatusCancelled w1 = (Ok updated, w2) ->
     domain.Status updated = domain.StatusCancelled) ->
  let run := usecase.UpdateOrderStatus id domain.StatusCancelled w in
  let answer := domain.UpdateOrderStatus id domain.StatusCancelled w1 in
  value run = answer.1
  /\ final run = answer.2
  /\ Forall (fun ev => Trace.isInventoryCall ev = false) (events run)
  /\ (forall updated, value run = Ok updated ->
        domain.Status updated = domain.StatusCancelled).
Proof.
  intros Hid Hget Hstatus Hstore run answer. subst run answer.
  rewrite UpdateOrderStatus_run.
  destruct (Z.leb_spec id 0); [lia|]. simpl negb. cbn match.
  rewrite Hget, Hstatus. simpl.
  destruct (domain.UpdateOrderStatus id domain.StatusCancelled w1)
    as [[updated|err] w2] eqn:Hupd; simpl.
  - repeat split; [by repeat constructor|]. intros ? [= <-]. eauto.
  - repeat split; [by repeat constructor|]. discriminate.
Qed.

(** C5, as amended: cancelling an order whose status is neither
    [cancelled] nor [completed] loads the order, then, for each item in
    turn, reads the product and sets its stock to the stock just read plus
    the quantity of the item; a read or an update that fails is logged and
    the loop goes on with the next item.  The status is then written
    whatever happened to the items, and the call returns what the store
    answers to that write: on success, the order with status
    [cancelled]. *)
Theorem cancellation_returns_every_item
    (id : Z) (currentOrder : domain.Order) (w w1 : W) :
  0 < id ->
  domain.GetOrderByID id w = (Ok currentOrder, w1) ->
  domain.Status currentOrder <> domain.StatusCancelled ->
  domain.Status currentOrder <> domain.StatusCompleted ->
  (forall updated w2 w3,
     domain.UpdateOrderStatus id domain.StatusCancelled w2 = (Ok updated, w3) ->
     domain.Status updated = domain.StatusCancelled) ->
  let run := usecase.UpdateOrderStatus id domain.StatusCancelled w in
  (exists blocks answer tail,
      Forall2 (Trace.restocked id) (domain.Items currentOrder) blocks
      /\ events run =
           CallRepoGetOrderByID id (Ok currentOrder)
           :: concat blocks
           ++ CallRepoUpdateOrderStatus id domain.StatusCancelled answer :: tail
      /\ Forall (fun ev => Trace.isLog ev = true) tail
      /\ value run = answer)
  /\ (forall updated, value run = Ok updated ->
        domain.Status updated = domain.StatusCancelled).
Proof.
  intros Hid Hget Hnc Hncomp Hstore run. subst run.
  rewrite UpdateOrderStatus_run.
  destruct (Z.leb_spec id 0); [lia|]. simpl negb. cbn match.
  rewrite Hget.
  destruct (String.eqb_spec (domain.Status currentOrder) domain.StatusCompleted);
    [done|].
  destruct (String.eqb_spec (domain.Status currentOrder) domain.StatusCancelled);
    [done|].
  simpl.
  destruct (returnItems_runs id (domain.Items currentOrder) w1)
    as (_ & blocks & Hblocks & Hev).
  rewrite Hev.
  destruct (domain.UpdateOrderStatus id domain.StatusCancelled _)
    as [[updated|err] w2] eqn:Hupd; simpl.
  - split.
    + exists blocks, (Ok updated), []. by repeat split.
    + intros ? [= <-]. eauto.
  - split.
    + eexists blocks, (Err err), _. repeat split; [done|]. by repeat constructor.
    + discriminate.
Qed.

(** C4, as amended: among the changes of status between two different
    valid statuses, [pending] to [completed], [pending] to [cancelled] and
    [completed] to [pending] are let through (the store is asked to write
    the status and its answer is returned); the three others, [completed]
    to [cancelled] and [cancelled] to anything else, are rejected with an
    error of the transition guard after the order is loaded, with no other
    call. *)
Theorem transition_guard (id : Z) (currentOrder : domain.Order)
    (status : domain.OrderStatus) (w w1 : W) :
  0 < id ->
  domain.GetOrderByID id w = (Ok currentOrder, w1) ->
  domain.IsValidStatus (domain.Status currentOrder) = true ->
  domain.IsValidStatus status = true ->
  domain.Status currentOrder <> status ->
  let run := usecase.UpdateOrderStatus id status w in
  ((domain.Status currentOrder, status) ∈ Request.acceptedTransitions ->
     exists answer,
       CallRepoUpdateOrderStatus id status answer ∈ events run
       /\ value run = answer)
  /\ ((domain.Status currentOrder, status) ∉ Request.acceptedTransitions ->
       (exists e, value run = Err e /\ Request.InvalidTransitionError e)
       /\ events run = [CallRepoGetOrderByID id (Ok currentOrder)]
       /\ final run = w1).
Proof.
  intros Hid Hget Hcur Hstatus Hne run. subst run.
  rewrite UpdateOrderStatus_run.
  destruct (Z.leb_spec id 0); [lia|]. rewrite Hstatus. simpl negb. cbn match.
  rewrite Hget. unfold Request.acceptedTransitions.
  apply IsValidStatus_cases in Hcur as [Hc|[Hc|Hc]];
    apply IsValidStatus_cases in Hstatus as [Ht|[Ht|Ht]];
    rewrite Hc, Ht in *; try done; simpl.
  all: split; intros Hin.
  all: try solve [exfalso; apply Hin; repeat first [by left | right]].
  all: try solve [exfalso; repeat (apply elem_of_cons in Hin as [[=]|Hin]);
                  by apply elem_of_nil in Hin].
  all: try solve [split; [eexists; split; [done|constructor]|done]].
  - destruct (domain.UpdateOrderStatus id _ w1) as [[updated|err] w2]; simpl;
      eexists; (split; [|done]); right; by left.
  - destruct (usecase.returnItems id _ w1) as [v evs w2] eqn:Hret. simpl.
    destruct (domain.UpdateOrderStatus id _ w2) as [[updated|err] w3]; simpl;
      eexists; (split; [|done]); right; apply elem_of_app; right; by left.
  - destruct (domain.UpdateOrderStatus id _ w1) as [[updated|err] w2]; simpl;
      eexists; (split; [|done]); right; by left.
Qed.

End UpdateOrderStatus.

(** ** ListOrders *)
Section ListOrders.

Context {W : Type}.

Lemma usecase_ListOrdersByUserID_run `{orderRepo : domain.OrderRepository W}
    (userID limit offset : Z) (w : W) :
  0 < userID ->
  usecase.ListOrdersByUserID userID limit offset w =
  match domain.ListOrdersByUserID userID limit offset w with
  | (Ok orders, w') =>
      {| value := Ok orders;
         events := [CallRepoListOrders userID limit offset (Ok orders)];
         final := w' |}
  | (Err err, w') =>
      {| value := Err (usecase.ErrListOrders userID err);
         events := [CallRepoListOrders userID limit offset (Err err);
                    usecase.lineListFailed userID err];
         final := w' |}
  end.
Proof.
  intros Hid. unfold usecase.ListOrdersByUserID.
  destruct (Z.leb_spec userID 0); [lia|].
  unfold usecase.repoListOrdersByUserID, bind, call.
  by destruct (domain.ListOrdersByUserID userID limit offset w) as [[orders|err] w'].
Qed.

(** The limit and the offset the listing query is run with. *)
Lemma repository_ListOrdersByUserID_query `{db : repository.DB W}
    (userID limit offset : Z) (w : W) :
  exists tail,
    events (repository.ListOrdersByUserID userID limit offset w) =
    SqlQuery repository.ordersQuery
      [SqlInt userID;
       SqlInt (if (limit <=? 0) || (100 <? limit) then 10 else limit);
       SqlInt (if offset <? 0 then 0 else offset)]
    :: tail.
Proof.
  unfold repository.ListOrdersByUserID. cbn zeta. unfold bind at 1.
  rewrite call_run. cbn [value events final].
  destruct (repository.QueryOrders _ _ _ w).1; eauto.
Qed.

(** No row: an empty list, and the items are not queried. *)
Lemma repository_ListOrdersByUserID_no_rows `{db : repository.DB W}
    (userID limit offset : Z) (w : W) :
  (forall l o, (repository.QueryOrders userID l o w).1 = repository.Scanned []) ->
  value (repository.ListOrdersByUserID userID limit offset w) = Ok []
  /\ length (events (repository.ListOrdersByUserID userID limit offset w)) = 1%nat.
Proof.
  intros Hnone. unfold repository.ListOrdersByUserID. cbn zeta. unfold bind.
  rewrite call_run. cbn [value events final]. by rewrite Hnone.
Qed.


(** The HTTP handler: what it calls the use case with. *)
Lemma delivery_ListOrders_call `{orderRepo : domain.OrderRepository W}
    (c : delivery.Context) (userID : Z) (w : W) :
  strconv.Atoi (delivery.XUserID c) = Some userID ->
  0 < userID ->
  exists res tail,
    events (delivery.ListOrders c w) =
    CallRepoListOrders userID
      (delivery.parseLimit (delivery.DefaultQuery (delivery.limit c) "10"))
      (delivery.parseOffset (delivery.DefaultQuery (delivery.offset c) "0"))
      res :: tail.
Proof.
  intros Huser Hpos. unfold delivery.ListOrders. cbn zeta.
  destruct (String.eqb_spec (delivery.XUserID c) EmptyString) as [Hempty|_].
  { rewrite Hempty in Huser. discriminate. }
  rewrite Huser. destruct (Z.leb_spec userID 0); [lia|].
  unfold bind at 1. unfold attempt. cbn [value events final].
  rewrite (usecase_ListOrdersByUserID_run _ _ _ _ Hpos).
  destruct (domain.ListOrdersByUserID _ _ _ w) as [[orders|err] w']; cbn [events];
    eauto.
Qed.

(** The HTTP handler's limit and offset, case by case. *)
Lemma parseLimit_cases (param : option string) :
  let limit := delivery.parseLimit (delivery.DefaultQuery param "10") in
  (param = None -> limit = 10)
  /\ (forall s, param = Some s -> strconv.Atoi s = None -> limit = 10)
  /\ (forall s n, param = Some s -> strconv.Atoi s = Some n ->
        (n < 0 -> limit = 10) /\ (0 <= n <= 100 -> limit = n) /\ (100 < n -> limit = 100)).
Proof.
  cbn zeta. split; [by intros ->|]. split.
  - intros s -> Hs. unfold delivery.parseLimit, delivery.DefaultQuery. simpl.
    by rewrite Hs.
  - intros s n -> Hs. unfold delivery.parseLimit, delivery.DefaultQuery. simpl.
    rewrite Hs. repeat split; intros Hn.
    + destruct (Z.ltb_spec n 0); [done|lia].
    + destruct (Z.ltb_spec n 0); [lia|]. destruct (Z.ltb_spec 100 n); [lia|done].
    + destruct (Z.ltb_spec n 0); [lia|]. destruct (Z.ltb_spec 100 n); [done|lia].
Qed.

Lemma parseOffset_cases (param : option string) :
  let offset := delivery.parseOffset (delivery.DefaultQuery param "0") in
  (param = None -> offset = 0)
  /\ (forall s, param = Some s -> strconv.Atoi s = None -> offset = 0)
  /\ (forall s n, param = Some s -> strconv.Atoi s = Some n ->
        (n < 0 -> offset = 0) /\ (0 <= n -> offset = n)).
Proof.
  cbn zeta. split; [by intros ->|]. split.
  - intros s -> Hs. unfold delivery.parseOffset, delivery.DefaultQuery. simpl.
    by rewrite Hs.
  - intros s n -> Hs. unfold delivery.parseOffset, delivery.DefaultQuery. simpl.
    rewrite Hs. split; intros Hn; destruct (Z.ltb_spec n 0); done || lia.
Qed.

(** The gRPC handler: what it calls the use case with. *)
Lemma grpc_ListOrders_call `{orderRepo : domain.OrderRepository W}
    (req : grpc.ListOrdersRequest) (w : W) :
  0 < grpc.reqUserId req ->
  exists res tail,
    events (grpc.ListOrders req w) =
    CallRepoListOrders (grpc.reqUserId req) (grpc.reqLimit req) (grpc.reqOffset req) res
    :: tail.
Proof.
  intros Hpos. unfold grpc.ListOrders. cbn zeta.
  destruct (Z.leb_spec (grpc.reqUserId req) 0); [lia|].
  unfold bind at 1. unfold attempt. cbn [value events final].
  rewrite (usecase_ListOrdersByUserID_run _ _ _ _ Hpos).
  destruct (domain.ListOrdersByUserID _ _ _ w) as [[orders|err] w']; cbn [events];
    eauto.
Qed.

(** C7, as amended.  Through the HTTP handler, a limit that is missing,
    not a number or negative becomes 10 and a limit above 100 becomes 100
    before the use case is called; an offset that is missing, not a number
    or negative becomes 0.  The gRPC handler passes the limit and the
    offset of the request as they are.  The repository runs the query with
    the limit it is given when that is between 1 and 100, and with 10
    otherwise: a limit above 100 that reaches it is replaced by the
    default, not by 100; a negative offset is replaced by 0.  When the
    query returns no row, the repository, the gRPC handler and the HTTP
    handler all answer with an empty list, not an error. *)
Theorem list_orders_paging `{db : repository.DB W}
    (createOrder : domain.Order -> W -> result domain.Order * W)
    (getOrderByID : Z -> W -> result domain.Order * W)
    (updateOrderStatus : Z -> domain.OrderStatus -> W -> result domain.Order * W) :
  let store :=
    repository.postgresOrderRepository createOrder getOrderByID updateOrderStatus in
  (forall (c : delivery.Context) (userID : Z) (w : W),
     strconv.Atoi (delivery.XUserID c) = Some userID -> 0 < userID ->
     exists limit offset res tail,
       events (delivery.ListOrders (orderRepo := store) c w) =
         CallRepoListOrders userID limit offset res :: tail
       /\ (delivery.limit c = None -> limit = 10)
       /\ (forall s, delivery.limit c = Some s -> strconv.Atoi s = None -> limit = 10)
       /\ (forall s n, delivery.limit c = Some s -> strconv.Atoi s = Some n ->
             (n < 0 -> limit = 10) /\ (0 <= n <= 100 -> limit = n)
             /\ (100 < n -> limit = 100))
       /\ (delivery.offset c = None -> offset = 0)
       /\ (forall s, delivery.offset c = Some s -> strconv.Atoi s = None -> offset = 0)
       /\ (forall s n, delivery.offset c = Some s -> strconv.Atoi s = Some n ->
             (n < 0 -> offset = 0) /\ (0 <= n -> offset = n)))
  /\ (forall (req : grpc.ListOrdersRequest) (w : W),
       0 < grpc.reqUserId req ->
       exists res tail,
         events (grpc.ListOrders (orderRepo := store) req w) =
           CallRepoListOrders (grpc.reqUserId req) (grpc.reqLimit req)
             (grpc.reqOffset req) res :: tail)
  /\ (forall (userID limit offset : Z) (w : W),
       exists limit' offset' tail,
         events (repository.ListOrdersByUserID userID limit offset w) =
           SqlQuery repository.ordersQuery [SqlInt userID; SqlInt limit'; SqlInt offset']
           :: tail
         /\ (limit <= 0 -> limit' = 10)
         /\ (100 < limit -> limit' = 10)
         /\ (0 < limit <= 100 -> limit' = limit)
         /\ (offset < 0 -> offset' = 0)
         /\ (0 <= offset -> offset' = offset))
  /\ (forall (userID : Z) (w : W),
       0 < userID ->
       (forall l o, (repository.QueryOrders userID l o w).1 = repository.Scanned []) ->
       (forall limit offset,
          value (repository.ListOrdersByUserID userID limit offset w) = Ok [])
       /\ (forall req, grpc.reqUserId req = userID ->
             value (grpc.ListOrders (orderRepo := store) req w) = Ok (grpc.Response []))
       /\ (forall c, strconv.Atoi (delivery.XUserID c) = Some userID ->
             value (delivery.ListOrders (orderRepo := store) c w)
             = Ok (delivery.SuccessResponse delivery.StatusOK
                     "No orders found for this user" []))).
Proof.
  intros store. split; [|split; [|split]].
  - intros c userID w Huser Hpos.
    destruct (delivery_ListOrders_call (orderRepo := store) c userID w Huser Hpos)
      as (res & tail & Hev).
    eexists _, _, res, tail. split; [exact Hev|].
    destruct (parseLimit_cases (delivery.limit c)) as (? & ? & ?).
    destruct (parseOffset_cases (delivery.offset c)) as (? & ? & ?).
    done.
  - intros req w Hpos. by apply grpc_ListOrders_call.
  - intros userID limit offset w.
    destruct (repository_ListOrdersByUserID_query userID limit offset w) as [tail Hev].
    eexists _, _, tail. split; [exact Hev|].
    repeat split; intros Hl.
    + destruct (Z.leb_spec limit 0); [done|lia].
    + destruct (Z.leb_spec limit 0); [done|]. destruct (Z.ltb_spec 100 limit); [done|lia].
    + destruct (Z.leb_spec limit 0); [lia|]. destruct (Z.ltb_spec 100 limit); [lia|done].
    + destruct (Z.ltb_spec offset 0); [done|lia].
    + destruct (Z.ltb_spec offset 0); [lia|done].
  - intros userID w Hpos Hnone.
    assert (Hrepo : forall limit offset,
               value (repository.ListOrdersByUserID userID limit offset w) = Ok []).
    { intros. by apply repository_ListOrdersByUserID_no_rows. }
    assert (Huc : forall limit offset,
               value (usecase.ListOrdersByUserID (orderRepo := store)
                        userID limit offset w) = Ok []).
    { intros limit offset. rewrite (usecase_ListOrdersByUserID_run _ _ _ _ Hpos).
      subst store. simpl. by rewrite Hrepo. }
    split; [done|]. split.
    + intros req <-. unfold grpc.ListOrders. cbn zeta.
      destruct (Z.leb_spec (grpc.reqUserId req) 0); [lia|].
      unfold bind, attempt. cbn [value events final]. by rewrite Huc.
    + intros c Huser. unfold delivery.ListOrders. cbn zeta.
      destruct (String.eqb_spec (delivery.XUserID c) EmptyString) as [Hempty|_].
      { rewrite Hempty in Huser. discriminate. }
      rewrite Huser. destruct (Z.leb_spec userID 0); [lia|].
      unfold bind, attempt. cbn [value events final]. by rewrite Huc.
Qed.

End ListOrders.

(** ** Concrete runs *)
Section ConcreteRuns.

#[local] Existing Instance inmem.forwards.

Lemma forwards_laws : @MapOrderLaws inmem.forwards.
Proof. constructor. reflexivity. Qed.

Lemma backwards_laws : @MapOrderLaws inmem.backwards.
Proof. constructor. intros A m. apply reverse_Permutation. Qed.

(** The store writes the status it is given on the row it returns. *)
Lemma inmem_store_writes_status (id : Z) (status : domain.OrderStatus)
    (w w' : inmem.World) (updated : domain.Order) :
  inmem.UpdateOrderStatus id status w = (Ok updated, w') ->
  domain.Status updated = status.
Proof.
  unfold inmem.UpdateOrderStatus. destruct (inmem.storeFault w); [discriminate|].
  destruct (inmem.orders w !! id); [|discriminate]. by intros [= <- _].
Qed.

(** The scenario of the specification: two lines of 2 for a product with
    stock 5 succeed, the stock becomes 1 and both lines are priced 10.00. *)
Example two_lines_succeed :
  let run := usecase.CreateOrder Scenario.twoLines Scenario.shop in
  (domain.Items <$> match value run with Ok o => Some o | Err _ => None end)
  = Some [inmem.item 7 2 10%float; inmem.item 7 2 10%float]
  /\ (clients.Stock <$> inmem.products (final run) !! 7) = Some 1.
Proof. vm_compute. done. Qed.

(** A third line of 2 fails the whole order and the stock stays 5. *)
Example three_lines_fail :
  let run := usecase.CreateOrder Scenario.threeLines Scenario.shop in
  value run = Err (usecase.ErrInsufficientStock 7 6 5)
  /\ (clients.Stock <$> inmem.products (final run) !! 7) = Some 5.
Proof. vm_compute. done. Qed.


(** A request with user id 0 is rejected before any call. *)
Lemma malformed_request_witness :
  let run := usecase.CreateOrder (inmem.request 0 [inmem.item 7 2 0%float]) Scenario.shop in
  (exists e, value run = Err e /\ Request.ValidationError e)
  /\ events run = []
  /\ final run = Scenario.shop.
Proof.
  apply (malformed_request_rejected_without_side_effect
           (inmem.request 0 [inmem.item 7 2 0%float]) Scenario.shop).
  left. simpl. lia.
Defined.

(** Three lines of 2 for product 7, whose stock is 5. *)
Lemma insufficient_stock_witness :
  let run := usecase.CreateOrder Scenario.threeLines Scenario.shop in
  (exists productID requested available,
      value run = Err (usecase.ErrInsufficientStock productID requested available)
      /\ available < requested)
  /\ Forall (fun ev => Trace.isGetProduct ev = true) (events run)
  /\ final run = Scenario.shop.
Proof.
  apply (insufficient_stock_aborts_before_any_write Scenario.threeLines Scenario.shop).
  - constructor; simpl; [lia|done| |by left].
    repeat constructor.
  - intros item Hin. simpl in Hin. each_member Hin.
    all: by exists Scenario.P.
  - intros item Hin. simpl in Hin. each_member Hin.
    all: by vm_compute.
  - exists (inmem.item 7 2 0%float), Scenario.P. split; [by left|].
    split; [reflexivity|]. by vm_compute.
Defined.

(** Two lines for product 7, sent with prices 0 and 99, are saved at 10.00. *)
Lemma price_snapshot_witness :
  exists persisted,
    last (events (usecase.CreateOrder Scenario.twoLines Scenario.shop))
    = Some (CallRepoCreateOrder persisted
              (Ok {| domain.ID := 1; domain.UserID := 1;
                     domain.Items := [inmem.item 7 2 10%float; inmem.item 7 2 10%float];
                     domain.Status := domain.StatusPending;
                     domain.CreatedAt := 0; domain.UpdatedAt := 0 |}))
    /\ map fst (Trace.reads (events (usecase.CreateOrder Scenario.twoLines Scenario.shop)))
       = map domain.ProductID (domain.Items Scenario.twoLines)
    /\ domain.Items persisted =
         zip_with (fun item read => usecase.withPrice item (clients.Price read.2))
           (domain.Items Scenario.twoLines)
           (Trace.reads (events (usecase.CreateOrder Scenario.twoLines Scenario.shop))).
Proof.
  apply (created_order_carries_inventory_prices Scenario.twoLines _ Scenario.shop).
  vm_compute. reflexivity.
Defined.

(** The update of product 8 fails after that of product 7 succeeded: product 7
    is set back to 5. *)
Lemma reservation_failure_witness :
  let run := usecase.CreateOrder Scenario.twoProducts Scenario.flakyShop in
  let pre := [CallGetProduct 7 (Ok Scenario.P); CallGetProduct 8 (Ok Scenario.Q);
              CallUpdateStock 7 3 None] in
  let post := [usecase.lineDecreaseFailed 8 (New "connection reset");
               CallUpdateStock 7 5 None] in
  value run = Err (usecase.ErrReserveStock 8 (New "connection reset"))
  /\ (forall id stock, CallUpdateStock id stock None ∈ pre ->
       exists p res, Trace.firstRead id pre = Some p
         /\ CallUpdateStock id (clients.Stock p) res ∈ post)
  /\ (forall id stock e', CallUpdateStock id stock (Some e') ∈ post ->
       usecase.lineRollbackFailed false id e' ∈ post).
Proof.
  apply (reservation_failure_is_compensated (laws := forwards_laws)
           Scenario.twoProducts Scenario.flakyShop _ _ 8 7 (New "connection reset")).
  - vm_compute. reflexivity.
  - repeat constructor.
Defined.

(** The store fails after both products were reserved: both are set back. *)
Lemma persistence_failure_witness :
  let run := usecase.CreateOrder Scenario.twoProducts Scenario.shopWithBrokenStore in
  let pre := [CallGetProduct 7 (Ok Scenario.P); CallGetProduct 8 (Ok Scenario.Q);
              CallUpdateStock 7 3 None; CallUpdateStock 8 7 None] in
  let post := [usecase.lineCreateFailed 1 (New "database is down");
               CallUpdateStock 7 5 None; CallUpdateStock 8 9 None] in
  value run = Err (usecase.ErrSaveOrder (New "database is down"))
  /\ (forall id stock, CallUpdateStock id stock None ∈ pre ->
       exists p res, Trace.firstRead id pre = Some p
         /\ CallUpdateStock id (clients.Stock p) res ∈ post)
  /\ (forall item, item ∈ domain.Items Scenario.twoProducts ->
       exists p res, Trace.firstRead (domain.ProductID item) pre = Some p
         /\ CallUpdateStock (domain.ProductID item) (clients.Stock p) res ∈ post)
  /\ (forall id stock e', CallUpdateStock id stock (Some e') ∈ post ->
       usecase.lineRollbackFailed true id e' ∈ post).
Proof.
  apply (persistence_failure_is_compensated (laws := forwards_laws)
           Scenario.twoProducts
           (usecase.withItems (usecase.withStatus Scenario.twoProducts domain.StatusPending)
              [inmem.item 7 2 10%float; inmem.item 8 2 1.5%float])
           Scenario.shopWithBrokenStore _ _ (New "database is down")).
  vm_compute. reflexivity.
Defined.


(** A compensating update that fails too is logged, and the caller still
    gets the error of the reservation. *)
Example failed_compensation_is_only_logged :
  let w := inmem.withUpdateFaults Scenario.shop
             [None; Some (New "connection reset"); Some (New "still down")] in
  let run := usecase.CreateOrder Scenario.twoProducts w in
  value run = Err (usecase.ErrReserveStock 8 (New "connection reset"))
  /\ events run =
       [CallGetProduct 7 (Ok Scenario.P); CallGetProduct 8 (Ok Scenario.Q);
        CallUpdateStock 7 3 None;
        CallUpdateStock 8 7 (Some (New "connection reset"));
        usecase.lineDecreaseFailed 8 (New "connection reset");
        CallUpdateStock 7 5 (Some (New "still down"));
        usecase.lineRollbackFailed false 7 (New "still down")].
Proof. vm_compute. done. Qed.

(** The same request when [range] visits the map the other way round: the
    update that fails is then the one of product 7. *)
Example reservation_in_the_other_order :
  let run := usecase.CreateOrder (mapOrder := inmem.backwards)
               Scenario.twoProducts Scenario.flakyShop in
  value run = Err (usecase.ErrReserveStock 7 (New "connection reset"))
  /\ events run =
       [CallGetProduct 7 (Ok Scenario.P); CallGetProduct 8 (Ok Scenario.Q);
        CallUpdateStock 8 7 None;
        CallUpdateStock 7 3 (Some (New "connection reset"));
        usecase.lineDecreaseFailed 7 (New "connection reset");
        CallUpdateStock 8 9 None].
Proof. vm_compute. done. Qed.

(** Order 1 is completed: cancelling it fails after the order is loaded. *)
Lemma completed_order_witness :
  let run := usecase.UpdateOrderStatus 1 domain.StatusCancelled
               (Scenario.shopWithOrder domain.StatusCompleted) in
  value run = Err usecase.ErrCancelCompleted
  /\ Request.InvalidTransitionError usecase.ErrCancelCompleted
  /\ events run
     = [CallRepoGetOrderByID 1 (Ok (Scenario.storedOrder domain.StatusCompleted))]
  /\ final run = Scenario.shopWithOrder domain.StatusCompleted.
Proof.
  apply (completed_order_cannot_be_cancelled 1
           (Scenario.storedOrder domain.StatusCompleted)
           (Scenario.shopWithOrder domain.StatusCompleted)).
  - lia.
  - reflexivity.
  - reflexivity.
Defined.

(** Order 1 is cancelled: cancelling it again writes the status again. *)
Lemma recancelling_witness :
  let w := Scenario.shopWithOrder domain.StatusCancelled in
  let run := usecase.UpdateOrderStatus 1 domain.StatusCancelled w in
  let answer := domain.UpdateOrderStatus 1 domain.StatusCancelled w in
  value run = answer.1
  /\ final run = answer.2
  /\ Forall (fun ev => Trace.isInventoryCall ev = false) (events run)
  /\ (forall updated, value run = Ok updated ->
        domain.Status updated = domain.StatusCancelled).
Proof.
  apply (recancelling_touches_no_stock 1 (Scenario.storedOrder domain.StatusCancelled)
           (Scenario.shopWithOrder domain.StatusCancelled)).
  - lia.
  - reflexivity.
  - reflexivity.
  - intros updated w2. apply inmem_store_writes_status.
Defined.

(** Order 1 is pending: cancelling it returns its two items. *)
Lemma cancellation_witness :
  let run := usecase.UpdateOrderStatus 1 domain.StatusCancelled
               (Scenario.shopWithOrder domain.StatusPending) in
  (exists blocks answer tail,
      Forall2 (Trace.restocked 1)
        (domain.Items (Scenario.storedOrder domain.StatusPending)) blocks
      /\ events run =
           CallRepoGetOrderByID 1 (Ok (Scenario.storedOrder domain.StatusPending))
           :: concat blocks
           ++ CallRepoUpdateOrderStatus 1 domain.StatusCancelled answer :: tail
      /\ Forall (fun ev => Trace.isLog ev = true) tail
      /\ value run = answer)
  /\ (forall updated, value run = Ok updated ->
        domain.Status updated = domain.StatusCancelled).
Proof.
  apply (cancellation_returns_every_item 1 (Scenario.storedOrder domain.StatusPending)
           (Scenario.shopWithOrder domain.StatusPending)
           (Scenario.shopWithOrder domain.StatusPending)).
  - lia.
  - reflexivity.
  - discriminate.
  - discriminate.
  - intros updated w2 w3. apply inmem_store_writes_status.
Defined.

(** Cancelling the pending order of the scenario: 2 units go back to
    product 7 and 1 unit to product 8. *)
Example cancellation_restocks :
  let run := usecase.UpdateOrderStatus 1 domain.StatusCancelled
               (Scenario.shopWithOrder domain.StatusPending) in
  (clients.Stock <$> inmem.products (final run) !! 7) = Some 7
  /\ (clients.Stock <$> inmem.products (final run) !! 8) = Some 10
  /\ (domain.Status <$> inmem.orders (final run) !! 1) = Some domain.StatusCancelled.
Proof. vm_compute. done. Qed.

(** Order 1 is pending: completing it is let through. *)
Lemma transition_guard_witness :
  let w := Scenario.shopWithOrder domain.StatusPending in
  let run := usecase.UpdateOrderStatus 1 domain.StatusCompleted w in
  ((domain.StatusPending, domain.StatusCompleted) ∈ Request.acceptedTransitions ->
     exists answer,
       CallRepoUpdateOrderStatus 1 domain.StatusCompleted answer ∈ events run
       /\ value run = answer)
  /\ ((domain.StatusPending, domain.StatusCompleted) ∉ Request.acceptedTransitions ->
       (exists e, value run = Err e /\ Request.InvalidTransitionError e)
       /\ events run
          = [CallRepoGetOrderByID 1 (Ok (Scenario.storedOrder domain.StatusPending))]
       /\ final run = w).
Proof.
  apply (transition_guard 1 (Scenario.storedOrder domain.StatusPending)
           domain.StatusCompleted (Scenario.shopWithOrder domain.StatusPending)
           (Scenario.shopWithOrder domain.StatusPending)).
  - lia.
  - reflexivity.
  - reflexivity.
  - reflexivity.
  - discriminate.
Defined.

(** C4, counterexample: an order whose status is [completed] is set back
    to [pending]; the guard lets the change through, the store writes it
    and the call returns the order as [pending]. *)
Lemma completed_order_goes_back_to_pending :
  let w := Scenario.shopWithOrder domain.StatusCompleted in
  let run := usecase.UpdateOrderStatus 1 domain.StatusPending w in
  (domain.Status <$> inmem.orders w !! 1) = Some domain.StatusCompleted
  /\ value run = Ok (Scenario.storedOrder domain.StatusPending)
  /\ (domain.Status <$> inmem.orders (final run) !! 1) = Some domain.StatusPending.
Proof. vm_compute. done. Qed.

(** C5, counterexample: the status of the order is [completed], which is
    not [cancelled]; cancelling it reads no product and updates no stock:
    the only call is the one that loads the order, whose two items stay
    where they are. *)
Lemma cancelling_completed_order_returns_nothing :
  let w := Scenario.shopWithOrder domain.StatusCompleted in
  let run := usecase.UpdateOrderStatus 1 domain.StatusCancelled w in
  domain.Status (Scenario.storedOrder domain.StatusCompleted) <> domain.StatusCancelled
  /\ length (domain.Items (Scenario.storedOrder domain.StatusCompleted)) = 2%nat
  /\ events run
     = [CallRepoGetOrderByID 1 (Ok (Scenario.storedOrder domain.StatusCompleted))]
  /\ value run = Err usecase.ErrCancelCompleted
  /\ final run = w.
Proof. vm_compute. done. Qed.

(** C7, counterexample: a gRPC request with limit 150.  The handler calls
    the use case with 150, and the repository runs the query with
    [LIMIT 10], not [LIMIT 100]. *)
Lemma limit_above_100_becomes_10 :
  let req := {| grpc.reqUserId := 1; grpc.reqLimit := 150; grpc.reqOffset := 0 |} in
  events (grpc.ListOrders req Scenario.shop) = [CallRepoListOrders 1 150 0 (Ok [])]
  /\ events (repository.ListOrdersByUserID 1 150 0 Scenario.shop)
     = [SqlQuery repository.ordersQuery [SqlInt 1; SqlInt 10; SqlInt 0]].
Proof. vm_compute. done. Qed.

(** The same limit through the HTTP handler reaches the repository as
    100. *)
Example http_limit_above_100_becomes_100 :
  let c := {| delivery.XUserID := "1"; delivery.limit := Some "150"%string;
              delivery.offset := None |} in
  events (delivery.ListOrders c Scenario.shop) = [CallRepoListOrders 1 100 0 (Ok [])]
  /\ events (repository.ListOrdersByUserID 1 100 0 Scenario.shop)
     = [SqlQuery repository.ordersQuery [SqlInt 1; SqlInt 100; SqlInt 0]].
Proof. vm_compute. done. Qed.

Example Atoi_examples :
  strconv.Atoi "150" = Some 150 /\ strconv.Atoi "-3" = Some (-3)
  /\ strconv.Atoi "+7" = Some 7 /\ strconv.Atoi "abc" = None
  /\ strconv.Atoi "1_0" = None /\ strconv.Atoi "-" = None
  /\ strconv.Atoi EmptyString = None
  /\ strconv.Atoi "9223372036854775808" = None.
Proof. vm_compute. done. Qed.

End ConcreteRuns.

(** * More of the order service

    The rest of the use case, the gRPC handler and the HTTP handler, the
    gRPC client of the inventory and the transactions of the repository. *)

(** The element is none of those of a list given in full. *)
Ltac none_of Hin :=
  repeat (apply elem_of_cons in Hin as [[=]|Hin]);
  by apply elem_of_nil in Hin.

(** ** The outcomes of [CreateOrder] *)
Section UpdatesFacts.

Lemma updatesOf_app (productID : Z) (l1 l2 : list Event) :
  Updates.updatesOf productID (l1 ++ l2)
  = Updates.updatesOf productID l1 ++ Updates.updatesOf productID l2.
Proof.
  induction l1 as [|ev l1 IH]; [done|].
  destruct ev; simpl; try done. case_decide; simpl; by rewrite IH.
Qed.

Lemma updatesOf_reads (productID : Z) (l : list Event) :
  Forall (fun ev => Trace.isGetProduct ev = true) l -> Updates.updatesOf productID l = [].
Proof.
  induction 1 as [|ev l Hev _ IH]; [done|]. destruct ev; simpl in *; done.
Qed.

(** The reservation pass over entries with distinct keys updates a product
    once if it has an entry, and not at all otherwise. *)
Lemma updatesOf_reservations (productID : Z)
    (entries : list (Z * usecase.productCheckInfo)) :
  NoDup entries.*1 ->
  Updates.updatesOf productID (map Trace.reservation entries)
  = match list_find (fun entry => entry.1 = productID) entries with
    | Some (_, entry) =>
        [(GoInt.sub (clients.Stock (usecase.Product entry.2)) (usecase.OrderQuantity entry.2),
          None)]
    | None => []
    end.
Proof.
  induction entries as [|[id ci] rest IH]; [done|].
  rewrite fmap_cons, NoDup_cons. intros [Hnotin Hnodup]. simpl.
  case_decide as Hid; simpl in Hid.
  - subst id. rewrite IH by done.
    destruct (list_find _ rest) as [[i [id' ci']]|] eqn:Hfind; [|done].
    apply list_find_Some in Hfind as (Hi & Heq & _). simpl in Heq. subst id'.
    exfalso. apply Hnotin. apply list_elem_of_fmap. exists (productID, ci').
    split; [done|]. by eapply list_elem_of_lookup_2.
  - rewrite IH by done. by destruct (list_find _ rest) as [[? ?]|].
Qed.

End UpdatesFacts.

Section SagaOutcomes.

Context {W : Type}.
Context `{inventoryClient : clients.InventoryClient W}.
Context `{orderRepo : domain.OrderRepository W}.
Context `{mapOrder : MapOrder}.

(** How the check loop fails: on a read that fails, or on a read whose
    stock is below the quantity asked so far; that read is the last event. *)
Lemma checkItems_fails_on_last_read (items : list domain.OrderItem) :
  forall info (w : W) e,
    value (usecase.checkItems items info w) = Err e ->
    let evs := events (usecase.checkItems items info w) in
    (exists productID err,
        e = usecase.ErrInventoryCheck productID err
        /\ last evs = Some (CallGetProduct productID (Err err)))
    \/ (exists productID requested p,
          e = usecase.ErrInsufficientStock productID requested (clients.Stock p)
          /\ clients.Stock p < requested
          /\ last evs = Some (CallGetProduct productID (Ok p))).
Proof.
  induction items as [|item rest IH]; intros info w e; [discriminate|].
  rewrite checkItems_cons.
  destruct (clients.GetProduct _ w) as [[p|err] w'].
  - destruct (Z.ltb_spec (clients.Stock p) (usecase.currentRequested item info)).
    + intros [= <-]. right. by eexists _, _, p.
    + cbn zeta. cbn [value events].
      destruct (value (usecase.checkItems rest _ w')) as [|e'] eqn:Hrest; [discriminate|].
      intros [= <-].
      assert (Hne : events (usecase.checkItems rest (usecase.recordItem item p info) w') <> []).
      { destruct rest; [discriminate|]. rewrite checkItems_cons.
        destruct (clients.GetProduct _ w') as [[p'|err'] w'']; [|done].
        by destruct (clients.Stock p' <? _). }
      destruct (IH _ _ _ Hrest) as [(productID & err & -> & Hlast)
                                   |(productID & requested & p' & -> & Hlt & Hlast)].
      * left. exists productID, err. split; [done|].
        destruct (events (usecase.checkItems rest _ w')); [done|by rewrite last_cons, Hlast].
      * right. exists productID, requested, p'. repeat split; [done|].
        destruct (events (usecase.checkItems rest _ w')); [done|by rewrite last_cons, Hlast].
  - intros [= <-]. left. by exists (domain.ProductID item), err.
Qed.

(** When the check passes, [productsInfo] holds for every product the
    quantity the items ask of it. *)
Lemma checkItems_tracks (todo : list domain.OrderItem) :
  forall (done : list domain.OrderItem) (info : gmap Z usecase.productCheckInfo) (w : W)
         checked,
    Forall (fun item => 0 < domain.Quantity item) (done ++ todo) ->
    (forall item, item ∈ todo ->
       Request.aggregate (domain.ProductID item) (done ++ todo) <= GoInt.max_int) ->
    Request.tracks info done ->
    value (usecase.checkItems todo info w) = Ok checked ->
    Request.tracks checked.2 (done ++ todo).
Proof.
  induction todo as [|x rest IH]; intros done info w checked Hpos Hfit Hinfo.
  - simpl. intros [= <-]. by rewrite app_nil_r.
  - rewrite checkItems_cons.
    destruct (clients.GetProduct _ w) as [[p|err] w']; [|discriminate].
    pose proof (aggregate_step_fits _ _ _ Hpos (Hfit x ltac:(by left))) as Hint.
    destruct (clients.Stock p <? _); [discriminate|].
    cbn zeta. cbn [value events].
    destruct (value (usecase.checkItems rest _ w')) as [checked'|] eqn:Hrest;
      [|discriminate].
    intros [= <-]. simpl.
    replace (done ++ x :: rest) with ((done ++ [x]) ++ rest) by by rewrite <- app_assoc.
    eapply IH; [| |by apply recordItem_tracks|exact Hrest].
    + by rewrite <- app_assoc.
    + intros item Hin. rewrite <- app_assoc. apply Hfit. by right.
Qed.

(** A product enters [productsInfo] with a stock that covers at least the
    item it is read for, so with a positive stock. *)
Lemma checkItems_positive_stock (items : list domain.OrderItem) :
  forall info (w : W) checked,
    Forall (fun item => 0 < domain.Quantity item) items ->
    (forall productID ci, info !! productID = Some ci ->
       0 < clients.Stock (usecase.Product ci)) ->
    value (usecase.checkItems items info w) = Ok checked ->
    forall productID ci, checked.2 !! productID = Some ci ->
      0 < clients.Stock (usecase.Product ci).
Proof.
  induction items as [|item rest IH]; intros info w checked Hpos Hinfo.
  - simpl. by intros [= <-].
  - rewrite checkItems_cons. apply Forall_cons in Hpos as [Hq Hpos].
    destruct (clients.GetProduct _ w) as [[p|err] w']; [|discriminate].
    destruct (Z.ltb_spec (clients.Stock p) (usecase.currentRequested item info));
      [discriminate|].
    cbn zeta. cbn [value events].
    destruct (value (usecase.checkItems rest _ w')) as [checked'|] eqn:Hrest;
      [|discriminate].
    intros [= <-]. simpl. eapply IH; [done| |exact Hrest].
    intros productID ci.
    destruct (decide (productID = domain.ProductID item)) as [->|Hne].
    + rewrite recordItem_same. intros [= <-].
      unfold usecase.currentRequested in *.
      destruct (info !! domain.ProductID item) as [existing|] eqn:Hex; simpl; [eauto|lia].
    + rewrite recordItem_other by done. apply Hinfo.
Qed.

Lemma rangeMap_NoDup `{laws : !MapOrderLaws} {A} (m : gmap Z A) : NoDup (rangeMap m).*1.
Proof. rewrite rangeMap_perm. apply NoDup_fst_map_to_list. Qed.

Lemma rangeMap_find `{laws : !MapOrderLaws} {A} (m : gmap Z A) (k : Z) :
  snd <$> list_find (fun entry => entry.1 = k) (rangeMap m)
  = (fun a => (k, a)) <$> m !! k.
Proof.
  destruct (list_find _ (rangeMap m)) as [[i [k' a]]|] eqn:Hfind; simpl.
  - apply list_find_Some in Hfind as (Hi & Heq & _). simpl in Heq. subst k'.
    apply list_elem_of_lookup_2, rangeMap_lookup in Hi. by rewrite Hi.
  - destruct (m !! k) as [a|] eqn:Hk; [|done]. exfalso.
    apply rangeMap_lookup in Hk. eapply list_find_None in Hfind.
    rewrite Forall_forall in Hfind. by apply (Hfind (k, a)).
Qed.

(** X1: every error [CreateOrder] returns is one of five kinds, each tied
    to the call that caused it: an error of the validation block, with no
    call made; "inventory check failed", wrapping the error of the product
    read that ends the run; "insufficient stock", carrying the stock of the
    product read that ends the run; "failed to reserve stock", wrapping the
    error of a stock update of the run; "failed to save order", wrapping the
    error of the store.  In the first three cases the run made no call but
    product reads. *)
Theorem CreateOrder_errors `{laws : !MapOrderLaws} (order : domain.Order) (w : W)
    (e : error) :
  let run := usecase.CreateOrder order w in
  value run = Err e ->
  (Request.ValidationError e /\ events run = [])
  \/ (exists productID err,
        e = usecase.ErrInventoryCheck productID err
        /\ last (events run) = Some (CallGetProduct productID (Err err))
        /\ Forall (fun ev => Trace.isGetProduct ev = true) (events run))
  \/ (exists productID requested p,
        e = usecase.ErrInsufficientStock productID requested (clients.Stock p)
        /\ clients.Stock p < requested
        /\ last (events run) = Some (CallGetProduct productID (Ok p))
        /\ Forall (fun ev => Trace.isGetProduct ev = true) (events run))
  \/ (exists productID newStock err,
        e = usecase.ErrReserveStock productID err
        /\ CallUpdateStock productID newStock (Some err) ∈ events run)
  \/ (exists persisted err,
        e = usecase.ErrSaveOrder err
        /\ CallRepoCreateOrder persisted (Err err) ∈ events run).
Proof.
  intros run. subst run. rewrite CreateOrder_phases.
  destruct (usecase.validate order) as [order1|e0] eqn:Hv.
  2: { cbn. intros [= ->]. left. split; [by eapply validate_error|done]. }
  cbn zeta.
  pose proof (checkItems_reads_only (domain.Items order1) ∅ w) as Hreads.
  destruct (value (usecase.checkItems _ _ w)) as [checked|e0] eqn:Hc.
  2: { cbn [value events]. intros [= ->]. right.
       destruct (checkItems_fails_on_last_read _ _ _ _ Hc)
         as [(productID & err & -> & Hlast)|(productID & requested & p & -> & Hlt & Hlast)].
       - left. by exists productID, err.
       - right. left. by exists productID, requested, p. }
  destruct (checked_entries _ _ _ Hc) as [Hentries _].
  destruct (reserve_runs checked.2 (rangeMap checked.2) ∅
              (final (usecase.checkItems (domain.Items order1) ∅ w)) Hentries)
    as [(succ & Hval & Hev & Hdom)
       |(done & pid & ci & rest & e0 & rb & Hsplit & Hval & Hev & _)].
  { intros ? [? Hnone]. by rewrite lookup_empty in Hnone. }
  2: { rewrite Hval. cbn [value events]. intros [= <-]. do 3 right. left.
       eexists pid, _, e0. split; [done|]. rewrite Hev.
       apply elem_of_app. right. apply elem_of_app. right. by left. }
  rewrite Hval.
  destruct (domain.CreateOrder _ _) as [[created|err'] w']; cbn [value events];
    [discriminate|].
  assert (Hkeys : forall id q, (id, q) ∈ rangeMap succ -> is_Some (checked.2 !! id)).
  { intros id q Hq. apply rangeMap_lookup in Hq.
    assert (Hs : is_Some (succ !! id)) by eauto.
    apply Hdom in Hs as [[? Hnone]|Hs]; [by rewrite lookup_empty in Hnone|].
    apply list_elem_of_fmap in Hs as ([id' ci'] & -> & Hs). eauto. }
  destruct (rollback_runs true checked.2 (rangeMap succ) w' Hkeys) as (-> & _).
  intros [= <-]. do 4 right. eexists _, err'. split; [done|].
  apply elem_of_app. right. apply elem_of_app. right. by left.
Qed.

(** X2: when an order is created, the run updated the stock of every
    product of the order exactly once, to the stock first read for that
    product minus the quantity the order asks of it over all its lines, and
    that update succeeded; it updated no other product, no update failed
    and nothing was logged at error level.  The sums are taken to fit in
    Go's [int], as are the stocks the inventory returns. *)
Theorem created_order_reserves_each_product_once `{laws : !MapOrderLaws}
    (order created : domain.Order) (w : W) :
  let run := usecase.CreateOrder order w in
  value run = Ok created ->
  (forall item, item ∈ domain.Items order ->
     Request.aggregate (domain.ProductID item) (domain.Items order) <= GoInt.max_int) ->
  (forall productID p, CallGetProduct productID (Ok p) ∈ events run ->
     clients.Stock p <= GoInt.max_int) ->
  (forall item, item ∈ domain.Items order ->
     exists p,
       Trace.firstRead (domain.ProductID item) (events run) = Some p
       /\ Updates.updatesOf (domain.ProductID item) (events run)
          = [(clients.Stock p
              - Request.aggregate (domain.ProductID item) (domain.Items order), None)])
  /\ (forall productID,
        ~ Exists (fun item => domain.ProductID item = productID) (domain.Items order) ->
        Updates.updatesOf productID (events run) = [])
  /\ Forall (fun ev => Updates.clean ev = true) (events run).
Proof.
  intros run. subst run. rewrite CreateOrder_phases.
  destruct (usecase.validate order) as [order1|e] eqn:Hv; [|discriminate].
  destruct (validate_keeps _ _ Hv) as (Hitems & _ & _).
  pose proof (validate_items_positive _ _ Hv) as Hpos.
  cbn zeta. rewrite Hitems.
  pose proof (checkItems_reads_only (domain.Items order) ∅ w) as Hreads.
  destruct (value (usecase.checkItems _ _ w)) as [checked|e] eqn:Hc; [|discriminate].
  destruct (checked_entries _ _ _ Hc) as [Hentries Hfirst].
  destruct (checkItems_covers _ _ _ _ Hc) as [_ Hcovers].
  destruct (reserve_runs checked.2 (rangeMap checked.2) ∅
              (final (usecase.checkItems (domain.Items order) ∅ w)) Hentries)
    as [(succ & Hval & Hev & Hdom)
       |(done & pid & ci & rest & e0 & rb & Hsplit & Hval & _)].
  { intros ? [? Hnone]. by rewrite lookup_empty in Hnone. }
  2: { by rewrite Hval. }
  rewrite Hval, Hev.
  destruct (domain.CreateOrder _ _) as [[created'|err'] w']; cbn [value events].
  2: { by destruct (value (usecase.rollback _ _ _ _)). }
  intros _ Hfit Hstock.
  assert (Htracks : Request.tracks checked.2 (domain.Items order)).
  { apply (checkItems_tracks (domain.Items order) [] ∅ w checked); done. }
  assert (Hupd : forall productID,
            Updates.updatesOf productID
              (events (usecase.checkItems (domain.Items order) ∅ w)
               ++ map Trace.reservation (rangeMap checked.2)
               ++ [CallRepoCreateOrder (usecase.withItems order1 checked.1) (Ok created')])
            = match checked.2 !! productID with
              | Some ci =>
                  [(GoInt.sub (clients.Stock (usecase.Product ci)) (usecase.OrderQuantity ci),
                    None)]
              | None => []
              end).
  { intros productID. rewrite !updatesOf_app, (updatesOf_reads _ _ Hreads).
    rewrite updatesOf_reservations by apply rangeMap_NoDup. simpl.
    rewrite app_nil_r.
    pose proof (rangeMap_find checked.2 productID) as Hfind.
    destruct (list_find _ (rangeMap checked.2)) as [[i entry]|];
      destruct (checked.2 !! productID) as [ci|]; simpl in Hfind; try done.
    by injection Hfind as ->. }
  split; [|split].
  - intros item Hin. destruct (Hcovers _ Hin) as [ci Hci].
    exists (usecase.Product ci). split.
    + apply firstRead_app_l. by apply Hfirst.
    + rewrite Hupd, Hci. f_equal. f_equal.
      pose proof (Htracks (domain.ProductID item)) as Hq. rewrite Hci in Hq. rewrite Hq.
      apply sub_exact.
      assert (0 < clients.Stock (usecase.Product ci)).
      { eapply (checkItems_positive_stock _ _ _ _ Hpos); [|exact Hc|exact Hci].
        intros ? ?. by rewrite lookup_empty. }
      assert (clients.Stock (usecase.Product ci) <= GoInt.max_int).
      { apply (Hstock (domain.ProductID item)). apply elem_of_app. left.
        specialize (Hfirst _ _ Hci). clear -Hfirst.
        induction (events _) as [|ev evs IH]; [done|].
        destruct ev as [productID' [p'|err]| | | | | | |]; simpl in Hfirst;
          try (right; by apply IH).
        case_decide; [|right; by apply IH]. injection Hfirst as <-. subst. by left. }
      pose proof (aggregate_nonneg (domain.ProductID item) _ Hpos).
      specialize (Hfit _ Hin).
      unfold GoInt.in_int, GoInt.min_int, GoInt.max_int in *. lia.
  - intros productID Hnex. rewrite Hupd.
    destruct (checked.2 !! productID) as [ci|] eqn:Hci; [|done]. exfalso.
    pose proof (Htracks productID) as Hq. rewrite Hci in Hq.
    rewrite (aggregate_absent _ _ Hnex) in Hq.
    (* a product with an entry was asked for at least once *)
    destruct (checkItems_first_reads _ _ _ _ Hc _ _ Hci) as [(ci0 & Hci0 & _)|[_ Hread]].
    { by rewrite lookup_empty in Hci0. }
    apply Hnex. destruct (checkItems_stamps _ _ _ _ Hc) as [Hpids _]. cbn zeta in Hpids.
    assert (Hin : productID ∈ map fst (Trace.reads
                    (events (usecase.checkItems (domain.Items order) ∅ w)))).
    { clear -Hread. induction (events _) as [|ev evs IH]; [done|].
      destruct ev as [productID' [p'|err]| | | | | | |]; simpl in *; try by apply IH.
      case_decide; [subst; by left|right; by apply IH]. }
    rewrite Hpids in Hin. apply list_elem_of_fmap in Hin as (item & -> & Hin).
    apply Exists_exists. eauto.
  - apply Forall_app. split; [|apply Forall_app; split].
    + eapply Forall_impl; [exact Hreads|]. by intros [].
    + apply Forall_fmap, Forall_true. done.
    + by repeat constructor.
Qed.

End SagaOutcomes.

(** ** The outcomes of [UpdateOrderStatus] *)
Section StatusOutcomes.

Context {W : Type}.
Context `{inventoryClient : clients.InventoryClient W}.
Context `{orderRepo : domain.OrderRepository W}.

(** X3: [UpdateOrderStatus] calls the inventory only to cancel: a run
    that reads a product or updates a stock has [cancelled] as its target,
    and began by loading an order that has items and whose status was
    neither [cancelled] nor [completed]. *)
Theorem inventory_is_called_only_to_cancel
    (id : Z) (status : domain.OrderStatus) (w : W) :
  let run := usecase.UpdateOrderStatus id status w in
  Exists (fun ev => Trace.isInventoryCall ev = true) (events run) ->
  status = domain.StatusCancelled
  /\ exists currentOrder tail,
       events run = CallRepoGetOrderByID id (Ok currentOrder) :: tail
       /\ domain.Status currentOrder <> domain.StatusCancelled
       /\ domain.Status currentOrder <> domain.StatusCompleted
       /\ domain.Items currentOrder <> [].
Proof.
  intros run. subst run. rewrite UpdateOrderStatus_run.
  assert (Hquiet : forall evs,
            Forall (fun ev => Trace.isInventoryCall ev = false) evs ->
            Exists (fun ev => Trace.isInventoryCall ev = true) evs -> False).
  { intros evs Hall Hex. apply Exists_exists in Hex as (ev & Hin & Hev).
    rewrite Forall_forall in Hall. specialize (Hall _ Hin). congruence. }
  destruct (id <=? 0); [by intros ?%Exists_nil|].
  destruct (negb (domain.IsValidStatus status)); [by intros ?%Exists_nil|].
  destruct (domain.GetOrderByID id w) as [[currentOrder|err] w1].
  2: { intros Hex. exfalso. revert Hex. apply Hquiet. by repeat constructor. }
  cbn zeta.
  destruct (String.eqb_spec (domain.Status currentOrder) domain.StatusCompleted)
    as [Hcomp|Hcomp];
    destruct (String.eqb_spec status domain.StatusCancelled) as [->|Hst];
    destruct (String.eqb_spec (domain.Status currentOrder) domain.StatusCancelled)
      as [Hcan|Hcan]; cbn [andb negb].
  6: { intros Hex. split; [done|].
       assert (Hitems : domain.Items currentOrder <> []).
       { intros Hnone. rewrite Hnone in Hex. revert Hex. apply Hquiet.
         destruct (domain.UpdateOrderStatus id _ _) as [[updated|err] w2];
           by repeat constructor. }
       destruct (domain.UpdateOrderStatus id _ _) as [[updated|err] w2];
         by eexists _, _. }
  all: intros Hex; exfalso; revert Hex; apply Hquiet;
    try destruct (domain.UpdateOrderStatus id _ _) as [[updated|err] w2];
    by repeat constructor.
Qed.

(** X4: every error [UpdateOrderStatus] returns is one of five kinds,
    each tied to what the run did: the order id is not positive, or the
    target is not a valid status, and no call was made; the store failed to
    load the order, and its error is returned as it is after that one call;
    the transition guard rejected the change after the order was loaded,
    with no other call; or the store failed to write the status, and its
    error is returned as it is and logged, with the warning of a possible
    inconsistency when the items had been returned to the inventory. *)
Theorem UpdateOrderStatus_errors (id : Z) (status : domain.OrderStatus) (w : W)
    (e : error) :
  let run := usecase.UpdateOrderStatus id status w in
  value run = Err e ->
  (e = usecase.ErrInvalidOrderIDForUpdate /\ id <= 0 /\ events run = [])
  \/ (e = usecase.ErrInvalidTargetStatus status
      /\ domain.IsValidStatus status = false /\ events run = [])
  \/ events run = [CallRepoGetOrderByID id (Err e)]
  \/ (Request.InvalidTransitionError e
      /\ exists currentOrder, events run = [CallRepoGetOrderByID id (Ok currentOrder)])
  \/ (exists currentOrder restocking,
        events run =
          CallRepoGetOrderByID id (Ok currentOrder) :: restocking
          ++ CallRepoUpdateOrderStatus id status (Err e)
             :: usecase.lineStatusUpdateFailed id e
             :: (if String.eqb status domain.StatusCancelled
                    && negb (String.eqb (domain.Status currentOrder) domain.StatusCancelled)
                 then [usecase.lineCancelInconsistent id] else [])).
Proof.
  intros run. subst run. rewrite UpdateOrderStatus_run.
  destruct (Z.leb_spec id 0); [intros [= <-]; by left|].
  destruct (domain.IsValidStatus status) eqn:Hvalid; cbn [negb];
    [|intros [= <-]; right; by left].
  destruct (domain.GetOrderByID id w) as [[currentOrder|err] w1].
  2: { cbn. intros [= ->]. do 2 right. by left. }
  cbn zeta.
  destruct (_ && _).
  { cbn. intros [= <-]. do 3 right. left. split; [constructor|eauto]. }
  destruct (_ && _) eqn:Hguard.
  { cbn. intros [= <-]. do 3 right. left. split; [constructor|eauto]. }
  destruct (domain.UpdateOrderStatus id status _) as [[updated|err] w2]; cbn [value events];
    [discriminate|].
  intros [= ->]. do 4 right. eauto.
Qed.

End StatusOutcomes.

(** ** The listing query *)
Section Listing.

Context {W : Type}.
Context `{db : repository.DB W}.

Lemma groupItems_acc (rows : list (Z * domain.OrderItem)) :
  forall (acc : gmap Z (list domain.OrderItem)) (k : Z),
    default []
      (fold_left
         (fun itemsMap row =>
            <[row.1 := default [] (itemsMap !! row.1) ++ [row.2]]> itemsMap)
         rows acc !! k)
    = default [] (acc !! k) ++ map snd (filter (fun row => row.1 = k) rows).
Proof.
  induction rows as [|[orderID item] rest IH]; intros acc k; simpl.
  - by rewrite app_nil_r.
  - rewrite IH. rewrite filter_cons. simpl.
    destruct (decide (orderID = k)) as [->|Hne].
    + rewrite lookup_insert_eq. simpl. by rewrite <- app_assoc.
    + by rewrite lookup_insert_ne.
Qed.

Lemma groupItems_lookup (rows : list (Z * domain.OrderItem)) (k : Z) :
  default [] (repository.groupItems rows !! k)
  = map snd (filter (fun row => row.1 = k) rows).
Proof. unfold repository.groupItems. by rewrite groupItems_acc, lookup_empty. Qed.

(** X5: when both queries succeed, [ListOrdersByUserID] returns one order
    per row of [orders], in the order of the rows and with the columns of
    the row, and each order carries the item rows whose [order_id] is its
    id, in the order those rows came; an order without item rows has an
    empty item list. *)
Theorem listed_orders_carry_their_own_items
    (userID limit offset : Z) (w w1 : W)
    (rows : list repository.OrderRow) (itemRows : list (Z * domain.OrderItem)) :
  let limit' := if (limit <=? 0) || (100 <? limit) then 10 else limit in
  let offset' := if offset <? 0 then 0 else offset in
  repository.QueryOrders userID limit' offset' w = (repository.Scanned rows, w1) ->
  (repository.QueryItems (map repository.id rows) w1).1 = repository.Scanned itemRows ->
  value (repository.ListOrdersByUserID userID limit offset w)
  = Ok (map (fun row =>
               {| domain.ID := repository.id row;
                  domain.UserID := repository.user_id row;
                  domain.Items :=
                    map snd (filter (fun itemRow => itemRow.1 = repository.id row) itemRows);
                  domain.Status := repository.status row;
                  domain.CreatedAt := repository.created_at row;
                  domain.UpdatedAt := repository.updated_at row |})
            rows).
Proof.
  intros limit' offset' Horders Hitems. unfold repository.ListOrdersByUserID.
  cbn zeta. fold limit' offset'. unfold bind at 1. rewrite call_run, Horders.
  cbn [value events final fst snd].
  destruct rows as [|row rows']; [done|].
  set (rows := row :: rows') in *.
  assert (Hlen : (length (map repository.scanOrder rows) =? 0)%nat = false) by done.
  rewrite Hlen. unfold bind, call.
  destruct (repository.QueryItems _ w1) as [answer w2]. simpl in Hitems. subst answer.
  unfold ret. cbn [value]. f_equal. rewrite map_map. apply map_ext. intros r.
  unfold repository.attachItems, repository.scanOrder. simpl.
  by rewrite groupItems_lookup.
Qed.

End Listing.

(** ** The mappings of the gRPC handler *)
Section Mapping.

Import grpcOrderHandler.

(** X6: the two status mappings of the gRPC handler are inverse of each
    other on the three statuses, and on them only: a domain status comes
    back from the wire as it was sent when it is valid, and as the empty
    string otherwise; a wire status comes back as it was when it names a
    status, and as [ORDER_STATUS_UNSPECIFIED] otherwise; and the domain
    status of a wire status is valid exactly when the wire status is one of
    [PENDING], [COMPLETED], [CANCELLED]. *)
Theorem status_mappings_are_inverse :
  (forall s : domain.OrderStatus,
     mapProtoStatusToDomain (Named (grpc.mapDomainStatusToProto s))
     = if domain.IsValidStatus s then s else EmptyString)
  /\ (forall p : WireStatus,
        grpc.mapDomainStatusToProto (mapProtoStatusToDomain p)
        = match p with Named status => status | Unnamed _ => grpc.ORDER_STATUS_UNSPECIFIED end)
  /\ (forall p : WireStatus,
        domain.IsValidStatus (mapProtoStatusToDomain p)
        = match p with
          | Named grpc.PENDING | Named grpc.COMPLETED | Named grpc.CANCELLED => true
          | _ => false
          end).
Proof.
  split; [|split].
  - intros s. unfold grpc.mapDomainStatusToProto, domain.IsValidStatus.
    destruct (String.eqb_spec s domain.StatusPending) as [->|_]; [done|].
    destruct (String.eqb_spec s domain.StatusCompleted) as [->|_]; [done|].
    by destruct (String.eqb_spec s domain.StatusCancelled) as [->|_].
  - by intros [[]|].
  - by intros [[]|].
Qed.

Lemma int32_exact (z : Z) : Wire.in_int32 z -> GoInt.int32 z = z.
Proof. unfold Wire.in_int32, GoInt.int32. intros Hz. rewrite Z.mod_small; lia. Qed.

Lemma int32_range (z : Z) : Wire.in_int32 (GoInt.int32 z).
Proof.
  unfold Wire.in_int32, GoInt.int32.
  pose proof (Z.mod_pos_bound (z + 2 ^ 31) (2 ^ 32)). lia.
Qed.

(** X7: items sent to the wire and read back keep their order, their
    products and their prices, and each quantity comes back as its 32-bit
    truncation: unchanged when it fits [int32], and another number
    otherwise.  A nil element of a request is skipped. *)
Theorem items_survive_the_wire_up_to_int32 (items : list domain.OrderItem) :
  mapProtoItemsToDomain (map Some (grpc.mapDomainItemsToProto items))
  = map Wire.truncated items
  /\ (Forall (fun item => Wire.in_int32 (domain.Quantity item)) items ->
      mapProtoItemsToDomain (map Some (grpc.mapDomainItemsToProto items)) = items)
  /\ (forall item, item ∈ items -> ~ Wire.in_int32 (domain.Quantity item) ->
      mapProtoItemsToDomain (map Some (grpc.mapDomainItemsToProto items)) <> items)
  /\ (forall protoItems : WireItems,
        mapProtoItemsToDomain protoItems
        = mapProtoItemsToDomain (map Some (omap id protoItems))).
Proof.
  assert (Hmap : mapProtoItemsToDomain (map Some (grpc.mapDomainItemsToProto items))
                 = map Wire.truncated items).
  { induction items as [|item rest IH]; [done|]. simpl. by rewrite IH. }
  split; [done|]. split; [|split].
  - intros Hfit. rewrite Hmap. clear Hmap.
    induction Hfit as [|item rest Hq _ IH]; [done|].
    simpl. rewrite IH. f_equal. destruct item as [pid q price]. unfold Wire.truncated.
    simpl in *. by rewrite int32_exact.
  - intros item Hin Hq. rewrite Hmap. intros Heq. apply Hq.
    assert (Hsame : Wire.truncated item = item).
    { clear Hmap Hq. induction items as [|x rest IH]; [by apply elem_of_nil in Hin|].
      injection Heq as Hx Hrest.
      apply elem_of_cons in Hin as [->|Hin]; [done|by apply IH]. }
    rewrite <- Hsame. apply int32_range.
  - intros protoItems. induction protoItems as [|[item|] rest IH]; simpl; [done| |done].
    by rewrite IH.
Qed.

End Mapping.

(** ** Texts *)
Section TextFacts.

Local Open Scope string_scope.

Lemma append_cons (c : Ascii.ascii) (a b : string) :
  String c a +:+ b = String c (a +:+ b).
Proof. reflexivity. Qed.

Lemma append_nil (b : string) : EmptyString +:+ b = b.
Proof. reflexivity. Qed.

Lemma append_nil_r (a : string) : a +:+ EmptyString = a.
Proof. induction a as [|c a IH]; [done|]. by rewrite append_cons, IH. Qed.

Lemma append_assoc (a b c : string) : (a +:+ b) +:+ c = a +:+ b +:+ c.
Proof. induction a as [|x a IH]; [done|]. by rewrite !append_cons, IH. Qed.

Lemma prefix_nil (s : string) : String.prefix EmptyString s = true.
Proof. by destruct s. Qed.

Lemma prefix_cons (a b : Ascii.ascii) (p s : string) :
  String.prefix (String a p) (String b s) = Ascii.eqb a b && String.prefix p s.
Proof.
  simpl. destruct (Ascii.ascii_dec a b) as [->|Hne].
  - by rewrite Ascii.eqb_refl.
  - apply Ascii.eqb_neq in Hne. by rewrite Hne.
Qed.

Lemma prefix_here (p rest : string) : String.prefix p (p +:+ rest) = true.
Proof.
  induction p as [|c p IH]; [apply prefix_nil|].
  change (String c p +:+ rest) with (String c (p +:+ rest)).
  by rewrite prefix_cons, Ascii.eqb_refl, IH.
Qed.

Lemma Contains_unfold (s p : string) :
  strings.Contains s p
  = String.prefix p s
    || match s with EmptyString => false | String _ rest => strings.Contains rest p end.
Proof. by destruct s. Qed.

Lemma Contains_nil (s : string) : strings.Contains s EmptyString = true.
Proof. rewrite Contains_unfold. by rewrite prefix_nil. Qed.

Lemma Contains_here (p rest : string) : strings.Contains (p +:+ rest) p = true.
Proof. rewrite Contains_unfold. by rewrite prefix_here. Qed.

Lemma Contains_later (a s p : string) :
  strings.Contains s p = true -> strings.Contains (a +:+ s) p = true.
Proof.
  intros Hs. induction a as [|c a IH]; [done|].
  change (String c a +:+ s) with (String c (a +:+ s)).
  rewrite Contains_unfold, IH. apply orb_true_r.
Qed.

(** A character that does not occur in the pattern stops every match that
    would run over it. *)
Lemma prefix_stopped (p : string) :
  forall (x rest : string) (f : Ascii.ascii),
    Text.occurs f p = false ->
    String.prefix p (x +:+ String f rest) = String.prefix p x.
Proof.
  induction p as [|a p IH]; intros x rest f Hf; [by rewrite !prefix_nil|].
  simpl in Hf. apply orb_false_iff in Hf as [Hfa Hf].
  destruct x as [|c x].
  - change (EmptyString +:+ String f rest) with (String f rest).
    rewrite prefix_cons. rewrite Ascii.eqb_sym, Hfa. done.
  - change (String c x +:+ String f rest) with (String c (x +:+ String f rest)).
    rewrite !prefix_cons. by rewrite IH.
Qed.

Lemma Contains_stopped (p : string) (x rest : string) (f : Ascii.ascii) :
  Text.occurs f p = false ->
  strings.Contains (x +:+ String f rest) p
  = strings.Contains x p || strings.Contains (String f rest) p.
Proof.
  intros Hf. induction x as [|c x IH].
  - change (EmptyString +:+ String f rest) with (String f rest).
    destruct p as [|a p]; [by rewrite !Contains_nil|]. done.
  - change (String c x +:+ String f rest) with (String c (x +:+ String f rest)).
    rewrite (Contains_unfold (String c _)), IH.
    change (String c (x +:+ String f rest)) with (String c x +:+ String f rest).
    rewrite (prefix_stopped _ _ _ _ Hf). rewrite (Contains_unfold (String c x)).
    by rewrite orb_assoc.
Qed.

Lemma Contains_skips (d : string) :
  forall p y : string,
    p <> EmptyString -> Text.apart d p = true ->
    strings.Contains (d +:+ y) p = strings.Contains y p.
Proof.
  induction d as [|f d IH]; intros p y Hp Hd; [done|].
  simpl in Hd. apply andb_true_iff in Hd as [Hf Hd]. apply negb_true_iff in Hf.
  change (String f d +:+ y) with (String f (d +:+ y)).
  rewrite Contains_unfold, IH by done.
  destruct p as [|a p]; [done|]. rewrite prefix_cons.
  simpl in Hf. apply orb_false_iff in Hf as [Hfa _].
  by rewrite Ascii.eqb_sym, Hfa.
Qed.

(** A match cannot run across characters that do not occur in the
    pattern: it lies before them or after them. *)
Lemma Contains_across (x d y p : string) :
  d <> EmptyString -> p <> EmptyString -> Text.apart d p = true ->
  strings.Contains (x +:+ d +:+ y) p = strings.Contains x p || strings.Contains y p.
Proof.
  intros Hd Hp Hapart. destruct d as [|f d]; [done|].
  change (String f d +:+ y) with (String f (d +:+ y)).
  rewrite Contains_stopped.
  - change (String f (d +:+ y)) with (String f d +:+ y). by rewrite Contains_skips.
  - simpl in Hapart. apply andb_true_iff in Hapart as [Hf _]. by apply negb_true_iff.
Qed.

(** The decimal numerals. *)
Lemma uint_digits (d : Decimal.uint) (p : string) :
  Text.apart "0123456789-" p = true ->
  Text.apart (DecimalString.NilEmpty.string_of_uint d) p = true.
Proof.
  intros Hp. simpl in Hp. repeat (apply andb_true_iff in Hp as [? Hp]).
  induction d; simpl; rewrite ?IHd; auto with bool.
Qed.

Lemma uint_ascii (d : Decimal.uint) :
  strings.allASCII (DecimalString.NilEmpty.string_of_uint d) = true
  /\ strings.lowerASCII (DecimalString.NilEmpty.string_of_uint d)
     = DecimalString.NilEmpty.string_of_uint d.
Proof. induction d as [|d [? ?]|d [? ?]|d [? ?]|d [? ?]|d [? ?]|d [? ?]|d [? ?]|d [? ?]|d [? ?]|d [? ?]]; split; simpl; by f_equal. Qed.

Lemma FormatInt_facts (z : Z) (p : string) :
  fmt.FormatInt z <> EmptyString
  /\ strings.allASCII (fmt.FormatInt z) = true
  /\ strings.lowerASCII (fmt.FormatInt z) = fmt.FormatInt z
  /\ (Text.apart "0123456789-" p = true -> Text.apart (fmt.FormatInt z) p = true).
Proof.
  unfold fmt.FormatInt.
  assert (Huint : forall d,
            DecimalString.NilZero.string_of_uint d <> EmptyString
            /\ strings.allASCII (DecimalString.NilZero.string_of_uint d) = true
            /\ strings.lowerASCII (DecimalString.NilZero.string_of_uint d)
               = DecimalString.NilZero.string_of_uint d
            /\ (Text.apart "0123456789-" p = true ->
                Text.apart (DecimalString.NilZero.string_of_uint d) p = true)).
  { intros d. destruct (uint_ascii d) as [Hascii Hlower].
    pose proof (uint_digits d p) as Hdigits.
    destruct d; simpl in *; repeat split; try done.
    intros Hp. simpl in Hp. repeat (apply andb_true_iff in Hp as [? Hp]).
    auto with bool. }
  destruct (Z.to_int z) as [d|d]; simpl.
  - apply Huint.
  - destruct (Huint d) as (Hne & Hascii & Hlower & Hdigits).
    repeat split; [done|done|by rewrite Hlower|].
    intros Hp. rewrite (Hdigits Hp).
    simpl in Hp. repeat (apply andb_true_iff in Hp as [? Hp]).
    rewrite andb_true_r. assumption.
Qed.

Lemma allASCII_app (a b : string) :
  strings.allASCII (a +:+ b) = strings.allASCII a && strings.allASCII b.
Proof.
  induction a as [|c a IH]; [done|]. rewrite append_cons. simpl.
  by rewrite IH, andb_assoc.
Qed.

Lemma lowerASCII_app (a b : string) :
  strings.lowerASCII (a +:+ b) = strings.lowerASCII a +:+ strings.lowerASCII b.
Proof.
  induction a as [|c a IH]; [done|]. rewrite append_cons. simpl.
  by rewrite IH.
Qed.

(** Lowering a text of literals and numbers lowers its literals. *)
Lemma join_lower `{goText : GoText} (tail : list (Z * string)) :
  forall head : string,
    forallb strings.allASCII (Text.literals head tail) = true ->
    strings.ToLower (Text.join head tail)
    = Text.join (strings.lowerASCII head) (map (fun e => (e.1, strings.lowerASCII e.2)) tail).
Proof.
  unfold strings.ToLower.
  assert (H : forall head,
             forallb strings.allASCII (Text.literals head tail) = true ->
             strings.allASCII (Text.join head tail) = true
             /\ strings.lowerASCII (Text.join head tail)
                = Text.join (strings.lowerASCII head)
                    (map (fun e => (e.1, strings.lowerASCII e.2)) tail)).
  { induction tail as [|[z literal] rest IH]; intros head Hall; simpl in Hall.
    - apply andb_true_iff in Hall as [Hhead _]. by split.
    - apply andb_true_iff in Hall as [Hhead Hrest].
      destruct (IH literal Hrest) as [Hascii Hlower].
      destruct (FormatInt_facts z EmptyString) as (_ & Hz & Hzl & _).
      simpl. rewrite !allASCII_app, !lowerASCII_app, Hhead, Hz, Hascii, Hzl, Hlower.
      done. }
  intros head Hall. destruct (H head Hall) as [-> ->]. done.
Qed.

(** A wordy pattern occurs in a text of literals and numbers exactly when
    it occurs in one of its literals. *)
Lemma join_Contains (p : string) (tail : list (Z * string)) :
  Text.wordy p = true ->
  forall head : string,
    strings.Contains (Text.join head tail) p
    = existsb (fun literal => strings.Contains literal p) (Text.literals head tail).
Proof.
  intros Hp. apply andb_true_iff in Hp as [Hne Hp].
  assert (Hp' : p <> EmptyString).
  { intros ->. discriminate. }
  induction tail as [|[z literal] rest IH]; intros head; simpl.
  - by rewrite orb_false_r.
  - destruct (FormatInt_facts z p) as (Hz & _ & _ & Hapart).
    rewrite Contains_across by auto. rewrite IH. done.
Qed.

End TextFacts.

(** ** The status of an error, on the wire *)
Section WireCodes.

Import grpcOrderHandler.
Context `{goText : GoText}.
Local Open Scope string_scope.

Lemma internal_message (text : string) :
  fmt.Sprintf "Internal server error: %v" [OpErr text] = "Internal server error: " +:+ text.
Proof. cbn. by rewrite append_nil_r. Qed.

(** The status of an error whose text is made of ASCII literals and
    numbers is decided by the literals. *)
Ltac by_literals head tail :=
  unfold mapOrderDomainErrorToGrpcStatus;
  rewrite ?internal_message;
  change (fmt.Error _) with (Text.join head tail);
  cbn zeta;
  rewrite (join_lower tail head) by reflexivity;
  rewrite !join_Contains by reflexivity;
  reflexivity.

Lemma ErrItemQuantity_on_the_wire (i : nat) (productID : Z) :
  mapOrderDomainErrorToGrpcStatus (usecase.ErrItemQuantity i productID)
  = status.Error codes.Internal
      ("Internal server error: item " +:+ fmt.FormatInt (Z.of_nat i)
       +:+ " (product " +:+ fmt.FormatInt productID
       +:+ "): quantity must be positive").
Proof.
  by_literals "item " [(Z.of_nat i, " (product ");
                       (productID, "): quantity must be positive")].
Qed.

(** X8: the status the gRPC handler gives the errors of the validation
    block of [CreateOrder].  An invalid user id, an order without items and
    an invalid product id are answered [InvalidArgument]; a quantity that is
    not positive, a negative price and a status other than [pending] are
    answered [Internal], with "Internal server error: " before the text of
    the error: none of the words the handler looks for is in their
    texts. *)
Theorem validation_errors_on_the_wire :
  mapOrderDomainErrorToGrpcStatus usecase.ErrInvalidUserID
  = status.Error codes.InvalidArgument "invalid user ID"
  /\ mapOrderDomainErrorToGrpcStatus usecase.ErrNoItems
     = status.Error codes.InvalidArgument "order must contain at least one item"
  /\ (forall i,
        mapOrderDomainErrorToGrpcStatus (usecase.ErrItemProductID i)
        = status.Error codes.InvalidArgument
            ("item " +:+ fmt.FormatInt (Z.of_nat i) +:+ ": invalid product ID"))
  /\ (forall i productID,
        mapOrderDomainErrorToGrpcStatus (usecase.ErrItemQuantity i productID)
        = status.Error codes.Internal
            ("Internal server error: item " +:+ fmt.FormatInt (Z.of_nat i)
             +:+ " (product " +:+ fmt.FormatInt productID
             +:+ "): quantity must be positive"))
  /\ (forall i productID,
        mapOrderDomainErrorToGrpcStatus (usecase.ErrItemPrice i productID)
        = status.Error codes.Internal
            ("Internal server error: item " +:+ fmt.FormatInt (Z.of_nat i)
             +:+ " (product " +:+ fmt.FormatInt productID
             +:+ "): price cannot be negative"))
  /\ mapOrderDomainErrorToGrpcStatus usecase.ErrStatusNotPending
     = status.Error codes.Internal
         "Internal server error: order can only be created with 'pending' status".
Proof.
  split_and!.
  - by_literals "invalid user ID" (@nil (Z * string)).
  - by_literals "order must contain at least one item" (@nil (Z * string)).
  - intros i. by_literals "item " [(Z.of_nat i, ": invalid product ID")].
  - apply ErrItemQuantity_on_the_wire.
  - intros i productID.
    by_literals "item " [(Z.of_nat i, " (product ");
                         (productID, "): price cannot be negative")].
  - by_literals "order can only be created with 'pending' status" (@nil (Z * string)).
Qed.

(** X9: the status the gRPC handler gives the other errors of the use
    case that carry no error of a collaborator: "insufficient stock" and
    the two errors of the transition guard are answered
    [FailedPrecondition], an invalid order id is answered
    [InvalidArgument], each with the text of the error as message. *)
Theorem saga_errors_on_the_wire :
  (forall productID requested available,
     mapOrderDomainErrorToGrpcStatus
       (usecase.ErrInsufficientStock productID requested available)
     = status.Error codes.FailedPrecondition
         ("insufficient stock for product " +:+ fmt.FormatInt productID
          +:+ " (requested total: " +:+ fmt.FormatInt requested
          +:+ ", available: " +:+ fmt.FormatInt available +:+ ")"))
  /\ mapOrderDomainErrorToGrpcStatus usecase.ErrCancelCompleted
     = status.Error codes.FailedPrecondition "cannot cancel a completed order"
  /\ mapOrderDomainErrorToGrpcStatus usecase.ErrChangeCancelled
     = status.Error codes.FailedPrecondition "cannot change status of a cancelled order"
  /\ mapOrderDomainErrorToGrpcStatus usecase.ErrInvalidOrderID
     = status.Error codes.InvalidArgument "invalid order ID"
  /\ mapOrderDomainErrorToGrpcStatus usecase.ErrInvalidOrderIDForUpdate
     = status.Error codes.InvalidArgument "invalid order ID for status update".
Proof.
  split_and!.
  - intros productID requested available.
    by_literals "insufficient stock for product "
      [(productID, " (requested total: "); (requested, ", available: ");
       (available, ")")].
  - by_literals "cannot cancel a completed order" (@nil (Z * string)).
  - by_literals "cannot change status of a cancelled order" (@nil (Z * string)).
  - by_literals "invalid order ID" (@nil (Z * string)).
  - by_literals "invalid order ID for status update" (@nil (Z * string)).
Qed.

End WireCodes.

(** ** The gRPC handler *)
Section WireHandlers.

Import grpcOrderHandler.
Context {W : Type}.
Context `{inventoryClient : clients.InventoryClient W}.
Context `{orderRepo : domain.OrderRepository W}.
Context `{mapOrder : MapOrder}.
Context `{goText : GoText}.

Lemma grpc_CreateOrder_run (req : CreateOrderRequest) (w : W) :
  0 < UserId req -> Items req <> [] ->
  CreateOrder req w =
  let r := usecase.CreateOrder (domainOrder req) w in
  match value r with
  | Ok createdOrder =>
      {| value := Ok (Sent (grpc.mapDomainOrderToProto createdOrder));
         events := events r;
         final := final r |}
  | Err err =>
      {| value := Ok (Refused (mapOrderDomainErrorToGrpcStatus err));
         events := events r
                   ++ [LogErrorf "gRPC Handler: CreateOrder use case error for UserID %d: %v"
                         [ArgInt (UserId req); ArgErr err]];
         final := final r |}
  end.
Proof.
  intros Huser Hitems. unfold CreateOrder. cbn zeta.
  destruct (Z.leb_spec (UserId req) 0); [lia|].
  destruct (Items req) as [|x rest] eqn:Hreq; [done|]. rewrite <- Hreq.
  replace (length (Items req) =? 0)%nat with false by by rewrite Hreq.
  fold (domainOrder req). unfold bind, attempt, logErrorf, logLine, ret.
  cbn [value events final].
  destruct (value (usecase.CreateOrder (domainOrder req) w)); cbn [value events final];
    by rewrite ?app_nil_r.
Qed.

Lemma validateItems_bad_quantity (good rest : list domain.OrderItem)
    (item : domain.OrderItem) :
  Forall (fun item => 0 < domain.ProductID item
                      /\ 0 < domain.Quantity item
                      /\ PrimFloat.ltb (domain.Price item) 0%float = false) good ->
  0 < domain.ProductID item -> domain.Quantity item <= 0 ->
  forall i,
    usecase.validateItems i (good ++ item :: rest)
    = Some (usecase.ErrItemQuantity (i + length good) (domain.ProductID item)).
Proof.
  intros Hgood Hp Hq. induction Hgood as [|x good (Hxp & Hxq & Hxf) _ IH]; intros i; simpl.
  - destruct (Z.leb_spec (domain.ProductID item) 0); [lia|].
    destruct (Z.leb_spec (domain.Quantity item) 0); [|lia].
    by rewrite Nat.add_0_r.
  - destruct (Z.leb_spec (domain.ProductID x) 0); [lia|].
    destruct (Z.leb_spec (domain.Quantity x) 0); [lia|].
    rewrite Hxf, IH. do 2 f_equal. lia.
Qed.

(** X10: a gRPC [CreateOrder] whose first item that does not pass the
    validation has a quantity that is not positive is answered with the
    code [Internal], not [InvalidArgument]; the message names the index of
    the item and its product.  No call is made to the inventory or to the
    store: the only event is the line the handler logs. *)
Theorem grpc_CreateOrder_answers_a_bad_quantity_with_Internal
    (req : CreateOrderRequest) (w : W)
    (good rest : list domain.OrderItem) (item : domain.OrderItem) :
  0 < UserId req ->
  mapProtoItemsToDomain (Items req) = good ++ item :: rest ->
  Forall (fun item => 0 < domain.ProductID item
                      /\ 0 < domain.Quantity item
                      /\ PrimFloat.ltb (domain.Price item) 0%float = false) good ->
  0 < domain.ProductID item -> domain.Quantity item <= 0 ->
  let run := CreateOrder req w in
  let err := usecase.ErrItemQuantity (length good) (domain.ProductID item) in
  value run
  = Ok (Refused (status.Error codes.Internal
                   ("Internal server error: item " +:+ fmt.FormatInt (Z.of_nat (length good))
                    +:+ " (product " +:+ fmt.FormatInt (domain.ProductID item)
                    +:+ "): quantity must be positive")))
  /\ events run
     = [LogErrorf "gRPC Handler: CreateOrder use case error for UserID %d: %v"
          [ArgInt (UserId req); ArgErr err]]
  /\ final run = w.
Proof.
  intros Huser Hitems Hgood Hp Hq run err. subst run.
  assert (Hne : Items req <> []).
  { intros Hnil. rewrite Hnil in Hitems. by destruct good. }
  rewrite (grpc_CreateOrder_run _ _ Huser Hne). cbn zeta.
  rewrite CreateOrder_phases.
  assert (Hv : usecase.validate (domainOrder req) = Err err).
  { unfold usecase.validate, domainOrder. cbn [domain.UserID domain.Items].
    destruct (Z.leb_spec (UserId req) 0); [lia|].
    rewrite Hitems.
    replace (length (good ++ item :: rest) =? 0)%nat with false
      by (rewrite length_app; simpl; symmetry; apply Nat.eqb_neq; lia).
    by rewrite (validateItems_bad_quantity good rest item Hgood Hp Hq 0). }
  rewrite Hv. cbn [value events final]. split; [|done]. do 2 f_equal.
  subst err. apply ErrItemQuantity_on_the_wire.
Qed.

(** X11: a gRPC [UpdateOrderStatus] whose status is
    [ORDER_STATUS_UNSPECIFIED], or a number that names no status, is
    answered [InvalidArgument] before the use case is called: no event, and
    the world is left as it was.  The message ends where the status would
    be, since the status is mapped to the empty string. *)
Theorem grpc_UpdateOrderStatus_refuses_an_unnamed_status
    (req : UpdateOrderStatusRequest) (w : W) :
  0 < Id req ->
  match Status req with
  | Named grpc.PENDING | Named grpc.COMPLETED | Named grpc.CANCELLED => False
  | _ => True
  end ->
  let run := UpdateOrderStatus req w in
  value run
  = Ok (Refused (status.Error codes.InvalidArgument "Invalid status value provided: "))
  /\ events run = []
  /\ final run = w.
Proof.
  intros Hid Hstatus run. subst run. unfold UpdateOrderStatus. cbn zeta.
  destruct (Z.leb_spec (Id req) 0); [lia|].
  by destruct (Status req) as [[]|].
Qed.

Lemma grpc_UpdateOrderStatus_run (req : UpdateOrderStatusRequest) (w : W) :
  0 < Id req ->
  domain.IsValidStatus (mapProtoStatusToDomain (Status req)) = true ->
  UpdateOrderStatus req w =
  let r := usecase.UpdateOrderStatus (Id req) (mapProtoStatusToDomain (Status req)) w in
  match value r with
  | Ok updatedOrder =>
      {| value := Ok (Sent (grpc.mapDomainOrderToProto updatedOrder));
         events := events r;
         final := final r |}
  | Err err =>
      {| value := Ok (Refused (mapOrderDomainErrorToGrpcStatus err));
         events := events r
                   ++ [LogErrorf
                         "gRPC Handler: UpdateOrderStatus use case error for OrderID %d: %v"
                         [ArgInt (Id req); ArgErr err]];
         final := final r |}
  end.
Proof.
  intros Hid Hvalid. unfold UpdateOrderStatus. cbn zeta.
  destruct (Z.leb_spec (Id req) 0); [lia|]. rewrite Hvalid. cbn [negb].
  unfold bind, attempt, logErrorf, logLine, ret. cbn [value events final].
  destruct (value (usecase.UpdateOrderStatus _ _ w)); cbn [value events final];
    by rewrite ?app_nil_r.
Qed.

(** X12: a gRPC [UpdateOrderStatus] that the transition guard rejects
    (cancelling a completed order, or moving a cancelled order to [PENDING]
    or [COMPLETED]) is answered [FailedPrecondition] with the text of the
    guard; the order was loaded, the handler logged the error, and nothing
    else happened: no call to the inventory and no write. *)
Theorem grpc_UpdateOrderStatus_answers_the_guard_with_FailedPrecondition
    (req : UpdateOrderStatusRequest) (currentOrder : domain.Order) (w w1 : W) :
  0 < Id req ->
  domain.GetOrderByID (Id req) w = (Ok currentOrder, w1) ->
  (domain.Status currentOrder = domain.StatusCompleted
   /\ Status req = Named grpc.CANCELLED)
  \/ (domain.Status currentOrder = domain.StatusCancelled
      /\ (Status req = Named grpc.PENDING \/ Status req = Named grpc.COMPLETED)) ->
  let run := UpdateOrderStatus req w in
  exists err,
    Request.InvalidTransitionError err
    /\ value run
       = Ok (Refused (status.Error codes.FailedPrecondition (fmt.Error err)))
    /\ events run
       = [CallRepoGetOrderByID (Id req) (Ok currentOrder);
          LogErrorf "gRPC Handler: UpdateOrderStatus use case error for OrderID %d: %v"
            [ArgInt (Id req); ArgErr err]]
    /\ final run = w1.
Proof.
  intros Hid Hget Hguard run. subst run.
  assert (Hvalid : domain.IsValidStatus (mapProtoStatusToDomain (Status req)) = true).
  { by destruct Hguard as [[_ ->]|[_ [->| ->]]]. }
  rewrite (grpc_UpdateOrderStatus_run _ _ Hid Hvalid). cbn zeta.
  rewrite UpdateOrderStatus_run.
  destruct (Z.leb_spec (Id req) 0); [lia|]. rewrite Hvalid. cbn [negb]. rewrite Hget.
  destruct Hguard as [[Hc ->]|[Hc [->| ->]]]; rewrite Hc; cbn.
  - exists usecase.ErrCancelCompleted. split; [constructor|done].
  - exists usecase.ErrChangeCancelled. split; [constructor|done].
  - exists usecase.ErrChangeCancelled. split; [constructor|done].
Qed.

End WireHandlers.

(** ** The gRPC client of the inventory *)
Section ClientFacts.

Context {W : Type}.
Context `{client : inventorypb.InventoryServiceClient W}.

(** X14: [UpdateStock] of the gRPC client.  A negative stock is refused
    with "stock cannot be negative" before any request is sent.  Otherwise
    exactly one [UpdateProduct] request is sent, for the product, with the
    mask ["stock"], and the stock it carries is [int32(newStock)]: the
    stock asked for when that is at most 2^31 - 1, and another number when
    it is above.  The call succeeds exactly when the request does. *)
Theorem client_UpdateStock_sends_the_stock_as_int32 (productID newStock : Z) (w : W) :
  let run := inventoryGRPCClient.UpdateStock productID newStock w in
  (newStock < 0 ->
     answer run = Some (Errorf "stock cannot be negative" [])
     /\ trace run = [] /\ world run = w)
  /\ (0 <= newStock ->
      exists sent res tail,
        trace run
        = inventoryGRPCClient.UpdateProductCall
            {| inventorypb.Product_ :=
                 {| inventorypb.Id := productID; inventorypb.Name := EmptyString;
                    inventorypb.Price := 0%float; inventorypb.Stock := sent |};
               inventorypb.UpdateMask := ["stock"%string] |} res :: tail
        /\ Forall (fun ev => Wire.isLine ev = true) tail
        /\ (answer run = None <-> res = None)
        /\ sent = GoInt.int32 newStock
        /\ (newStock <= 2 ^ 31 - 1 -> sent = newStock)
        /\ (2 ^ 31 <= newStock -> sent <> newStock)).
Proof.
  intros run. subst run. unfold inventoryGRPCClient.UpdateStock. split.
  - intros Hneg. by destruct (Z.ltb_spec newStock 0); [|lia].
  - intros Hpos. destruct (Z.ltb_spec newStock 0); [lia|]. cbn zeta.
    destruct (inventorypb.UpdateProduct _ w) as [res w'].
    exists (GoInt.int32 newStock), res.
    assert (Hsmall : newStock <= 2 ^ 31 - 1 -> GoInt.int32 newStock = newStock).
    { intros Hle. apply int32_exact. unfold Wire.in_int32. lia. }
    assert (Hlarge : 2 ^ 31 <= newStock -> GoInt.int32 newStock <> newStock).
    { intros Hge Heq. pose proof (int32_range newStock) as Hr. rewrite Heq in Hr.
      unfold Wire.in_int32 in Hr. lia. }
    destruct res as [[code message|err]|]; [destruct code|..]; cbn;
      eexists; (split; [reflexivity|]); (split; [by repeat constructor|]);
      (split; [by split|]); done.
Qed.

End ClientFacts.

Section UnknownProduct.

Import grpcOrderHandler.
Context {W : Type}.
Context `{client : inventorypb.InventoryServiceClient W}.
Context `{orderRepo : domain.OrderRepository W}.
Context `{mapOrder : MapOrder}.
Context `{goText : GoText}.

#[local] Existing Instance inventoryGRPCClient.inventoryGRPCClient.

Lemma ErrInventoryCheck_not_found_text (productID : Z) :
  fmt.Error (usecase.ErrInventoryCheck productID (inventoryGRPCClient.ErrProductNotFound productID))
  = Text.join "inventory check failed for product "
      [(productID, ": product with ID "); (productID, " not found in inventory")].
Proof. cbn. by rewrite ?append_assoc, ?append_nil_r. Qed.

Lemma ErrInventoryCheck_not_found_on_the_wire (productID : Z) :
  mapOrderDomainErrorToGrpcStatus
    (usecase.ErrInventoryCheck productID (inventoryGRPCClient.ErrProductNotFound productID))
  = status.Error codes.NotFound
      ("inventory check failed for product " +:+ fmt.FormatInt productID
       +:+ ": product with ID " +:+ fmt.FormatInt productID
       +:+ " not found in inventory").
Proof.
  unfold mapOrderDomainErrorToGrpcStatus. rewrite ErrInventoryCheck_not_found_text.
  cbn zeta. rewrite join_lower by reflexivity. rewrite !join_Contains by reflexivity.
  reflexivity.
Qed.

(** X15: through the gRPC client, the use case and the gRPC handler: when
    the inventory service answers [NotFound] for the product of the first
    item of an order that passes the validation, [CreateOrder] is answered
    [NotFound], with a message that names the product; the one remote call
    of the run is that read. *)
Theorem unknown_product_is_answered_NotFound
    (req : CreateOrderRequest) (w w1 : W)
    (item : domain.OrderItem) (rest : list domain.OrderItem) (message : string) :
  0 < UserId req ->
  mapProtoItemsToDomain (Items req) = item :: rest ->
  Forall (fun item => 0 < domain.ProductID item
                      /\ 0 < domain.Quantity item
                      /\ PrimFloat.ltb (domain.Price item) 0%float = false)
    (item :: rest) ->
  inventorypb.GetProduct (domain.ProductID item) w
  = (inventorypb.Failed (inventorypb.WithStatus codes.NotFound message), w1) ->
  let run := CreateOrder req w in
  let err := usecase.ErrInventoryCheck (domain.ProductID item)
               (inventoryGRPCClient.ErrProductNotFound (domain.ProductID item)) in
  value run
  = Ok (Refused (status.Error codes.NotFound
                   ("inventory check failed for product "
                    +:+ fmt.FormatInt (domain.ProductID item)
                    +:+ ": product with ID " +:+ fmt.FormatInt (domain.ProductID item)
                    +:+ " not found in inventory")))
  /\ events run
     = [CallGetProduct (domain.ProductID item)
          (Err (inventoryGRPCClient.ErrProductNotFound (domain.ProductID item)));
        LogErrorf "gRPC Handler: CreateOrder use case error for UserID %d: %v"
          [ArgInt (UserId req); ArgErr err]]
  /\ final run = w1.
Proof.
  intros Huser Hitems Hvalid Hget run err. subst run.
  assert (Hne : Items req <> []).
  { intros Hnil. by rewrite Hnil in Hitems. }
  rewrite (grpc_CreateOrder_run _ _ Huser Hne). cbn zeta.
  rewrite CreateOrder_phases.
  assert (Hwf : Request.WellFormed (domainOrder req)).
  { constructor; simpl; [done|by rewrite Hitems|by rewrite Hitems|by left]. }
  rewrite (validate_accepts _ Hwf). cbn zeta. simpl domain.Items. rewrite Hitems.
  rewrite checkItems_cons. simpl clients.GetProduct.
  unfold inventoryGRPCClient.GetProduct. rewrite Hget. cbn.
  split; [|done]. do 2 f_equal. apply ErrInventoryCheck_not_found_on_the_wire.
Qed.

End UnknownProduct.

(** ** The transactions of the repository *)
Section RepositoryFacts.

Import postgresOrderRepository.
Context {W : Type}.
Context `{db : sql.DB W}.

Lemma commits_app (l1 l2 : list Sql) :
  Transaction.commits (l1 ++ l2) = Transaction.commits l1 ++ Transaction.commits l2.
Proof. induction l1 as [|[] l1 IH]; simpl; by rewrite ?IH. Qed.

Lemma rollbacks_app (l1 l2 : list Sql) :
  Transaction.rollbacks (l1 ++ l2) = Transaction.rollbacks l1 ++ Transaction.rollbacks l2.
Proof. induction l1 as [|[] l1 IH]; simpl; by rewrite ?IH. Qed.

Lemma insertedItems_app (l1 l2 : list Sql) :
  Transaction.insertedItems (l1 ++ l2)
  = Transaction.insertedItems l1 ++ Transaction.insertedItems l2.
Proof. induction l1 as [|[| | | | |? ? []| | | | | |] l1 IH]; simpl; by rewrite ?IH. Qed.

(** The loop inserts the items in order, up to the first that fails, and
    neither commits nor rolls back. *)
Lemma insertItems_runs (orderID : Z) (items : list domain.OrderItem) :
  forall w : W,
    let '(failed, evs, _) := insertItems orderID items w in
    Transaction.commits evs = [] /\ Transaction.rollbacks evs = []
    /\ match failed with
       | None => Transaction.insertedItems evs = map (fun item => (orderID, item)) items
       | Some (item, _) =>
           exists good rest,
             items = good ++ item :: rest
             /\ Transaction.insertedItems evs = map (fun item => (orderID, item)) good
       end.
Proof.
  induction items as [|item rest IH]; intros w; simpl; [done|].
  destruct (sql.Exec orderID item w) as [[e|] w'].
  - simpl. repeat split. by exists [], rest.
  - specialize (IH w'). destruct (insertItems orderID rest w') as [[failed evs] w''].
    destruct IH as (Hc & Hr & Hi). simpl. repeat split; try done.
    destruct failed as [[item' e]|].
    + destruct Hi as (good & rest' & -> & Hi). exists (item :: good), rest'.
      split; [done|]. simpl. by rewrite Hi.
    + by rewrite Hi.
Qed.

(** X16: when [CreateOrder] of the repository returns an error, it
    returns no order and has committed nothing: either the transaction
    could not be begun, or it was begun and rolled back, once, and the
    rollback is the last statement of the run. *)
Theorem repository_CreateOrder_rolls_back_what_it_reports_failed
    (order : domain.Order) (w : W) (e : error) :
  let run := CreateOrder order w in
  (answer run).2 = Some e ->
  (answer run).1 = None
  /\ Transaction.commits (trace run) = []
  /\ ((Transaction.began (trace run) = false /\ Transaction.rollbacks (trace run) = [])
      \/ (Transaction.began (trace run) = true
          /\ exists res, Transaction.rollbacks (trace run) = [res])).
Proof.
  intros run. subst run. unfold CreateOrder.
  destruct (sql.Begin w) as [[err|] w0]; [intros _; repeat split; by left|].
  unfold createOrderBody.
  destruct (sql.InsertOrder _ _ w0) as [[row|err] w1].
  2: { cbn. destruct (sql.Rollback w1) as [[rbErr|] w2]; intros _;
         repeat split; right; eauto. }
  destruct (sql.Prepare w1) as [[err|] w2].
  { cbn. destruct (sql.Rollback w2) as [[rbErr|] w3]; intros _;
      repeat split; right; eauto. }
  pose proof (insertItems_runs (domain.ID (inserted order row))
                (domain.Items (inserted order row)) w2) as Hitems.
  destruct (insertItems _ _ w2) as [[failed evs] w3].
  destruct Hitems as (Hc & Hr & _).
  destruct failed as [[item err]|].
  - cbn [createOrderDeferred]. destruct (sql.Rollback _) as [[rbErr|] w4]; intros _;
      cbn [answer trace fst snd]; (split; [done|]);
      rewrite ?commits_app, ?rollbacks_app; simpl;
      rewrite ?commits_app, ?rollbacks_app, Hc, Hr; simpl; split; try done; right; eauto.
  - destruct (sql.Commit w3) as [[cErr|] w4]; cbn [createOrderDeferred];
      destruct (sql.Commit _) as [[cErr'|] w5]; cbn; discriminate.
Qed.

(** X17: when [CreateOrder] of the repository returns no error, every
    item was inserted, in order and under the id of the new order, the
    transaction was never rolled back, and [Commit] was called twice: once
    by the method, once by the function it defers.  The order is returned
    exactly when the first commit succeeds: when it fails, the method
    returns neither an order nor an error. *)
Theorem repository_CreateOrder_commits_twice (order : domain.Order) (w : W) :
  let run := CreateOrder order w in
  (answer run).2 = None ->
  exists row first second,
    Transaction.commits (trace run) = [first; second]
    /\ Transaction.rollbacks (trace run) = []
    /\ Transaction.insertedItems (trace run)
       = map (fun item => (repository.id row, item)) (domain.Items order)
    /\ (answer run).1 = match first with
                        | None => Some (inserted order row)
                        | Some _ => None
                        end.
Proof.
  intros run. subst run. unfold CreateOrder.
  destruct (sql.Begin w) as [[err|] w0]; [discriminate|].
  unfold createOrderBody.
  destruct (sql.InsertOrder _ _ w0) as [[row|err] w1].
  2: { cbn. by destruct (sql.Rollback w1) as [[rbErr|] w2]. }
  destruct (sql.Prepare w1) as [[err|] w2].
  { cbn. by destruct (sql.Rollback w2) as [[rbErr|] w3]. }
  pose proof (insertItems_runs (domain.ID (inserted order row))
                (domain.Items (inserted order row)) w2) as Hitems.
  destruct (insertItems _ _ w2) as [[failed evs] w3].
  destruct Hitems as (Hc & Hr & Hi).
  destruct failed as [[item err]|].
  { cbn [createOrderDeferred]. by destruct (sql.Rollback _) as [[rbErr|] w4]. }
  intros _. exists row.
  destruct (sql.Commit w3) as [first w4]. cbn [createOrderDeferred].
  destruct (sql.Commit _) as [second w5]. exists first, second.
  destruct first as [e1|], second as [e2|]; cbn [answer trace fst snd];
    split_and!; try done; simpl;
    rewrite ?commits_app, ?rollbacks_app, ?insertedItems_app, ?Hc, ?Hr, ?Hi; simpl;
    by rewrite ?app_nil_r.
Qed.

Lemma getOrderItemsTx_runs (id : Z) (w : W) :
  let '(_, evs, _) := getOrderItemsTx id w in
  Transaction.commits evs = [] /\ Transaction.rollbacks evs = [].
Proof.
  unfold getOrderItemsTx. destruct (sql.SelectItemsTx id w) as [[] w']; by simpl.
Qed.

(** X18: [UpdateOrderStatus] of the repository commits after its results
    are set.  When the update and the read of the items succeed it returns
    the updated order and no error, whatever [Commit] answers: a commit
    that fails is logged, and the caller is told the status was written. *)
Theorem repository_UpdateOrderStatus_swallows_a_failed_commit
    (id : Z) (status : domain.OrderStatus) (w : W) :
  let run := UpdateOrderStatus id status w in
  (forall updated, (answer run).1 = Some updated ->
     (answer run).2 = None
     /\ exists res, Transaction.commits (trace run) = [res]
                    /\ Transaction.rollbacks (trace run) = [])
  /\ (forall e, Transaction.commits (trace run) = [Some e] ->
        (exists updated, answer run = (Some updated, None))
        /\ last (trace run)
           = Some (ErrorLine "UpdateOrderStatus: %v"
                     [ArgErr (Errorf "failed to commit status update transaction: %w"
                                [ArgErr e])]))
  /\ (forall e, (answer run).2 = Some e ->
        (answer run).1 = None /\ Transaction.commits (trace run) = []).
Proof.
  intros run. subst run. unfold UpdateOrderStatus.
  destruct (sql.Begin w) as [[err|] w0]; [by repeat split|].
  unfold updateOrderStatusBody.
  destruct (sql.UpdateStatus status id w0) as [[row|err] w1].
  2: { destruct (sql.isNoRows err); [|destruct (checkViolation err)];
         cbn; destruct (sql.Rollback w1) as [[rbErr|] w2]; by repeat split. }
  pose proof (getOrderItemsTx_runs id w1) as Hitems.
  destruct (getOrderItemsTx id w1) as [[[items|err] evs] w2]; destruct Hitems as [Hc Hr].
  2: { cbn [updateOrderStatusDeferred]. destruct (sql.Rollback w2) as [[rbErr|] w3];
         cbn [answer trace fst snd]; simpl; rewrite !commits_app, Hc; by repeat split. }
  cbn [updateOrderStatusDeferred]. destruct (sql.Commit w2) as [[cErr|] w3];
    cbn [answer trace fst snd]; simpl;
    rewrite !commits_app, !rollbacks_app, Hc, Hr; simpl.
  - split; [eauto|]. split; [|done]. intros e [= ->]. split; [eauto|].
    by rewrite app_comm_cons, last_app.
  - split; [eauto|]. by split.
Qed.

End RepositoryFacts.

(** ** The HTTP handler *)
Section HttpCodes.

Import httpOrderHandler.
Context `{goText : GoText}.

Ltac by_literals head tail :=
  unfold mapErrorToStatus;
  change (fmt.Error _) with (Text.join head tail);
  cbn zeta;
  rewrite (join_lower tail head) by reflexivity;
  rewrite !join_Contains by reflexivity;
  reflexivity.

(** X22: the status code the HTTP handler gives the errors of the use
    case that carry no error of a collaborator.  The errors of the
    validation of an item and an invalid id are answered 400; an order
    without items, a status other than [pending], "insufficient stock" and
    the two errors of the transition guard are answered 500: none of the
    words the handler looks for is in their texts. *)
Theorem saga_errors_over_http :
  mapErrorToStatus usecase.ErrInvalidUserID = StatusBadRequest
  /\ mapErrorToStatus usecase.ErrInvalidOrderID = StatusBadRequest
  /\ mapErrorToStatus usecase.ErrInvalidOrderIDForUpdate = StatusBadRequest
  /\ (forall i, mapErrorToStatus (usecase.ErrItemProductID i) = StatusBadRequest)
  /\ (forall i productID,
        mapErrorToStatus (usecase.ErrItemQuantity i productID) = StatusBadRequest)
  /\ (forall i productID,
        mapErrorToStatus (usecase.ErrItemPrice i productID) = StatusBadRequest)
  /\ mapErrorToStatus usecase.ErrNoItems = StatusInternalServerError
  /\ mapErrorToStatus usecase.ErrStatusNotPending = StatusInternalServerError
  /\ (forall productID requested available,
        mapErrorToStatus (usecase.ErrInsufficientStock productID requested available)
        = StatusInternalServerError)
  /\ mapErrorToStatus usecase.ErrCancelCompleted = StatusInternalServerError
  /\ mapErrorToStatus usecase.ErrChangeCancelled = StatusInternalServerError.
Proof.
  split_and!.
  - by_literals "invalid user ID" (@nil (Z * string)).
  - by_literals "invalid order ID" (@nil (Z * string)).
  - by_literals "invalid order ID for status update" (@nil (Z * string)).
  - intros i. by_literals "item " [(Z.of_nat i, ": invalid product ID")].
  - intros i productID.
    by_literals "item " [(Z.of_nat i, " (product ");
                         (productID, "): quantity must be positive")].
  - intros i productID.
    by_literals "item " [(Z.of_nat i, " (product ");
                         (productID, "): price cannot be negative")].
  - by_literals "order must contain at least one item" (@nil (Z * string)).
  - by_literals "order can only be created with 'pending' status" (@nil (Z * string)).
  - intros productID requested available.
    by_literals "insufficient stock for product "
      [(productID, " (requested total: "); (requested, ", available: ");
       (available, ")")].
  - by_literals "cannot cancel a completed order" (@nil (Z * string)).
  - by_literals "cannot change status of a cancelled order" (@nil (Z * string)).
Qed.

End HttpCodes.

Section HttpHandlers.

Import httpOrderHandler.
Context {W : Type}.
Context `{inventoryClient : clients.InventoryClient W}.
Context `{orderRepo : domain.OrderRepository W}.
Context `{mapOrder : MapOrder}.
Context `{goText : GoText}.

Lemma positive_is_positive (s : string) (n : Z) : positive s = Some n -> 0 < n.
Proof.
  unfold positive. destruct (strconv.Atoi s) as [m|]; [|discriminate].
  destruct (Z.leb_spec m 0); [discriminate|]. intros [= <-]. done.
Qed.

Lemma usecase_GetOrderByID_run (id : Z) (w : W) :
  0 < id ->
  usecase.GetOrderByID id w =
  match domain.GetOrderByID id w with
  | (Ok order, w') =>
      {| value := Ok order; events := [CallRepoGetOrderByID id (Ok order)]; final := w' |}
  | (Err err, w') =>
      {| value := Err err; events := [CallRepoGetOrderByID id (Err err)]; final := w' |}
  end.
Proof.
  intros Hid. unfold usecase.GetOrderByID. destruct (Z.leb_spec id 0); [lia|].
  unfold usecase.repoGetOrderByID, bind, call.
  by destruct (domain.GetOrderByID id w) as [[order|err] w'].
Qed.

(** X20: the HTTP [GetOrderByID] shows an order to its owner only.  A
    response that carries an order has the code 200, and the user of that
    order is the one the [X-User-ID] header names; the order is the one the
    store returned for the id of the route, and the store was called once.
    When the store returns the order of another user, the response is 403
    and carries no order. *)
Theorem http_GetOrderByID_shows_an_order_to_its_owner_only (c : Context unit) (w : W) :
  let run := GetOrderByID c w in
  (forall written order,
     value run = Ok written -> Data (body written) = Some order ->
     statusCode written = StatusOK
     /\ positive (XUserID c) = Some (domain.UserID order)
     /\ exists id,
          positive (ParamID c) = Some id
          /\ events run = [CallRepoGetOrderByID id (Ok order)])
  /\ (forall id requestor order w1,
        positive (ParamID c) = Some id ->
        positive (XUserID c) = Some requestor ->
        domain.GetOrderByID id w = (Ok order, w1) ->
        domain.UserID order <> requestor ->
        value run = Ok (ErrorResponse StatusForbidden
                          "You are not authorized to view this order")).
Proof.
  intros run. subst run. unfold GetOrderByID. cbn zeta. split.
  - intros written order.
    destruct (positive (ParamID c)) as [id|] eqn:Hid; [|by intros [= <-]].
    destruct (String.eqb (XUserID c) EmptyString); [by intros [= <-]|].
    destruct (positive (XUserID c)) as [requestor|] eqn:Huser; [|by intros [= <-]].
    unfold bind, attempt. cbn [value events final].
    rewrite (usecase_GetOrderByID_run id w (positive_is_positive _ _ Hid)).
    destruct (domain.GetOrderByID id w) as [[order'|err] w1]; cbn [value events final];
      [|by intros [= <-]].
    destruct (Z.eqb_spec (domain.UserID order') requestor) as [Heq|Hne]; cbn [negb];
      [|by intros [= <-]].
    cbn. intros [= <-] [= <-]. split; [done|]. split; [by rewrite Heq|]. by exists id.
  - intros id requestor order w1 Hid Huser Hget Hne. rewrite Hid.
    assert (Hheader : String.eqb (XUserID c) EmptyString = false).
    { destruct (String.eqb_spec (XUserID c) EmptyString) as [Hempty|]; [|done].
      rewrite Hempty in Huser. discriminate. }
    rewrite Hheader, Huser. unfold bind, attempt. cbn [value events final].
    rewrite (usecase_GetOrderByID_run id w (positive_is_positive _ _ Hid)), Hget.
    cbn [value events final].
    destruct (Z.eqb_spec (domain.UserID order) requestor); [done|]. done.
Qed.

(** X21: the HTTP [UpdateOrder] changes nothing for a user who does not
    own the order.  A run that updates a stock or writes a status began by
    loading the order of the route, and the user of the order it loaded is
    the one the [X-User-ID] header names.  When the store returns the order
    of another user, the response is 403 and that load is the only call. *)
Theorem http_UpdateOrder_changes_only_the_orders_of_the_requestor
    (c : Context (option domain.OrderStatus)) (w : W) :
  let run := UpdateOrder c w in
  (Exists (fun ev => Updates.changes ev = true) (events run) ->
   exists id currentOrder tail,
     positive (ParamID c) = Some id
     /\ events run = CallRepoGetOrderByID id (Ok currentOrder) :: tail
     /\ positive (XUserID c) = Some (domain.UserID currentOrder))
  /\ (forall id requestor status order w1,
        positive (ParamID c) = Some id ->
        JSON c = Bound (Some status) -> domain.IsValidStatus status = true ->
        positive (XUserID c) = Some requestor ->
        domain.GetOrderByID id w = (Ok order, w1) ->
        domain.UserID order <> requestor ->
        value run = Ok (ErrorResponse StatusForbidden
                          "You are not authorized to update this order")
        /\ events run = [CallRepoGetOrderByID id (Ok order)]
        /\ final run = w1).
Proof.
  intros run. subst run. unfold UpdateOrder. cbn zeta.
  assert (Hheader : forall n, positive (XUserID c) = Some n ->
            String.eqb (XUserID c) EmptyString = false).
  { intros n Hn. destruct (String.eqb_spec (XUserID c) EmptyString) as [Hempty|]; [|done].
    rewrite Hempty in Hn. discriminate. }
  split.
  - assert (Hquiet : forall evs,
              Forall (fun ev => Updates.changes ev = false) evs ->
              Exists (fun ev => Updates.changes ev = true) evs -> False).
    { intros evs Hall Hex. apply Exists_exists in Hex as (ev & Hin & Hev).
      rewrite Forall_forall in Hall. specialize (Hall _ Hin). congruence. }
    destruct (positive (ParamID c)) as [id|] eqn:Hid; [|by intros ?%Exists_nil].
    destruct (JSON c) as [err|[status|]]; try by intros ?%Exists_nil.
    destruct (negb (domain.IsValidStatus status)); [by intros ?%Exists_nil|].
    destruct (String.eqb (XUserID c) EmptyString).
    { intros Hex. exfalso. revert Hex. apply Hquiet. by repeat constructor. }
    destruct (positive (XUserID c)) as [requestor|] eqn:Huser.
    2: { intros Hex. exfalso. revert Hex. apply Hquiet. by repeat constructor. }
    unfold bind, attempt. cbn [value events final].
    rewrite (usecase_GetOrderByID_run id w (positive_is_positive _ _ Hid)).
    destruct (domain.GetOrderByID id w) as [[currentOrder|err] w1]; cbn [value events final].
    2: { intros Hex. exfalso. revert Hex. apply Hquiet. by repeat constructor. }
    destruct (Z.eqb_spec (domain.UserID currentOrder) requestor) as [Heq|Hne]; cbn [negb].
    2: { intros Hex. exfalso. revert Hex. apply Hquiet. by repeat constructor. }
    intros _. exists id, currentOrder.
    destruct (value (usecase.UpdateOrderStatus id status w1));
      cbn [value events final app]; eexists; (split; [done|]);
      (split; [reflexivity|by rewrite Heq]).
  - intros id requestor status order w1 Hid Hjson Hvalid Huser Hget Hne.
    rewrite Hid, Hjson, Hvalid, (Hheader _ Huser), Huser. cbn [negb].
    unfold bind, attempt. cbn [value events final].
    rewrite (usecase_GetOrderByID_run id w (positive_is_positive _ _ Hid)), Hget.
    cbn [value events final].
    destruct (Z.eqb_spec (domain.UserID order) requestor); [done|]. done.
Qed.

End HttpHandlers.

(** ** An order that is not in the table *)
Section MissingOrder.

Import grpcOrderHandler.
Context {W : Type}.
Context `{inventoryClient : clients.InventoryClient W}.
Context `{listing : repository.DB W}.
Context `{db : sql.DB W}.
Context `{mapOrder : MapOrder}.
Context `{goText : GoText}.

Lemma ErrOrderNotFound_text (id : Z) :
  fmt.Error (postgresOrderRepository.ErrOrderNotFound id) = Text.join "order with id " [(id, " not found")].
Proof. reflexivity. Qed.

(** X19: an order that is not in the table, through the repository, the
    use case and both handlers.  When the row query of [GetOrderByID] finds
    no row, the repository returns "order with id N not found" and does not
    query the items; the gRPC [GetOrder] is then answered [NotFound] and
    the HTTP [GetOrderByID] is answered 404, each with that text. *)
Theorem missing_order_is_answered_NotFound
    (createOrder : domain.Order -> W -> result domain.Order * W)
    (updateOrderStatus : Z -> domain.OrderStatus -> W -> result domain.Order * W)
    (id : Z) (err : sql.DriverError) (w w1 : W) :
  0 < id ->
  sql.SelectOrder id w = (sql.NotScanned err, w1) ->
  sql.isNoRows err = true ->
  let getOrderByID := fun id w =>
    let r := postgresOrderRepository.GetOrderByID id w in (answer r, world r) in
  let store := repository.postgresOrderRepository createOrder getOrderByID updateOrderStatus in
  let text := "order with id " +:+ fmt.FormatInt id +:+ " not found" in
  postgresOrderRepository.GetOrderByID id w
  = {| answer := Err (postgresOrderRepository.ErrOrderNotFound id);
       trace := [postgresOrderRepository.DbSelectOrder id (sql.NotScanned err)];
       world := w1 |}
  /\ value (GetOrder (orderRepo := store) id w)
     = Ok (Refused (status.Error codes.NotFound text))
  /\ (forall c : httpOrderHandler.Context unit,
        httpOrderHandler.positive (httpOrderHandler.ParamID c) = Some id ->
        is_Some (httpOrderHandler.positive (httpOrderHandler.XUserID c)) ->
        value (httpOrderHandler.GetOrderByID (orderRepo := store) c w)
        = Ok (httpOrderHandler.ErrorResponse httpOrderHandler.StatusNotFound
                ("Failed to retrieve order: " +:+ text))).
Proof.
  intros Hid Hselect Hnone getOrderByID store text.
  assert (Hrepo : postgresOrderRepository.GetOrderByID id w
                  = {| answer := Err (postgresOrderRepository.ErrOrderNotFound id);
                       trace := [postgresOrderRepository.DbSelectOrder id
                                   (sql.NotScanned err)];
                       world := w1 |}).
  { unfold postgresOrderRepository.GetOrderByID. by rewrite Hselect, Hnone. }
  assert (Huc : usecase.GetOrderByID (orderRepo := store) id w
                = {| value := Err (postgresOrderRepository.ErrOrderNotFound id);
                     events := [CallRepoGetOrderByID id (Err (postgresOrderRepository.ErrOrderNotFound id))];
                     final := w1 |}).
  { unfold usecase.GetOrderByID. destruct (Z.leb_spec id 0); [lia|].
    unfold usecase.repoGetOrderByID, bind, call. subst store getOrderByID. simpl.
    by rewrite Hrepo. }
  split; [done|]. split.
  - unfold GetOrder. cbn zeta. destruct (Z.leb_spec id 0); [lia|].
    unfold bind, attempt. rewrite Huc. cbn [value events final]. do 2 f_equal.
    unfold mapOrderDomainErrorToGrpcStatus. rewrite ErrOrderNotFound_text.
    cbn zeta. rewrite join_lower by reflexivity. rewrite !join_Contains by reflexivity.
    reflexivity.
  - intros c Hparam [requestor Huser]. unfold httpOrderHandler.GetOrderByID. cbn zeta.
    rewrite Hparam.
    destruct (String.eqb_spec (httpOrderHandler.XUserID c) EmptyString) as [Hempty|_].
    { rewrite Hempty in Huser. discriminate. }
    rewrite Huser. unfold bind, attempt. rewrite Huc. cbn [value events final].
    do 2 f_equal. unfold httpOrderHandler.ErrorResponse. f_equal.
    unfold httpOrderHandler.mapErrorToStatus. rewrite ErrOrderNotFound_text.
    cbn zeta. rewrite join_lower by reflexivity. rewrite !join_Contains by reflexivity.
    reflexivity.
Qed.

End MissingOrder.

(** ** Whose order is saved *)
Section SavedOrder.

Context {W : Type}.
Context `{inventoryClient : clients.InventoryClient W}.
Context `{orderRepo : domain.OrderRepository W}.
Context `{mapOrder : MapOrder}.
Context `{goText : GoText}.

Lemma checkItems_keeps (items : list domain.OrderItem) :
  forall info (w : W) checked,
    value (usecase.checkItems items info w) = Ok checked ->
    map domain.ProductID checked.1 = map domain.ProductID items
    /\ map domain.Quantity checked.1 = map domain.Quantity items.
Proof.
  induction items as [|item rest IH]; intros info w checked.
  - simpl. by intros [= <-].
  - rewrite checkItems_cons.
    destruct (clients.GetProduct _ w) as [[p|err] w']; [|discriminate].
    destruct (clients.Stock p <? _); [discriminate|].
    cbn zeta. cbn [value events].
    destruct (value (usecase.checkItems rest _ w')) as [checked'|] eqn:Hrest; [|discriminate].
    intros [= <-]. destruct (IH _ _ _ Hrest) as [Hp Hq]. simpl. by rewrite Hp, Hq.
Qed.

(** The order the use case hands to the store has the user of the
    request, the status [pending], and the products and quantities of the
    request, line by line. *)
Lemma CreateOrder_saves (order persisted : domain.Order) (res : result domain.Order)
    (w : W) :
  CallRepoCreateOrder persisted res ∈ events (usecase.CreateOrder order w) ->
  domain.UserID persisted = domain.UserID order
  /\ domain.Status persisted = domain.StatusPending
  /\ map domain.ProductID (domain.Items persisted)
     = map domain.ProductID (domain.Items order)
  /\ map domain.Quantity (domain.Items persisted)
     = map domain.Quantity (domain.Items order).
Proof.
  rewrite CreateOrder_phases.
  destruct (usecase.validate order) as [order1|e] eqn:Hv; [|by intros ?%elem_of_nil].
  destruct (validate_keeps _ _ Hv) as (Hitems & Huser & Hstatus). cbn zeta.
  pose proof (checkItems_reads_only (domain.Items order1) ∅ w) as Hreads.
  assert (Hnot : forall evs,
            Forall (fun ev => Trace.isRepoCreate ev = false) evs ->
            CallRepoCreateOrder persisted res ∈ evs -> False).
  { intros evs Hall Hin. rewrite Forall_forall in Hall. by specialize (Hall _ Hin). }
  assert (Hreads' : Forall (fun ev => Trace.isRepoCreate ev = false)
            (events (usecase.checkItems (domain.Items order1) ∅ w))).
  { eapply Forall_impl; [exact Hreads|]. by intros []. }
  assert (Hquiet : forall evs,
            Forall (fun ev => Trace.isGetProduct ev = false
                              /\ Trace.isRepoCreate ev = false) evs ->
            Forall (fun ev => Trace.isRepoCreate ev = false) evs).
  { intros evs Hevs. eapply Forall_impl; [exact Hevs|]. by intros ? [_ ?]. }
  destruct (value (usecase.checkItems (domain.Items order1) ∅ w)) as [checked|e] eqn:Hc.
  2: { cbn [events]. intros Hin. exfalso. eauto. }
  pose proof (Hquiet _ (reserve_quiet checked.2 (rangeMap checked.2) ∅
                (final (usecase.checkItems (domain.Items order1) ∅ w)))) as Hreserve.
  destruct (checkItems_keeps _ _ _ _ Hc) as [Hp Hq]. rewrite Hitems in Hp, Hq.
  assert (Hsaved : persisted = usecase.withItems order1 checked.1 ->
            domain.UserID persisted = domain.UserID order
            /\ domain.Status persisted = domain.StatusPending
            /\ map domain.ProductID (domain.Items persisted)
               = map domain.ProductID (domain.Items order)
            /\ map domain.Quantity (domain.Items persisted)
               = map domain.Quantity (domain.Items order)).
  { by intros ->. }
  destruct (value (usecase.reserve _ _ _ _)) as [succ|e].
  2: { cbn [events]. intros Hin. exfalso. apply (Hnot _ (proj2 (Forall_app _ _ _)
         (conj Hreads' Hreserve)) Hin). }
  destruct (domain.CreateOrder _ _) as [[created|err] w']; cbn [events];
    intros [Hin|[Hin|Hin]%elem_of_app]%elem_of_app; try (exfalso; by eauto).
  - apply list_elem_of_singleton in Hin. injection Hin as -> _. by apply Hsaved.
  - apply elem_of_cons in Hin as [[= -> _]|Hin]; [by apply Hsaved|].
    apply elem_of_cons in Hin as [[=]|Hin]. exfalso.
    eapply Hnot; [|exact Hin]. apply Hquiet, rollback_quiet.
Qed.

(** X24: the HTTP [CreateOrder] saves an order for the user of the
    [X-User-ID] header and for no one else: whenever a run asks the store to
    save an order, the header names a positive user, the body was bound to
    a list of items, and the order has that user, the status [pending], and
    the products and the quantities of those items, line by line. *)
Theorem http_CreateOrder_saves_the_order_of_the_header
    (c : httpOrderHandler.Context (list domain.OrderItem)) (w : W)
    (persisted : domain.Order) (res : result domain.Order) :
  CallRepoCreateOrder persisted res ∈ events (httpOrderHandler.CreateOrder c w) ->
  httpOrderHandler.positive (httpOrderHandler.XUserID c) = Some (domain.UserID persisted)
  /\ domain.Status persisted = domain.StatusPending
  /\ exists items,
       httpOrderHandler.JSON c = httpOrderHandler.Bound items
       /\ map domain.ProductID (domain.Items persisted) = map domain.ProductID items
       /\ map domain.Quantity (domain.Items persisted) = map domain.Quantity items.
Proof.
  unfold httpOrderHandler.CreateOrder. cbn zeta.
  destruct (String.eqb (httpOrderHandler.XUserID c) EmptyString).
  { cbn. intros Hin. none_of Hin. }
  destruct (httpOrderHandler.positive (httpOrderHandler.XUserID c)) as [userID|].
  2: { cbn. intros Hin. none_of Hin. }
  destruct (httpOrderHandler.JSON c) as [err|items].
  { cbn. intros Hin. none_of Hin. }
  destruct (length items =? 0)%nat; [by intros ?%elem_of_nil|].
  unfold bind, attempt. cbn [value events final].
  set (order := {| domain.ID := 0; domain.UserID := userID; domain.Items := items;
                   domain.Status := EmptyString; domain.CreatedAt := 0;
                   domain.UpdatedAt := 0 |}).
  intros Hin.
  assert (Hsaved : CallRepoCreateOrder persisted res ∈ events (usecase.CreateOrder order w)).
  { destruct (value (usecase.CreateOrder order w)); cbn [value events final] in Hin;
      apply elem_of_app in Hin as [Hin|Hin]; try done; cbn in Hin; none_of Hin. }
  destruct (CreateOrder_saves _ _ _ _ Hsaved) as (Huser & Hstatus & Hp & Hq).
  split; [by rewrite Huser|]. split; [done|]. by exists items.
Qed.

(** X25: the gRPC [CreateOrder] saves the order of the request:
    whenever a run asks the store to save an order, the user id of the
    request is positive and is the user of that order, and the order has
    the status [pending] and the products and the quantities of the items
    of the request that are not nil, line by line. *)
Theorem grpc_CreateOrder_saves_the_order_of_the_request
    (req : grpcOrderHandler.CreateOrderRequest) (w : W)
    (persisted : domain.Order) (res : result domain.Order) :
  CallRepoCreateOrder persisted res ∈ events (grpcOrderHandler.CreateOrder req w) ->
  0 < grpcOrderHandler.UserId req
  /\ domain.UserID persisted = grpcOrderHandler.UserId req
  /\ domain.Status persisted = domain.StatusPending
  /\ map domain.ProductID (domain.Items persisted)
     = map grpc.ProductId (omap id (grpcOrderHandler.Items req))
  /\ map domain.Quantity (domain.Items persisted)
     = map grpc.Quantity (omap id (grpcOrderHandler.Items req)).
Proof.
  intros Hin.
  destruct (Z.leb_spec (grpcOrderHandler.UserId req) 0) as [Hle|Huser].
  { exfalso. revert Hin. unfold grpcOrderHandler.CreateOrder. cbn zeta.
    destruct (Z.leb_spec (grpcOrderHandler.UserId req) 0); [|lia].
    by intros ?%elem_of_nil. }
  destruct (grpcOrderHandler.Items req) as [|x rest] eqn:Hitems.
  { exfalso. revert Hin. unfold grpcOrderHandler.CreateOrder. cbn zeta.
    destruct (Z.leb_spec (grpcOrderHandler.UserId req) 0); [lia|]. rewrite Hitems.
    by intros ?%elem_of_nil. }
  rewrite <- Hitems in *.
  assert (Hne : grpcOrderHandler.Items req <> []) by by rewrite Hitems.
  rewrite (grpc_CreateOrder_run _ _ Huser Hne) in Hin. cbn zeta in Hin.
  assert (Hsaved : CallRepoCreateOrder persisted res
                   ∈ events (usecase.CreateOrder (grpcOrderHandler.domainOrder req) w)).
  { destruct (value (usecase.CreateOrder (grpcOrderHandler.domainOrder req) w));
      cbn [events] in Hin; [done|].
    apply elem_of_app in Hin as [Hin|Hin]; [done|]. none_of Hin. }
  destruct (CreateOrder_saves _ _ _ _ Hsaved) as (Hu & Hstatus & Hp & Hq).
  split; [done|]. split; [done|]. split; [done|].
  cbn [grpcOrderHandler.domainOrder domain.Items] in Hp, Hq. rewrite Hp, Hq.
  clear. induction (grpcOrderHandler.Items req) as [|[item|] items [IHp IHq]];
    simpl; [done| |done]. by rewrite IHp, IHq.
Qed.

End SavedOrder.

(** ** More concrete runs *)
Section MoreConcreteRuns.

#[local] Existing Instance inmem.forwards.
#[local] Existing Instance doubles.text.

(** Three lines of 2 for product 7, whose stock is 5: the third kind of
    error. *)
Lemma CreateOrder_errors_witness :
  let run := usecase.CreateOrder Scenario.threeLines Scenario.shop in
  let e := usecase.ErrInsufficientStock 7 6 5 in
  (Request.ValidationError e /\ events run = [])
  \/ (exists productID err,
        e = usecase.ErrInventoryCheck productID err
        /\ last (events run) = Some (CallGetProduct productID (Err err))
        /\ Forall (fun ev => Trace.isGetProduct ev = true) (events run))
  \/ (exists productID requested p,
        e = usecase.ErrInsufficientStock productID requested (clients.Stock p)
        /\ clients.Stock p < requested
        /\ last (events run) = Some (CallGetProduct productID (Ok p))
        /\ Forall (fun ev => Trace.isGetProduct ev = true) (events run))
  \/ (exists productID newStock err,
        e = usecase.ErrReserveStock productID err
        /\ CallUpdateStock productID newStock (Some err) ∈ events run)
  \/ (exists persisted err,
        e = usecase.ErrSaveOrder err
        /\ CallRepoCreateOrder persisted (Err err) ∈ events run).
Proof.
  apply (CreateOrder_errors (laws := forwards_laws) Scenario.threeLines Scenario.shop
           (usecase.ErrInsufficientStock 7 6 5)).
  vm_compute. reflexivity.
Defined.

(** Two lines of 2 for product 7, read with stock 5: one update, to 1. *)
Lemma created_order_reserves_each_product_once_witness :
  let order := Scenario.twoLines in
  let run := usecase.CreateOrder order Scenario.shop in
  (forall item, item ∈ domain.Items order ->
     exists p,
       Trace.firstRead (domain.ProductID item) (events run) = Some p
       /\ Updates.updatesOf (domain.ProductID item) (events run)
          = [(clients.Stock p
              - Request.aggregate (domain.ProductID item) (domain.Items order), None)])
  /\ (forall productID,
        ~ Exists (fun item => domain.ProductID item = productID) (domain.Items order) ->
        Updates.updatesOf productID (events run) = [])
  /\ Forall (fun ev => Updates.clean ev = true) (events run).
Proof.
  apply (created_order_reserves_each_product_once (laws := forwards_laws)
           Scenario.twoLines
           {| domain.ID := 1; domain.UserID := 1;
              domain.Items := [inmem.item 7 2 10%float; inmem.item 7 2 10%float];
              domain.Status := domain.StatusPending;
              domain.CreatedAt := 0; domain.UpdatedAt := 0 |}
           Scenario.shop).
  - vm_compute. reflexivity.
  - intros item Hin. simpl in Hin. each_member Hin. all: by vm_compute.
  - intros productID p Hin. vm_compute in Hin.
    repeat (apply elem_of_cons in Hin as [[= -> ->]|Hin]; [by vm_compute|]).
    none_of Hin.
Defined.

(** The first line of the same order: product 7 was read with stock 5,
    which covers the 4 units the two lines ask for. *)
Lemma created_order_within_observed_stock_witness :
  let order := Scenario.twoLines in
  let run := usecase.CreateOrder order Scenario.shop in
  let item := inmem.item 7 2 0%float in
  exists p,
    CallGetProduct (domain.ProductID item) (Ok p) ∈ events run
    /\ Request.aggregate (domain.ProductID item) (domain.Items order) <= clients.Stock p.
Proof.
  apply (created_order_within_observed_stock Scenario.twoLines
           {| domain.ID := 1; domain.UserID := 1;
              domain.Items := [inmem.item 7 2 10%float; inmem.item 7 2 10%float];
              domain.Status := domain.StatusPending;
              domain.CreatedAt := 0; domain.UpdatedAt := 0 |}
           Scenario.shop).
  - vm_compute. reflexivity.
  - intros item Hin. simpl in Hin. each_member Hin. all: by vm_compute.
  - by left.
Defined.

(** Three lines of 2 for product 7: every stock read for it is 5, below 6. *)
Lemma insufficient_stock_whatever_the_inventory_answers_witness :
  let run := usecase.CreateOrder Scenario.threeLines Scenario.shop in
  (exists productID requested available,
      value run = Err (usecase.ErrInsufficientStock productID requested available)
      /\ available < requested)
  /\ Forall (fun ev => Trace.isGetProduct ev = true) (events run).
Proof.
  apply (insufficient_stock_whatever_the_inventory_answers
           Scenario.threeLines Scenario.shop).
  - constructor; simpl; [lia|done| |by left]. repeat constructor.
  - intros item Hin. simpl in Hin. each_member Hin. all: by vm_compute.
  - intros productID err Hin. vm_compute in Hin. none_of Hin.
  - exists (inmem.item 7 2 0%float). split; [by left|].
    intros p Hin. vm_compute in Hin.
    repeat (apply elem_of_cons in Hin as [[= ->]|Hin]; [by vm_compute|]).
    none_of Hin.
Defined.

(** Cancelling the pending order of the scenario calls the inventory. *)
Lemma inventory_is_called_only_to_cancel_witness :
  let w := Scenario.shopWithOrder domain.StatusPending in
  let run := usecase.UpdateOrderStatus 1 domain.StatusCancelled w in
  domain.StatusCancelled = domain.StatusCancelled
  /\ exists currentOrder tail,
       events run = CallRepoGetOrderByID 1 (Ok currentOrder) :: tail
       /\ domain.Status currentOrder <> domain.StatusCancelled
       /\ domain.Status currentOrder <> domain.StatusCompleted
       /\ domain.Items currentOrder <> [].
Proof.
  apply (inventory_is_called_only_to_cancel 1 domain.StatusCancelled
           (Scenario.shopWithOrder domain.StatusPending)).
  vm_compute. apply Exists_cons_tl, Exists_cons_hd. reflexivity.
Defined.

(** Cancelling the completed order of the scenario: an error of the
    guard. *)
Lemma UpdateOrderStatus_errors_witness :
  let id := 1 in
  let status := domain.StatusCancelled in
  let e := usecase.ErrCancelCompleted in
  let run := usecase.UpdateOrderStatus id status
               (Scenario.shopWithOrder domain.StatusCompleted) in
  (e = usecase.ErrInvalidOrderIDForUpdate /\ id <= 0 /\ events run = [])
  \/ (e = usecase.ErrInvalidTargetStatus status
      /\ domain.IsValidStatus status = false /\ events run = [])
  \/ events run = [CallRepoGetOrderByID id (Err e)]
  \/ (Request.InvalidTransitionError e
      /\ exists currentOrder, events run = [CallRepoGetOrderByID id (Ok currentOrder)])
  \/ (exists currentOrder restocking,
        events run =
          CallRepoGetOrderByID id (Ok currentOrder) :: restocking
          ++ CallRepoUpdateOrderStatus id status (Err e)
             :: usecase.lineStatusUpdateFailed id e
             :: (if String.eqb status domain.StatusCancelled
                    && negb (String.eqb (domain.Status currentOrder) domain.StatusCancelled)
                 then [usecase.lineCancelInconsistent id] else [])).
Proof.
  apply (UpdateOrderStatus_errors 1 domain.StatusCancelled
           (Scenario.shopWithOrder domain.StatusCompleted) usecase.ErrCancelCompleted).
  reflexivity.
Defined.

(** The orders of user 1 in the scenario: one order, with its two items. *)
Lemma listed_orders_carry_their_own_items_witness :
  let rows := [inmem.rowOf (Scenario.storedOrder domain.StatusPending)] in
  let itemRows := [(1, inmem.item 7 2 10%float); (1, inmem.item 8 1 1.5%float)] in
  value (repository.ListOrdersByUserID 1 10 0 (Scenario.shopWithOrder domain.StatusPending))
  = Ok (map (fun row =>
               {| domain.ID := repository.id row;
                  domain.UserID := repository.user_id row;
                  domain.Items :=
                    map snd (filter (fun itemRow => itemRow.1 = repository.id row) itemRows);
                  domain.Status := repository.status row;
                  domain.CreatedAt := repository.created_at row;
                  domain.UpdatedAt := repository.updated_at row |})
            rows).
Proof.
  apply (listed_orders_carry_their_own_items 1 10 0
           (Scenario.shopWithOrder domain.StatusPending)
           (Scenario.shopWithOrder domain.StatusPending)).
  - vm_compute. reflexivity.
  - vm_compute. reflexivity.
Defined.

(** One item of product 7 with quantity 0. *)
Lemma grpc_CreateOrder_bad_quantity_witness :
  let req := {| grpcOrderHandler.UserId := 1;
                grpcOrderHandler.Items :=
                  [Some {| grpc.ProductId := 7; grpc.Quantity := 0;
                           grpc.Price := 0%float |}] |} in
  let run := grpcOrderHandler.CreateOrder req Scenario.shop in
  value run
  = Ok (grpcOrderHandler.Refused
          (status.Error codes.Internal
             ("Internal server error: item " +:+ fmt.FormatInt (Z.of_nat (length (@nil domain.OrderItem)))
              +:+ " (product " +:+ fmt.FormatInt 7
              +:+ "): quantity must be positive")))
  /\ events run
     = [LogErrorf "gRPC Handler: CreateOrder use case error for UserID %d: %v"
          [ArgInt 1; ArgErr (usecase.ErrItemQuantity 0 7)]]
  /\ final run = Scenario.shop.
Proof.
  apply (grpc_CreateOrder_answers_a_bad_quantity_with_Internal
           {| grpcOrderHandler.UserId := 1;
              grpcOrderHandler.Items :=
                [Some {| grpc.ProductId := 7; grpc.Quantity := 0;
                         grpc.Price := 0%float |}] |}
           Scenario.shop [] [] (inmem.item 7 0 0%float)).
  - simpl. lia.
  - reflexivity.
  - constructor.
  - simpl. lia.
  - simpl. lia.
Defined.

(** A status that is number 7 on the wire. *)
Lemma grpc_UpdateOrderStatus_unnamed_status_witness :
  let req := {| grpcOrderHandler.Id := 1;
                grpcOrderHandler.Status := grpcOrderHandler.Unnamed 7 |} in
  let run := grpcOrderHandler.UpdateOrderStatus req Scenario.shop in
  value run
  = Ok (grpcOrderHandler.Refused
          (status.Error codes.InvalidArgument "Invalid status value provided: "))
  /\ events run = []
  /\ final run = Scenario.shop.
Proof.
  apply (grpc_UpdateOrderStatus_refuses_an_unnamed_status
           {| grpcOrderHandler.Id := 1;
              grpcOrderHandler.Status := grpcOrderHandler.Unnamed 7 |}
           Scenario.shop).
  - simpl. lia.
  - exact I.
Defined.

(** Cancelling the completed order of the scenario over gRPC. *)
Lemma grpc_UpdateOrderStatus_guard_witness :
  let req := {| grpcOrderHandler.Id := 1;
                grpcOrderHandler.Status := grpcOrderHandler.Named grpc.CANCELLED |} in
  let w := Scenario.shopWithOrder domain.StatusCompleted in
  let run := grpcOrderHandler.UpdateOrderStatus req w in
  exists err,
    Request.InvalidTransitionError err
    /\ value run
       = Ok (grpcOrderHandler.Refused
               (status.Error codes.FailedPrecondition (fmt.Error err)))
    /\ events run
       = [CallRepoGetOrderByID 1 (Ok (Scenario.storedOrder domain.StatusCompleted));
          LogErrorf "gRPC Handler: UpdateOrderStatus use case error for OrderID %d: %v"
            [ArgInt 1; ArgErr err]]
    /\ final run = w.
Proof.
  apply (grpc_UpdateOrderStatus_answers_the_guard_with_FailedPrecondition
           {| grpcOrderHandler.Id := 1;
              grpcOrderHandler.Status := grpcOrderHandler.Named grpc.CANCELLED |}
           (Scenario.storedOrder domain.StatusCompleted)
           (Scenario.shopWithOrder domain.StatusCompleted)
           (Scenario.shopWithOrder domain.StatusCompleted)).
  - simpl. lia.
  - reflexivity.
  - left. by split.
Defined.

(** Product 99 is not in the shop. *)
Lemma unknown_product_witness :
  let req := {| grpcOrderHandler.UserId := 1;
                grpcOrderHandler.Items :=
                  [Some {| grpc.ProductId := 99; grpc.Quantity := 1;
                           grpc.Price := 0%float |}] |} in
  let run := grpcOrderHandler.CreateOrder
               (inventoryClient :=
                  inventoryGRPCClient.inventoryGRPCClient (client := doubles.inventoryService))
               req Scenario.shop in
  let err := usecase.ErrInventoryCheck 99 (inventoryGRPCClient.ErrProductNotFound 99) in
  value run
  = Ok (grpcOrderHandler.Refused
          (status.Error codes.NotFound
             ("inventory check failed for product " +:+ fmt.FormatInt 99
              +:+ ": product with ID " +:+ fmt.FormatInt 99
              +:+ " not found in inventory")))
  /\ events run
     = [CallGetProduct 99 (Err (inventoryGRPCClient.ErrProductNotFound 99));
        LogErrorf "gRPC Handler: CreateOrder use case error for UserID %d: %v"
          [ArgInt 1; ArgErr err]]
  /\ final run = Scenario.shop.
Proof.
  apply (unknown_product_is_answered_NotFound (client := doubles.inventoryService)
           {| grpcOrderHandler.UserId := 1;
              grpcOrderHandler.Items :=
                [Some {| grpc.ProductId := 99; grpc.Quantity := 1;
                         grpc.Price := 0%float |}] |}
           Scenario.shop Scenario.shop (inmem.item 99 1 0%float) []
           "product not found").
  - simpl. lia.
  - reflexivity.
  - repeat constructor.
  - reflexivity.
Defined.

(** An item with quantity 0 violates the check of [order_items]: the
    transaction is rolled back. *)
Lemma repository_CreateOrder_rolls_back_witness :
  let run := postgresOrderRepository.CreateOrder (db := doubles.database)
               (inmem.request 1 [inmem.item 7 0 0%float]) Scenario.shop in
  (answer run).1 = None
  /\ Transaction.commits (trace run) = []
  /\ ((Transaction.began (trace run) = false /\ Transaction.rollbacks (trace run) = [])
      \/ (Transaction.began (trace run) = true
          /\ exists res, Transaction.rollbacks (trace run) = [res])).
Proof.
  apply (repository_CreateOrder_rolls_back_what_it_reports_failed (db := doubles.database)
           (inmem.request 1 [inmem.item 7 0 0%float]) Scenario.shop
           (Errorf "invalid item data (product_id: %d): %s"
              [ArgInt 7; ArgStr "new row violates check constraint"])).
  vm_compute. reflexivity.
Defined.

(** Two lines for product 7 are inserted and committed, twice. *)
Lemma repository_CreateOrder_commits_twice_witness :
  let order := Scenario.twoLines in
  let run := postgresOrderRepository.CreateOrder (db := doubles.database)
               order Scenario.shop in
  exists row first second,
    Transaction.commits (trace run) = [first; second]
    /\ Transaction.rollbacks (trace run) = []
    /\ Transaction.insertedItems (trace run)
       = map (fun item => (repository.id row, item)) (domain.Items order)
    /\ (answer run).1 = match first with
                        | None => Some (postgresOrderRepository.inserted order row)
                        | Some _ => None
                        end.
Proof.
  apply (repository_CreateOrder_commits_twice (db := doubles.database)
           Scenario.twoLines Scenario.shop).
  vm_compute. reflexivity.
Defined.

(** Order 5 is not in the shop. *)
Lemma missing_order_witness :
  let getOrderByID := fun id w =>
    let r := postgresOrderRepository.GetOrderByID (db := doubles.database) id w in
    (answer r, world r) in
  let store := repository.postgresOrderRepository
                 inmem.CreateOrder getOrderByID inmem.UpdateOrderStatus in
  let text := "order with id " +:+ fmt.FormatInt 5 +:+ " not found" in
  postgresOrderRepository.GetOrderByID (db := doubles.database) 5 Scenario.shop
  = {| answer := Err (postgresOrderRepository.ErrOrderNotFound 5);
       trace := [postgresOrderRepository.DbSelectOrder 5 (sql.NotScanned doubles.noRows)];
       world := Scenario.shop |}
  /\ value (grpcOrderHandler.GetOrder (orderRepo := store) 5 Scenario.shop)
     = Ok (grpcOrderHandler.Refused (status.Error codes.NotFound text))
  /\ (forall c : httpOrderHandler.Context unit,
        httpOrderHandler.positive (httpOrderHandler.ParamID c) = Some 5 ->
        is_Some (httpOrderHandler.positive (httpOrderHandler.XUserID c)) ->
        value (httpOrderHandler.GetOrderByID (orderRepo := store) c Scenario.shop)
        = Ok (httpOrderHandler.ErrorResponse httpOrderHandler.StatusNotFound
                ("Failed to retrieve order: " +:+ text))).
Proof.
  apply (missing_order_is_answered_NotFound (db := doubles.database)
           inmem.CreateOrder inmem.UpdateOrderStatus 5 doubles.noRows
           Scenario.shop Scenario.shop).
  - lia.
  - reflexivity.
  - reflexivity.
Defined.

(** User 1 posts two lines for product 7: the order saved is theirs. *)
Lemma http_CreateOrder_witness :
  let persisted :=
    usecase.withItems (usecase.withStatus Scenario.twoLines domain.StatusPending)
      [inmem.item 7 2 10%float; inmem.item 7 2 10%float] in
  let c := {| httpOrderHandler.ParamID := EmptyString;
              httpOrderHandler.XUserID := "1";
              httpOrderHandler.JSON :=
                httpOrderHandler.Bound (domain.Items Scenario.twoLines) |} in
  httpOrderHandler.positive (httpOrderHandler.XUserID c) = Some (domain.UserID persisted)
  /\ domain.Status persisted = domain.StatusPending
  /\ exists items,
       httpOrderHandler.JSON c = httpOrderHandler.Bound items
       /\ map domain.ProductID (domain.Items persisted) = map domain.ProductID items
       /\ map domain.Quantity (domain.Items persisted) = map domain.Quantity items.
Proof.
  apply (http_CreateOrder_saves_the_order_of_the_header
           {| httpOrderHandler.ParamID := EmptyString;
              httpOrderHandler.XUserID := "1";
              httpOrderHandler.JSON :=
                httpOrderHandler.Bound (domain.Items Scenario.twoLines) |}
           Scenario.shop
           (usecase.withItems (usecase.withStatus Scenario.twoLines domain.StatusPending)
              [inmem.item 7 2 10%float; inmem.item 7 2 10%float])
           (Ok {| domain.ID := 1; domain.UserID := 1;
                  domain.Items := [inmem.item 7 2 10%float; inmem.item 7 2 10%float];
                  domain.Status := domain.StatusPending;
                  domain.CreatedAt := 0; domain.UpdatedAt := 0 |})).
  vm_compute. do 3 apply list_elem_of_further. apply list_elem_of_here.
Defined.

(** User 1 asks for two lines of product 7 over gRPC. *)
Lemma grpc_CreateOrder_saves_witness :
  let persisted :=
    usecase.withItems (usecase.withStatus Scenario.twoLines domain.StatusPending)
      [inmem.item 7 2 10%float; inmem.item 7 2 10%float] in
  let req := {| grpcOrderHandler.UserId := 1;
                grpcOrderHandler.Items :=
                  [Some {| grpc.ProductId := 7; grpc.Quantity := 2;
                           grpc.Price := 0%float |};
                   None;
                   Some {| grpc.ProductId := 7; grpc.Quantity := 2;
                           grpc.Price := 99%float |}] |} in
  0 < grpcOrderHandler.UserId req
  /\ domain.UserID persisted = grpcOrderHandler.UserId req
  /\ domain.Status persisted = domain.StatusPending
  /\ map domain.ProductID (domain.Items persisted)
     = map grpc.ProductId (omap id (grpcOrderHandler.Items req))
  /\ map domain.Quantity (domain.Items persisted)
     = map grpc.Quantity (omap id (grpcOrderHandler.Items req)).
Proof.
  apply (grpc_CreateOrder_saves_the_order_of_the_request
           {| grpcOrderHandler.UserId := 1;
              grpcOrderHandler.Items :=
                [Some {| grpc.ProductId := 7; grpc.Quantity := 2;
                         grpc.Price := 0%float |};
                 None;
                 Some {| grpc.ProductId := 7; grpc.Quantity := 2;
                         grpc.Price := 99%float |}] |}
           Scenario.shop
           (usecase.withItems (usecase.withStatus Scenario.twoLines domain.StatusPending)
              [inmem.item 7 2 10%float; inmem.item 7 2 10%float])
           (Ok {| domain.ID := 1; domain.UserID := 1;
                  domain.Items := [inmem.item 7 2 10%float; inmem.item 7 2 10%float];
                  domain.Status := domain.StatusPending;
                  domain.CreatedAt := 0; domain.UpdatedAt := 0 |})).
  vm_compute. do 3 apply list_elem_of_further. apply list_elem_of_here.
Defined.

End MoreConcreteRuns.
